(** * Approval & execution state machine

    A shallow embedding of the two copies of [approval_service.py] kept in
    the repository:

    - [backend/api/v1/core/approval_service.py]           (module [Backend])
    - [AI9-main/backend/api/v1/core/approval_service.py]  (module [AI9])

    Both copies expose [approve_or_reject_order] and
    [approve_or_reject_wallet_load]; they differ in the idempotency guard,
    in the way execution failures are handled and in the status strings
    they write.

    Modelling conventions.
    - Amounts are Python floats in the source.  The model uses exact
      integers in minor units (centavos), the minor-unit decimal of the
      data model; binary rounding is outside the model.
    - A database row is a record holding the columns the service reads or
      writes; a table keyed by its id is a [gmap string _]; append-only
      tables ([wallet_ledger], [game_loads]) are lists, oldest entry first.
      The bookkeeping columns [created_at]/[updated_at] are not modelled.
      A column name that several tables share carries the initial of its
      table ([o_user_id], [lr_user_id], [l_user_id], ...).
    - Python dict literals (result payloads, event extra data) are
      association lists in insertion order.
    - The coroutines run in a state-and-exception monad over [World].
      The [.database] and [.notification_router] modules are collaborators
      whose code is not part of the service; their behaviour is the one
      fixed in section "Collaborators" below. *)

From Stdlib Require Import ZArith String List Bool Lia.
From stdpp Require Import base option gmap strings list fin_maps pretty.

#[local] Set Warnings "-register-all,-clear-no-such-hyp".

Local Open Scope string_scope.
Local Open Scope Z_scope.
Local Open Scope list_scope.

(** ** Values *)

Definition Time := Z.

(** JSON-like values carried by dict literals. *)
Inductive JVal :=
| JNone
| JBool (b : bool)
| JNum (z : Z)
| JStr (s : string)
| JObj (kv : list (string * JVal)).

Definition Dict := list (string * JVal).

(** [d.get(k)] *)
Fixpoint dict_get (d : Dict) (k : string) : option JVal :=
  match d with
  | [] => None
  | (k', v) :: d' => if String.eqb k k' then Some v else dict_get d' k
  end.

(** Python truthiness of [d.get(k)]. *)
Definition truthy (v : option JVal) : bool :=
  match v with
  | None | Some JNone | Some (JBool false) => false
  | Some (JNum z) => negb (z =? 0)
  | Some (JStr s) => negb (String.eqb s "")
  | Some (JObj kv) => match kv with [] => false | _ => true end
  | Some (JBool true) => true
  end.

Definition jopt {A} (f : A -> JVal) (o : option A) : JVal :=
  match o with Some a => f a | None => JNone end.

(** [x or d] for an optional number: [None] and [0] both give [d]. *)
Definition num_or (o : option Z) (d : Z) : Z :=
  match o with
  | Some z => if z =? 0 then d else z
  | None => d
  end.

(** [s or d] for an optional string: [None] and the empty string give [d]. *)
Definition str_or (o : option string) (d : string) : string :=
  match o with
  | Some s => if String.eqb s "" then d else s
  | None => d
  end.

(** [s[:n]] *)
Definition prefix (n : nat) (s : string) : string := String.substring 0 n s.

(** [f"₱{x:,.2f}"] on an amount in minor units. *)
Definition pad (width : nat) (n : Z) : string :=
  let s := pretty n in
  String.concat "" (repeat "0" (width - String.length s)) +:+ s.

Fixpoint commas (fuel : nat) (n : Z) : string :=
  match fuel with
  | O => pretty n
  | S fuel' =>
      if n <? 1000 then pretty n
      else commas fuel' (n / 1000) +:+ "," +:+ pad 3 (n mod 1000)
  end.

Definition peso (x : Z) : string :=
  "₱" +:+ (if x <? 0 then "-" else "")
      +:+ commas 32 (Z.abs x / 100) +:+ "." +:+ pad 2 (Z.abs x mod 100).

(** ** Enumerations of the service *)

Inductive ActorType := ADMIN | TELEGRAM_BOT | SYSTEM.

Definition actor_value (a : ActorType) : string :=
  match a with
  | ADMIN => "admin"
  | TELEGRAM_BOT => "telegram_bot"
  | SYSTEM => "system"
  end.

Global Instance ActorType_eq_dec : EqDecision ActorType.
Proof. solve_decision. Defined.

(** The members of [EventType] (module [notification_router]) that the
    service names. *)
Inductive EventType :=
| ORDER_APPROVED | WALLET_TOPUP_APPROVED | WITHDRAW_APPROVED
| ORDER_AMOUNT_ADJUSTED
| GAME_LOAD_SUCCESS | GAME_LOAD_FAILED | WITHDRAW_EXECUTED
| ORDER_REJECTED | WALLET_TOPUP_REJECTED | WITHDRAW_REJECTED
| WALLET_LOAD_APPROVED | WALLET_LOAD_REJECTED.

Global Instance EventType_eq_dec : EqDecision EventType.
Proof. solve_decision. Defined.

(** ** Rows *)

Record Bot := {
  is_active : bool;
  can_approve_payments : bool;
  can_approve_wallet_loads : bool
}.

Record Order := {
  order_id : string;
  o_user_id : string;
  order_type : string;
  status : string;
  amount : Z;
  bonus_amount : option Z;
  total_amount : Z;
  game_name : string;
  payment_method : string;
  payout_amount : option Z;
  void_amount : option Z;
  execution_attempts : Z;
  approved_by : option string;
  approved_by_type : option string;
  approved_by_id : option string;
  approved_at : option Time;
  amount_adjusted : bool;
  adjusted_by : option string;
  adjusted_at : option Time;
  executed_at : option Time;
  execution_result : option JVal;
  execution_error : option string;
  rejection_reason : option string
}.

Record User := {
  user_id : string;
  username : string;
  display_name : string;
  real_balance : option Z;
  bonus_balance : Z;
  deposit_count : Z;
  total_deposited : Z;
  total_withdrawn : Z
}.

Record LoadRequest := {
  request_id : string;
  lr_user_id : string;
  lr_status : string;
  lr_amount : Z;
  lr_payment_method : string;
  reviewed_by : option string;
  reviewed_at : option Time;
  lr_rejection_reason : option string
}.

(** Row of the join [wallet_load_requests JOIN users]. *)
Record LoadRequestRow := {
  lrr_request : LoadRequest;
  lrr_username : string;
  lrr_display_name : string;
  lrr_real_balance : option Z
}.

Record Game := {
  game_id : string;
  g_game_name : string;
  g_display_name : string
}.

Record GameLoad := {
  load_id : string;
  gl_user_id : string;
  gl_game_id : string;
  gl_game_name : string;
  gl_amount : Z;
  wallet_balance_before : Z;
  wallet_balance_after : Z;
  gl_status : string;
  game_credentials : Dict
}.

Inductive Direction := credit | debit.

Global Instance Direction_eq_dec : EqDecision Direction.
Proof. solve_decision. Defined.

Record LedgerEntry := {
  ledger_id : string;
  l_user_id : string;
  transaction_type : Direction;
  l_amount : Z;
  balance_before : Z;
  balance_after : Z;
  reference_type : string;
  reference_id : string;
  description : string
}.

(** What [emit_event] is called with.  The free-text [message] argument is
    presentation only and is not modelled. *)
Record Event := {
  event_type : EventType;
  title : string;
  e_reference_id : string;
  e_reference_type : string;
  e_user_id : string;
  e_username : string;
  e_display_name : option string;
  e_amount : option Z;
  extra_data : Dict;
  requires_action : bool
}.

(** ** The store and the world *)

Record Db := {
  telegram_bots : gmap string Bot;
  orders : gmap string Order;
  users : gmap string User;
  wallet_load_requests : gmap string LoadRequest;
  games : list Game;
  game_loads : list GameLoad;
  wallet_ledger : list LedgerEntry
}.

(** [faults] is the schedule of persistence failures: every SQL statement
    consumes one entry, [true] meaning that the statement raises.  An
    exhausted schedule means that the remaining statements succeed. *)
Record World := {
  db : Db;
  events : list Event;
  clock : Time;
  next_uuid : nat;
  faults : list bool
}.

(** ** Exceptions and the monad *)

Inductive Exn :=
| DbError
| PyException (msg : string).

(** [str(e)] *)
Definition str (e : Exn) : string :=
  match e with
  | DbError => "database error"
  | PyException msg => msg
  end.

Inductive Outcome (A : Type) :=
| Ret (a : A)
| Raise (e : Exn).
Arguments Ret {A} a.
Arguments Raise {A} e.

Definition M (A : Type) : Type := World -> Outcome A * World.

Definition ret {A} (a : A) : M A := fun w => (Ret a, w).

Definition raise {A} (e : Exn) : M A := fun w => (Raise e, w).

Definition bind {A B} (m : M A) (k : A -> M B) : M B :=
  fun w =>
    match m w with
    | (Ret a, w') => k a w'
    | (Raise e, w') => (Raise e, w')
    end.

Notation "'let*' x ':=' m 'in' k" := (bind m (fun x => k))
  (at level 10, x name, m at level 100, k at level 200).
Notation "'let*' ' pat ':=' m 'in' k" :=
  (bind m (fun x => match x with pat => k end))
  (at level 10, pat pattern, m at level 100, k at level 200).

(** [try: body  except Exception as e: handler e] *)
Definition try_except {A} (body : M A) (handler : Exn -> M A) : M A :=
  fun w =>
    match body w with
    | (Ret a, w') => (Ret a, w')
    | (Raise e, w') => handler e w'
    end.

(** ** Collaborators

    What the service assumes of [.database] and of the connection it gets
    from the pool:
    - every SQL statement either takes effect or raises and leaves the
      store as it was; which statements raise is fixed by the fault schedule
      of the world;
    - obtaining the pool, acquiring a connection, and opening and
      committing a transaction do not raise;
    - [emit_event] does not raise, and what it emitted is not undone when a
      transaction is rolled back. *)

Definition set_db (d : Db) (w : World) : World :=
  {| db := d; events := events w; clock := clock w;
     next_uuid := next_uuid w; faults := faults w |}.

(** One SQL statement reaching the server: consumes one entry of the fault
    schedule. *)
Definition statement : M unit :=
  fun w =>
    match faults w with
    | [] => (Ret tt, w)
    | b :: fs =>
        let w' := {| db := db w; events := events w; clock := clock w;
                     next_uuid := next_uuid w; faults := fs |} in
        if b then (Raise DbError, w') else (Ret tt, w')
    end.

(** A read: the statement, then a pure function of the store. *)
Definition query {A} (q : Db -> A) : M A :=
  let* _ := statement in fun w => (Ret (q (db w)), w).

(** A write: the statement, then an update of the store.  A statement that
    raises leaves the store untouched. *)
Definition exec (u : Db -> Db) : M unit :=
  let* _ := statement in fun w => (Ret tt, set_db (u (db w)) w).

(** [async with conn.transaction(): body].  The writes of [body] are kept
    when it returns and discarded when an exception leaves it; the
    exception is raised again. *)
Definition transaction {A} (body : M A) : M A :=
  fun w =>
    match body w with
    | (Ret a, w') => (Ret a, w')
    | (Raise e, w') => (Raise e, set_db (db w) w')
    end.

(** [datetime.now(timezone.utc)]: reads the clock; time moves on. *)
Definition datetime_now : M Time :=
  fun w => (Ret (clock w),
            {| db := db w; events := events w; clock := clock w + 1;
               next_uuid := next_uuid w; faults := faults w |}).

(** [str(uuid.uuid4())]: a fresh identifier. *)
Definition uuid_str (n : nat) : string :=
  pad 8 (Z.of_nat n) +:+ "-0000-4000-8000-000000000000".

Definition uuid4 : M string :=
  fun w => (Ret (uuid_str (next_uuid w)),
            {| db := db w; events := events w; clock := clock w;
               next_uuid := S (next_uuid w); faults := faults w |}).

(** [await emit_event(...)]: fire-and-forget, recorded in emission order. *)
Definition emit_event (e : Event) : M unit :=
  fun w => (Ret tt,
            {| db := db w; events := events w ++ [e]; clock := clock w;
               next_uuid := next_uuid w; faults := faults w |}).

(** ** Results *)

Record ApprovalResult := {
  success : bool;
  message : string;
  data : Dict
}.

(** [ApprovalResult(success, message)] with the default [data]. *)
Definition result (ok : bool) (msg : string) : ApprovalResult :=
  {| success := ok; message := msg; data := [] |}.

(** ** SQL statements shared by the two copies

    Each [UPDATE] is a function on the row it rewrites, applied with
    [alter] to the row selected by the [WHERE] clause (no row: nothing
    happens); each [INSERT] appends. *)

Definition with_orders (f : gmap string Order -> gmap string Order) (d : Db) : Db :=
  {| telegram_bots := telegram_bots d; orders := f (orders d);
     users := users d; wallet_load_requests := wallet_load_requests d;
     games := games d; game_loads := game_loads d;
     wallet_ledger := wallet_ledger d |}.

Definition with_users (f : gmap string User -> gmap string User) (d : Db) : Db :=
  {| telegram_bots := telegram_bots d; orders := orders d;
     users := f (users d); wallet_load_requests := wallet_load_requests d;
     games := games d; game_loads := game_loads d;
     wallet_ledger := wallet_ledger d |}.

Definition with_requests
    (f : gmap string LoadRequest -> gmap string LoadRequest) (d : Db) : Db :=
  {| telegram_bots := telegram_bots d; orders := orders d;
     users := users d; wallet_load_requests := f (wallet_load_requests d);
     games := games d; game_loads := game_loads d;
     wallet_ledger := wallet_ledger d |}.

Definition insert_game_load (g : GameLoad) (d : Db) : Db :=
  {| telegram_bots := telegram_bots d; orders := orders d;
     users := users d; wallet_load_requests := wallet_load_requests d;
     games := games d; game_loads := game_loads d ++ [g];
     wallet_ledger := wallet_ledger d |}.

Definition insert_ledger (e : LedgerEntry) (d : Db) : Db :=
  {| telegram_bots := telegram_bots d; orders := orders d;
     users := users d; wallet_load_requests := wallet_load_requests d;
     games := games d; game_loads := game_loads d;
     wallet_ledger := wallet_ledger d ++ [e] |}.

(** [UPDATE users SET real_balance = $1, bonus_balance = bonus_balance + $2,
    deposit_count = deposit_count + 1, total_deposited = total_deposited + $3] *)
Definition user_credit (new_balance bonus amt : Z) (u : User) : User :=
  {| user_id := user_id u; username := username u;
     display_name := display_name u;
     real_balance := Some new_balance;
     bonus_balance := bonus_balance u + bonus;
     deposit_count := deposit_count u + 1;
     total_deposited := total_deposited u + amt;
     total_withdrawn := total_withdrawn u |}.

(** [UPDATE users SET real_balance = $1, total_withdrawn = total_withdrawn + $2] *)
Definition user_withdraw (new_balance amt : Z) (u : User) : User :=
  {| user_id := user_id u; username := username u;
     display_name := display_name u;
     real_balance := Some new_balance;
     bonus_balance := bonus_balance u;
     deposit_count := deposit_count u;
     total_deposited := total_deposited u;
     total_withdrawn := total_withdrawn u + amt |}.

(** [UPDATE users SET real_balance = $1] *)
Definition user_set_balance (new_balance : Z) (u : User) : User :=
  {| user_id := user_id u; username := username u;
     display_name := display_name u;
     real_balance := Some new_balance;
     bonus_balance := bonus_balance u;
     deposit_count := deposit_count u;
     total_deposited := total_deposited u;
     total_withdrawn := total_withdrawn u |}.

(** [SELECT * FROM telegram_bots WHERE bot_id = $1] *)
Definition select_bot (bot_id : string) (d : Db) : option Bot :=
  telegram_bots d !! bot_id.

(** [SELECT * FROM orders WHERE order_id = $1] *)
Definition select_order (oid : string) (d : Db) : option Order :=
  orders d !! oid.

(** [SELECT * FROM users WHERE user_id = $1] *)
Definition select_user (uid : string) (d : Db) : option User :=
  users d !! uid.

(** [SELECT wlr.*, u.username, u.display_name, u.real_balance
     FROM wallet_load_requests wlr JOIN users u ON wlr.user_id = u.user_id
     WHERE wlr.request_id = $1] *)
Definition select_load_request (rid : string) (d : Db) : option LoadRequestRow :=
  match wallet_load_requests d !! rid with
  | None => None
  | Some r =>
      match users d !! lr_user_id r with
      | None => None
      | Some u =>
          Some {| lrr_request := r; lrr_username := username u;
                  lrr_display_name := display_name u;
                  lrr_real_balance := real_balance u |}
      end
  end.

(** [SELECT * FROM games WHERE game_name = $1 OR game_id = $1] (first row) *)
Definition select_game (name : string) (d : Db) : option Game :=
  List.find (fun g => String.eqb (g_game_name g) name
                      || String.eqb (game_id g) name) (games d).

(** Bot identity passed by the caller: [bot_id] is used only when truthy. *)
Definition bot_given (bot_id : option string) : option string :=
  match bot_id with
  | Some b => if String.eqb b "" then None else Some b
  | None => None
  end.

(** * [backend/api/v1/core/approval_service.py] *)

Module Backend.

(** [UPDATE orders SET execution_attempts = execution_attempts + 1] *)
Definition order_attempt (o : Order) : Order :=
  {| order_id := order_id o; o_user_id := o_user_id o;
     order_type := order_type o; status := status o;
     amount := amount o; bonus_amount := bonus_amount o;
     total_amount := total_amount o; game_name := game_name o;
     payment_method := payment_method o;
     payout_amount := payout_amount o; void_amount := void_amount o;
     execution_attempts := execution_attempts o + 1;
     approved_by := approved_by o;
     approved_by_type := approved_by_type o;
     approved_by_id := approved_by_id o;
     approved_at := approved_at o;
     amount_adjusted := amount_adjusted o;
     adjusted_by := adjusted_by o; adjusted_at := adjusted_at o;
     executed_at := executed_at o;
     execution_result := execution_result o;
     execution_error := execution_error o;
     rejection_reason := rejection_reason o |}.

(** The final status update of [_process_approval]:
    [UPDATE orders SET status = $1, approved_by = $2, approved_by_type = $3,
     approved_by_id = $4, approved_at = $5, amount = $6, total_amount = $7,
     amount_adjusted = $8, adjusted_by = $9, adjusted_at = $10,
     executed_at = $11, execution_result = $12, execution_error = $13] *)
Definition order_finalize (final_status actor actor_kind : string) (now : Time)
    (amt total : Z) (adjusted : bool) (executed : option Time)
    (res : option Dict) (err : option string) (o : Order) : Order :=
  {| order_id := order_id o; o_user_id := o_user_id o;
     order_type := order_type o;
     status := final_status;
     amount := amt; bonus_amount := bonus_amount o;
     total_amount := total; game_name := game_name o;
     payment_method := payment_method o;
     payout_amount := payout_amount o; void_amount := void_amount o;
     execution_attempts := execution_attempts o;
     approved_by := Some actor;
     approved_by_type := Some actor_kind;
     approved_by_id := Some actor;
     approved_at := Some now;
     amount_adjusted := adjusted;
     adjusted_by := if adjusted then Some actor else None;
     adjusted_at := if adjusted then Some now else None;
     executed_at := executed;
     execution_result := JObj <$> res;
     execution_error := err;
     rejection_reason := rejection_reason o |}.

(** [UPDATE orders SET status = 'REJECTED', rejection_reason = $1,
     approved_by = $2, approved_by_type = $3, approved_by_id = $4,
     approved_at = $5] *)
Definition order_reject (reason actor actor_kind : string) (now : Time)
    (o : Order) : Order :=
  {| order_id := order_id o; o_user_id := o_user_id o;
     order_type := order_type o;
     status := "REJECTED";
     amount := amount o; bonus_amount := bonus_amount o;
     total_amount := total_amount o; game_name := game_name o;
     payment_method := payment_method o;
     payout_amount := payout_amount o; void_amount := void_amount o;
     execution_attempts := execution_attempts o;
     approved_by := Some actor;
     approved_by_type := Some actor_kind;
     approved_by_id := Some actor;
     approved_at := Some now;
     amount_adjusted := amount_adjusted o;
     adjusted_by := adjusted_by o; adjusted_at := adjusted_at o;
     executed_at := executed_at o;
     execution_result := execution_result o;
     execution_error := execution_error o;
     rejection_reason := Some reason |}.

(** [UPDATE wallet_load_requests SET status = 'approved', amount = $1,
     reviewed_by = $2, reviewed_at = $3] *)
Definition request_approve (amt : Z) (actor : string) (now : Time)
    (r : LoadRequest) : LoadRequest :=
  {| request_id := request_id r; lr_user_id := lr_user_id r;
     lr_status := "approved";
     lr_amount := amt;
     lr_payment_method := lr_payment_method r;
     reviewed_by := Some actor; reviewed_at := Some now;
     lr_rejection_reason := lr_rejection_reason r |}.

(** [UPDATE wallet_load_requests SET status = 'rejected',
     rejection_reason = $1, reviewed_by = $2, reviewed_at = $3] *)
Definition request_reject (reason actor : string) (now : Time)
    (r : LoadRequest) : LoadRequest :=
  {| request_id := request_id r; lr_user_id := lr_user_id r;
     lr_status := "rejected";
     lr_amount := lr_amount r;
     lr_payment_method := lr_payment_method r;
     reviewed_by := Some actor; reviewed_at := Some now;
     lr_rejection_reason := Some reason |}.

(** [execute_game_load(order, user, conn)] *)
Definition execute_game_load (order : Order) (user : User) : M Dict :=
  try_except
    (let* load := uuid4 in
     let name := game_name order in
     let amt := amount order in
     let* game := query (select_game name) in
     match game with
     | None =>
         ret [("success", JBool false);
              ("error", JStr ("Game not found: " +:+ name))]
     | Some game =>
         let* current_user := query (select_user (user_id user)) in
         match current_user with
         | None => raise (PyException "'NoneType' object is not subscriptable")
         | Some current_user =>
             let before := num_or (real_balance current_user) 0 in
             let new_balance := before - amt in
             if new_balance <? 0 then
               ret [("success", JBool false);
                    ("error", JStr "Insufficient wallet balance");
                    ("balance", JNum before)]
             else
               let* _ := exec (with_users
                                 (alter (user_set_balance new_balance)
                                        (user_id user))) in
               let* session := uuid4 in
               let* loaded_at := datetime_now in
               let creds := [("session_id", JStr (prefix 8 session));
                             ("game_token", JStr ("GT-" +:+ prefix 8 load));
                             ("loaded_at", JNum loaded_at)] in
               let* _ := exec (insert_game_load
                    {| load_id := load; gl_user_id := user_id user;
                       gl_game_id := game_id game;
                       gl_game_name := g_game_name game;
                       gl_amount := amt;
                       wallet_balance_before := before;
                       wallet_balance_after := new_balance;
                       gl_status := "completed";
                       game_credentials := creds |}) in
               let* lid := uuid4 in
               let* _ := exec (insert_ledger
                    {| ledger_id := lid; l_user_id := user_id user;
                       transaction_type := debit; l_amount := amt;
                       balance_before := before;
                       balance_after := new_balance;
                       reference_type := "game_load";
                       reference_id := load;
                       description :=
                         "Game load: " +:+ g_display_name game +:+
                         " (Order: " +:+ prefix 8 (order_id order) +:+ ")" |}) in
               ret [("success", JBool true);
                    ("load_id", JStr load);
                    ("amount_loaded", JNum amt);
                    ("wallet_balance_remaining", JNum new_balance);
                    ("game_name", JStr (g_game_name game));
                    ("game_display_name", JStr (g_display_name game));
                    ("game_credentials", JObj creds)]
         end
     end)
    (fun e => ret [("success", JBool false); ("error", JStr (str e))]).

(** [execute_withdrawal(order, user, conn)] *)
Definition execute_withdrawal (order : Order) (user : User) : M Dict :=
  try_except
    (let* transaction_id := uuid4 in
     let payout := match payout_amount order with
                   | Some p => if p =? 0 then amount order else p
                   | None => amount order
                   end in
     let void := num_or (void_amount order) 0 in
     let* current_user := query (select_user (user_id user)) in
     match current_user with
     | None => raise (PyException "'NoneType' object is not subscriptable")
     | Some current_user =>
         let balance_after := num_or (real_balance current_user) 0 in
         let* executed := datetime_now in
         ret [("success", JBool true);
              ("transaction_id", JStr transaction_id);
              ("payout_amount", JNum payout);
              ("void_amount", JNum void);
              ("wallet_balance_remaining", JNum balance_after);
              ("executed_at", JNum executed)]
     end)
    (fun e => ret [("success", JBool false); ("error", JStr (str e))]).

(** What the branches of [_process_approval] leave in the local variables
    [execution_result], [executed_at], [final_status], [execution_error]. *)
Definition Locals : Type :=
  option Dict * option Time * string * option string.

(** [execution_result.get('error', default)] rendered for the error column. *)
Definition error_of (res : Dict) (default : string) : string :=
  match dict_get res "error" with
  | Some (JStr s) => s
  | _ => default
  end.

(** [_process_approval(order, user, actor_type, actor_id, final_amount, now)] *)
Definition _process_approval (order : Order) (user : User)
    (actor_type : ActorType) (actor_id : string) (final_amount : option Z)
    (now : Time) : M ApprovalResult :=
  let oid := order_id order in
  let kind := order_type order in
  let amt := match final_amount with Some f => f | None => amount order end in
  let bonus := num_or (bonus_amount order) 0 in
  let adjusted := match final_amount with
                  | Some f => negb (f =? amount order)
                  | None => false
                  end in
  let* '(execution_result, executed, final_status, error) :=
    transaction
      (let* _ := exec (with_orders (alter order_attempt oid)) in
       let* locals :=
         if bool_decide (kind ∈ ["wallet_topup"; "deposit"]) then
           try_except
             (let current_balance := num_or (real_balance user) 0 in
              let new_balance := current_balance + amt in
              let* _ := exec (with_users
                                (alter (user_credit new_balance bonus amt)
                                       (user_id user))) in
              let* lid := uuid4 in
              let* _ := exec (insert_ledger
                   {| ledger_id := lid; l_user_id := user_id user;
                      transaction_type := credit; l_amount := amt;
                      balance_before := current_balance;
                      balance_after := new_balance;
                      reference_type := "order"; reference_id := oid;
                      description :=
                        "Wallet top-up via " +:+ payment_method order |}) in
              ret (Some [("success", JBool true);
                         ("wallet_credited", JNum amt);
                         ("wallet_balance", JNum new_balance);
                         ("executed_at", JNum now)],
                   Some now, "APPROVED_EXECUTED", None) : M Locals)
             (fun e =>
                let err := "Wallet credit failed: " +:+ str e in
                ret (Some [("success", JBool false); ("error", JStr err)],
                     Some now, "APPROVED_FAILED", Some err))
         else if String.eqb kind "game_load" then
           let* res := execute_game_load order user in
           if negb (truthy (dict_get res "success")) then
             let err := error_of res "Game load execution failed" in
             let* _ := emit_event
                  {| event_type := GAME_LOAD_FAILED;
                     title := "Game Load Failed";
                     e_reference_id := oid; e_reference_type := "order";
                     e_user_id := user_id user;
                     e_username := username user;
                     e_display_name := Some (display_name user);
                     e_amount := None; extra_data := [];
                     requires_action := true |} in
             ret (Some res, Some now, "APPROVED_FAILED", Some err)
           else
             ret (Some res, Some now, "APPROVED_EXECUTED", None)
         else if String.eqb kind "withdrawal" then
           try_except
             (let current_balance := num_or (real_balance user) 0 in
              let new_balance := current_balance - amt in
              if new_balance <? 0 then
                raise (PyException "Insufficient balance for withdrawal")
              else
                let* _ := exec (with_users
                                  (alter (user_withdraw new_balance amt)
                                         (user_id user))) in
                let* lid := uuid4 in
                let* _ := exec (insert_ledger
                     {| ledger_id := lid; l_user_id := user_id user;
                        transaction_type := debit; l_amount := amt;
                        balance_before := current_balance;
                        balance_after := new_balance;
                        reference_type := "withdrawal"; reference_id := oid;
                        description :=
                          "Withdrawal to " +:+ payment_method order |}) in
                let* res := execute_withdrawal order user in
                if negb (truthy (dict_get res "success")) then
                  ret (Some res, Some now, "APPROVED_FAILED",
                       Some (error_of res "Withdrawal execution failed"))
                else
                  ret (Some res, Some now, "APPROVED_EXECUTED", None))
             (fun e =>
                let err := "Withdrawal failed: " +:+ str e in
                ret (Some [("success", JBool false); ("error", JStr err)],
                     Some now, "APPROVED_FAILED", Some err))
         else
           ret (None, None, "APPROVED_EXECUTED", None) in
       let '(execution_result, executed, final_status, error) := locals in
       let* _ := exec (with_orders
                         (alter (order_finalize final_status actor_id
                                   (actor_value actor_type) now amt
                                   (amt + bonus) adjusted executed
                                   execution_result error) oid)) in
       ret locals) in
  if String.eqb final_status "APPROVED_FAILED" then
    ret {| success := false;
           message := "Execution failed: " +:+ default "None" error;
           data := [("order_id", JStr oid);
                    ("status", JStr final_status);
                    ("execution_error", jopt JStr error)] |}
  else
    let* _ := emit_event
         {| event_type :=
              if String.eqb kind "wallet_topup" then WALLET_TOPUP_APPROVED
              else if String.eqb kind "withdrawal" then WITHDRAW_APPROVED
              else ORDER_APPROVED;
            title := "Order Approved & Executed";
            e_reference_id := oid; e_reference_type := "order";
            e_user_id := user_id user;
            e_username := username user;
            e_display_name := Some (display_name user);
            e_amount := Some amt;
            extra_data :=
              [("order_type", JStr kind);
               ("approved_by", JStr actor_id);
               ("actor_type", JStr (actor_value actor_type));
               ("amount_adjusted", JBool adjusted);
               ("original_amount",
                 if adjusted then JNum (amount order) else JNone);
               ("final_status", JStr final_status)];
            requires_action := false |} in
    let* _ :=
      if adjusted then
        emit_event
          {| event_type := ORDER_AMOUNT_ADJUSTED;
             title := "Order Amount Adjusted";
             e_reference_id := oid; e_reference_type := "order";
             e_user_id := user_id user;
             e_username := username user;
             e_display_name := None;
             e_amount := Some amt;
             extra_data :=
               [("old_amount", JNum (amount order));
                ("new_amount", JNum amt);
                ("adjusted_by", JStr actor_id)];
             requires_action := false |}
      else ret tt in
    let* _ :=
      match execution_result with
      | Some res =>
          if truthy (dict_get res "success") then
            if String.eqb kind "game_load" then
              emit_event
                {| event_type := GAME_LOAD_SUCCESS;
                   title := "Game Load Executed";
                   e_reference_id := oid; e_reference_type := "order";
                   e_user_id := user_id user;
                   e_username := username user;
                   e_display_name := Some (display_name user);
                   e_amount := Some amt;
                   extra_data :=
                     [("load_id", default JNone (dict_get res "load_id"));
                      ("game_name", default JNone (dict_get res "game_name"));
                      ("wallet_balance_remaining",
                        default JNone
                          (dict_get res "wallet_balance_remaining"))];
                   requires_action := false |}
            else if String.eqb kind "withdrawal" then
              emit_event
                {| event_type := WITHDRAW_EXECUTED;
                   title := "Withdrawal Executed";
                   e_reference_id := oid; e_reference_type := "order";
                   e_user_id := user_id user;
                   e_username := username user;
                   e_display_name := Some (display_name user);
                   e_amount := Some amt;
                   extra_data := res;
                   requires_action := false |}
            else if bool_decide (kind ∈ ["wallet_topup"; "deposit"]) then
              emit_event
                {| event_type := WALLET_TOPUP_APPROVED;
                   title := "Wallet Top-up Executed";
                   e_reference_id := oid; e_reference_type := "order";
                   e_user_id := user_id user;
                   e_username := username user;
                   e_display_name := Some (display_name user);
                   e_amount := Some amt;
                   extra_data := res;
                   requires_action := false |}
            else ret tt
          else ret tt
      | None => ret tt
      end in
    ret {| success := true;
           message := "Order approved and executed successfully";
           data := [("order_id", JStr oid);
                    ("amount", JNum amt);
                    ("amount_adjusted", JBool adjusted);
                    ("order_type", JStr kind);
                    ("status", JStr final_status);
                    ("executed", JBool (bool_decide (is_Some executed)));
                    ("execution_result", jopt JObj execution_result)] |}.

(** [_process_rejection(order, user, actor_type, actor_id, rejection_reason, now)] *)
Definition _process_rejection (order : Order) (user : User)
    (actor_type : ActorType) (actor_id : string)
    (rejection_reason : option string) (now : Time) : M ApprovalResult :=
  let oid := order_id order in
  let kind := order_type order in
  let reason := str_or rejection_reason "Rejected by reviewer" in
  let* _ := exec (with_orders
                    (alter (order_reject reason actor_id
                              (actor_value actor_type) now) oid)) in
  let* _ := emit_event
       {| event_type :=
            if String.eqb kind "wallet_topup" then WALLET_TOPUP_REJECTED
            else if String.eqb kind "withdrawal" then WITHDRAW_REJECTED
            else ORDER_REJECTED;
          title := "Order Rejected";
          e_reference_id := oid; e_reference_type := "order";
          e_user_id := user_id user;
          e_username := username user;
          e_display_name := Some (display_name user);
          e_amount := Some (amount order);
          extra_data :=
            [("order_type", JStr kind);
             ("rejected_by", JStr actor_id);
             ("actor_type", JStr (actor_value actor_type));
             ("reason", JStr reason)];
          requires_action := false |} in
  ret {| success := true;
         message := "Order rejected";
         data := [("order_id", JStr oid);
                  ("reason", JStr reason);
                  ("order_type", JStr kind)] |}.

(** The statuses the idempotency check of [approve_or_reject_order] lets
    through. *)
Definition order_pending_states : list string :=
  ["pending"; "PENDING_REVIEW"; "initiated"; "awaiting_payment_proof"].

(** [approve_or_reject_order(order_id, action, actor_type, actor_id,
     final_amount, rejection_reason, bot_id)] *)
Definition approve_or_reject_order (oid action : string)
    (actor_type : ActorType) (actor_id : string) (final_amount : option Z)
    (rejection_reason bot_id : option string) : M ApprovalResult :=
  let* denied :=
    match actor_type, bot_given bot_id with
    | TELEGRAM_BOT, Some b =>
        let* bot := query (select_bot b) in
        match bot with
        | None => ret (Some (result false "Bot not found"))
        | Some bot =>
            if negb (is_active bot) then
              ret (Some (result false "Bot is not active"))
            else if negb (can_approve_payments bot) then
              ret (Some (result false "Bot does not have approval permissions"))
            else ret None
        end
    | _, _ => ret None
    end in
  match denied with
  | Some r => ret r
  | None =>
      let* order := query (select_order oid) in
      match order with
      | None => ret (result false "Order not found")
      | Some order =>
          if negb (bool_decide (status order ∈ order_pending_states)) then
            ret {| success := false;
                   message := "Order already " +:+ status order;
                   data := [("already_processed", JBool true)] |}
          else
            let* now := datetime_now in
            let* user := query (select_user (o_user_id order)) in
            match user with
            | None => ret (result false "User not found")
            | Some user =>
                if String.eqb action "approve" then
                  _process_approval order user actor_type actor_id
                    final_amount now
                else
                  _process_rejection order user actor_type actor_id
                    rejection_reason now
            end
      end
  end.

(** [approve_or_reject_wallet_load(request_id, action, actor_type, actor_id,
     final_amount, rejection_reason, bot_id)] *)
Definition approve_or_reject_wallet_load (rid action : string)
    (actor_type : ActorType) (actor_id : string) (final_amount : option Z)
    (rejection_reason bot_id : option string) : M ApprovalResult :=
  let* denied :=
    match actor_type, bot_given bot_id with
    | TELEGRAM_BOT, Some b =>
        let* bot := query (select_bot b) in
        match bot with
        | None => ret (Some (result false "Bot not found"))
        | Some bot =>
            if negb (is_active bot) then
              ret (Some (result false "Bot is not active"))
            else if negb (can_approve_wallet_loads bot) then
              ret (Some (result false
                           "Bot does not have wallet load approval permissions"))
            else ret None
        end
    | _, _ => ret None
    end in
  match denied with
  | Some r => ret r
  | None =>
      let* row := query (select_load_request rid) in
      match row with
      | None => ret (result false "Request not found")
      | Some row =>
          let load_request := lrr_request row in
          if negb (String.eqb (lr_status load_request) "pending") then
            ret {| success := false;
                   message := "Request already " +:+ lr_status load_request;
                   data := [("already_processed", JBool true)] |}
          else
            let* now := datetime_now in
            let amt := match final_amount with
                       | Some f => f
                       | None => lr_amount load_request
                       end in
            let adjusted := match final_amount with
                            | Some f => negb (f =? lr_amount load_request)
                            | None => false
                            end in
            if String.eqb action "approve" then
              let current_balance := num_or (lrr_real_balance row) 0 in
              let new_balance := current_balance + amt in
              let* _ :=
                transaction
                  (let* _ := exec (with_users
                                     (alter (user_set_balance new_balance)
                                            (lr_user_id load_request))) in
                   let* _ := exec (with_requests
                                     (alter (request_approve amt actor_id now)
                                            rid)) in
                   let* lid := uuid4 in
                   exec (insert_ledger
                     {| ledger_id := lid;
                        l_user_id := lr_user_id load_request;
                        transaction_type := credit; l_amount := amt;
                        balance_before := current_balance;
                        balance_after := new_balance;
                        reference_type := "wallet_load";
                        reference_id := rid;
                        description :=
                          "Wallet load via " +:+
                          lr_payment_method load_request |})) in
              let* _ := emit_event
                   {| event_type := WALLET_LOAD_APPROVED;
                      title := "Wallet Load Approved";
                      e_reference_id := rid;
                      e_reference_type := "wallet_load";
                      e_user_id := lr_user_id load_request;
                      e_username := lrr_username row;
                      e_display_name := Some (lrr_display_name row);
                      e_amount := Some amt;
                      extra_data :=
                        [("new_balance", JNum new_balance);
                         ("approved_by", JStr actor_id);
                         ("actor_type", JStr (actor_value actor_type));
                         ("amount_adjusted", JBool adjusted)];
                      requires_action := false |} in
              ret {| success := true;
                     message := "Wallet load approved";
                     data := [("request_id", JStr rid);
                              ("amount", JNum amt);
                              ("new_balance", JNum new_balance);
                              ("amount_adjusted", JBool adjusted)] |}
            else
              let reason := str_or rejection_reason "Rejected by reviewer" in
              let* _ := exec (with_requests
                                (alter (request_reject reason actor_id now)
                                       rid)) in
              let* _ := emit_event
                   {| event_type := WALLET_LOAD_REJECTED;
                      title := "Wallet Load Rejected";
                      e_reference_id := rid;
                      e_reference_type := "wallet_load";
                      e_user_id := lr_user_id load_request;
                      e_username := lrr_username row;
                      e_display_name := Some (lrr_display_name row);
                      e_amount := Some (lr_amount load_request);
                      extra_data :=
                        [("rejected_by", JStr actor_id);
                         ("actor_type", JStr (actor_value actor_type));
                         ("reason", JStr reason)];
                      requires_action := false |} in
              ret {| success := true;
                     message := "Wallet load rejected";
                     data := [("request_id", JStr rid);
                              ("reason", JStr reason)] |}
      end
  end.

End Backend.

(** * [AI9-main/backend/api/v1/core/approval_service.py] *)

Module AI9.

(** The status update that closes the transaction of [_process_approval]:
    [UPDATE orders SET status = $1, approved_by = $2, approved_at = $3,
     executed_at = $4, execution_result = $5, amount = $6,
     total_amount = $7, amount_adjusted = $8, adjusted_by = $9,
     adjusted_at = $10] *)
Definition order_finalize (final_status actor : string) (now : Time)
    (executed : option Time) (res : option string) (amt total : Z)
    (adjusted : bool) (o : Order) : Order :=
  {| order_id := order_id o; o_user_id := o_user_id o;
     order_type := order_type o;
     status := final_status;
     amount := amt; bonus_amount := bonus_amount o;
     total_amount := total; game_name := game_name o;
     payment_method := payment_method o;
     payout_amount := payout_amount o; void_amount := void_amount o;
     execution_attempts := execution_attempts o;
     approved_by := Some actor;
     approved_by_type := approved_by_type o;
     approved_by_id := approved_by_id o;
     approved_at := Some now;
     amount_adjusted := adjusted;
     adjusted_by := if adjusted then Some actor else None;
     adjusted_at := if adjusted then Some now else None;
     executed_at := executed;
     execution_result := JStr <$> res;
     execution_error := execution_error o;
     rejection_reason := rejection_reason o |}.

(** The follow-up write of the [except] branch:
    [UPDATE orders SET status = 'APPROVED_FAILED', approved_by = $1,
     approved_at = $2, execution_result = $3] *)
Definition order_mark_failed (actor : string) (now : Time) (res : string)
    (o : Order) : Order :=
  {| order_id := order_id o; o_user_id := o_user_id o;
     order_type := order_type o;
     status := "APPROVED_FAILED";
     amount := amount o; bonus_amount := bonus_amount o;
     total_amount := total_amount o; game_name := game_name o;
     payment_method := payment_method o;
     payout_amount := payout_amount o; void_amount := void_amount o;
     execution_attempts := execution_attempts o;
     approved_by := Some actor;
     approved_by_type := approved_by_type o;
     approved_by_id := approved_by_id o;
     approved_at := Some now;
     amount_adjusted := amount_adjusted o;
     adjusted_by := adjusted_by o; adjusted_at := adjusted_at o;
     executed_at := executed_at o;
     execution_result := Some (JStr res);
     execution_error := execution_error o;
     rejection_reason := rejection_reason o |}.

(** [UPDATE orders SET status = 'REJECTED', rejection_reason = $1,
     approved_by = $2, approved_at = $3] *)
Definition order_reject (reason actor : string) (now : Time) (o : Order)
    : Order :=
  {| order_id := order_id o; o_user_id := o_user_id o;
     order_type := order_type o;
     status := "REJECTED";
     amount := amount o; bonus_amount := bonus_amount o;
     total_amount := total_amount o; game_name := game_name o;
     payment_method := payment_method o;
     payout_amount := payout_amount o; void_amount := void_amount o;
     execution_attempts := execution_attempts o;
     approved_by := Some actor;
     approved_by_type := approved_by_type o;
     approved_by_id := approved_by_id o;
     approved_at := Some now;
     amount_adjusted := amount_adjusted o;
     adjusted_by := adjusted_by o; adjusted_at := adjusted_at o;
     executed_at := executed_at o;
     execution_result := execution_result o;
     execution_error := execution_error o;
     rejection_reason := Some reason |}.

(** [UPDATE wallet_load_requests SET status = 'APPROVED_EXECUTED',
     amount = $1, reviewed_by = $2, reviewed_at = $3] *)
Definition request_approve (amt : Z) (actor : string) (now : Time)
    (r : LoadRequest) : LoadRequest :=
  {| request_id := request_id r; lr_user_id := lr_user_id r;
     lr_status := "APPROVED_EXECUTED";
     lr_amount := amt;
     lr_payment_method := lr_payment_method r;
     reviewed_by := Some actor; reviewed_at := Some now;
     lr_rejection_reason := lr_rejection_reason r |}.

(** [UPDATE wallet_load_requests SET status = 'APPROVED_FAILED',
     reviewed_by = $1, reviewed_at = $2, rejection_reason = $3] *)
Definition request_mark_failed (actor : string) (now : Time) (why : string)
    (r : LoadRequest) : LoadRequest :=
  {| request_id := request_id r; lr_user_id := lr_user_id r;
     lr_status := "APPROVED_FAILED";
     lr_amount := lr_amount r;
     lr_payment_method := lr_payment_method r;
     reviewed_by := Some actor; reviewed_at := Some now;
     lr_rejection_reason := Some why |}.

(** [UPDATE wallet_load_requests SET status = 'REJECTED',
     rejection_reason = $1, reviewed_by = $2, reviewed_at = $3] *)
Definition request_reject (reason actor : string) (now : Time)
    (r : LoadRequest) : LoadRequest :=
  {| request_id := request_id r; lr_user_id := lr_user_id r;
     lr_status := "REJECTED";
     lr_amount := lr_amount r;
     lr_payment_method := lr_payment_method r;
     reviewed_by := Some actor; reviewed_at := Some now;
     lr_rejection_reason := Some reason |}.

(** [_process_approval(order, user, actor_type, actor_id, final_amount, now)] *)
Definition _process_approval (order : Order) (user : User)
    (actor_type : ActorType) (actor_id : string) (final_amount : option Z)
    (now : Time) : M ApprovalResult :=
  let oid := order_id order in
  let kind := order_type order in
  let amt := match final_amount with Some f => f | None => amount order end in
  let bonus := num_or (bonus_amount order) 0 in
  let adjusted := match final_amount with
                  | Some f => negb (f =? amount order)
                  | None => false
                  end in
  let* attempt :=
    try_except
      (let* locals :=
         transaction
           (let* '(execution_success, execution_result) :=
              if bool_decide (kind ∈ ["wallet_topup"; "deposit"]) then
                let current_balance := num_or (real_balance user) 0 in
                let new_balance := current_balance + amt in
                let* _ := exec (with_users
                                  (alter (user_credit new_balance bonus amt)
                                         (user_id user))) in
                let* lid := uuid4 in
                let* _ := exec (insert_ledger
                     {| ledger_id := lid; l_user_id := user_id user;
                        transaction_type := credit; l_amount := amt;
                        balance_before := current_balance;
                        balance_after := new_balance;
                        reference_type := "order"; reference_id := oid;
                        description :=
                          "Wallet top-up via " +:+ payment_method order |}) in
                ret (true, Some ("Wallet credited: " +:+ peso amt))
              else if String.eqb kind "game_load" then
                ret (true,
                     Some "Game load approved - pending execution via game_routes")
              else if String.eqb kind "withdrawal" then
                let current_balance := num_or (real_balance user) 0 in
                if current_balance <? amt then
                  raise (PyException
                           ("Insufficient balance: has " +:+ peso current_balance
                            +:+ ", needs " +:+ peso amt))
                else
                  let new_balance := current_balance - amt in
                  let* _ := exec (with_users
                                    (alter (user_withdraw new_balance amt)
                                           (user_id user))) in
                  let* lid := uuid4 in
                  let* _ := exec (insert_ledger
                       {| ledger_id := lid; l_user_id := user_id user;
                          transaction_type := debit; l_amount := amt;
                          balance_before := current_balance;
                          balance_after := new_balance;
                          reference_type := "withdrawal";
                          reference_id := oid;
                          description :=
                            "Withdrawal to " +:+ payment_method order |}) in
                  ret (true, Some ("Withdrawal processed: " +:+ peso amt))
              else ret (false, None) in
            let final_status :=
              if execution_success then "APPROVED_EXECUTED"
              else "APPROVED_FAILED" in
            let* _ := exec (with_orders
                              (alter (order_finalize final_status actor_id now
                                        (if execution_success then Some now
                                         else None)
                                        execution_result amt (amt + bonus)
                                        adjusted) oid)) in
            ret (execution_success, execution_result)) in
       ret (inr locals))
      (fun e =>
         let* _ := exec (with_orders
                           (alter (order_mark_failed actor_id now
                                     ("Execution failed: " +:+ str e)) oid)) in
         ret (inl {| success := false;
                     message :=
                       "Order approved but execution failed: " +:+ str e;
                     data := [("order_id", JStr oid);
                              ("status", JStr "APPROVED_FAILED");
                              ("error", JStr (str e))] |})) in
  match attempt with
  | inl failed => ret failed
  | inr (execution_success, execution_result) =>
      let final_status :=
        if execution_success then "APPROVED_EXECUTED"
        else "APPROVED_FAILED" in
      let* _ := emit_event
           {| event_type :=
                if String.eqb kind "wallet_topup" then WALLET_TOPUP_APPROVED
                else if String.eqb kind "withdrawal" then WITHDRAW_APPROVED
                else ORDER_APPROVED;
              title := if execution_success then "Order Approved Executed"
                       else "Order Approved Failed";
              e_reference_id := oid; e_reference_type := "order";
              e_user_id := user_id user;
              e_username := username user;
              e_display_name := Some (display_name user);
              e_amount := Some amt;
              extra_data :=
                [("order_type", JStr kind);
                 ("approved_by", JStr actor_id);
                 ("actor_type", JStr (actor_value actor_type));
                 ("amount_adjusted", JBool adjusted);
                 ("original_amount",
                   if adjusted then JNum (amount order) else JNone);
                 ("final_status", JStr final_status);
                 ("execution_result", jopt JStr execution_result)];
              requires_action := false |} in
      let* _ :=
        if adjusted then
          emit_event
            {| event_type := ORDER_AMOUNT_ADJUSTED;
               title := "Order Amount Adjusted";
               e_reference_id := oid; e_reference_type := "order";
               e_user_id := user_id user;
               e_username := username user;
               e_display_name := None;
               e_amount := Some amt;
               extra_data :=
                 [("old_amount", JNum (amount order));
                  ("new_amount", JNum amt);
                  ("adjusted_by", JStr actor_id)];
               requires_action := false |}
        else ret tt in
      ret {| success := true;
             message := "Order approved and executed successfully ("
                        +:+ final_status +:+ ")";
             data := [("order_id", JStr oid);
                      ("amount", JNum amt);
                      ("amount_adjusted", JBool adjusted);
                      ("order_type", JStr kind);
                      ("final_status", JStr final_status);
                      ("execution_result", jopt JStr execution_result)] |}
  end.

(** [_process_rejection(order, user, actor_type, actor_id, rejection_reason, now)] *)
Definition _process_rejection (order : Order) (user : User)
    (actor_type : ActorType) (actor_id : string)
    (rejection_reason : option string) (now : Time) : M ApprovalResult :=
  let oid := order_id order in
  let kind := order_type order in
  let reason := str_or rejection_reason "Rejected by reviewer" in
  let* _ := exec (with_orders (alter (order_reject reason actor_id now) oid)) in
  let* _ := emit_event
       {| event_type :=
            if String.eqb kind "wallet_topup" then WALLET_TOPUP_REJECTED
            else if String.eqb kind "withdrawal" then WITHDRAW_REJECTED
            else ORDER_REJECTED;
          title := "Order Rejected";
          e_reference_id := oid; e_reference_type := "order";
          e_user_id := user_id user;
          e_username := username user;
          e_display_name := Some (display_name user);
          e_amount := Some (amount order);
          extra_data :=
            [("order_type", JStr kind);
             ("rejected_by", JStr actor_id);
             ("actor_type", JStr (actor_value actor_type));
             ("reason", JStr reason);
             ("final_status", JStr "REJECTED")];
          requires_action := false |} in
  ret {| success := true;
         message := "Order rejected";
         data := [("order_id", JStr oid);
                  ("reason", JStr reason);
                  ("order_type", JStr kind);
                  ("final_status", JStr "REJECTED")] |}.

(** [valid_pending_states] of [approve_or_reject_order] *)
Definition order_pending_states : list string :=
  ["PENDING_REVIEW"; "pending_review"; "pending"; "initiated";
   "awaiting_payment_proof"].

(** [valid_pending_states] of [approve_or_reject_wallet_load] *)
Definition request_pending_states : list string :=
  ["PENDING_REVIEW"; "pending_review"; "pending"].

(** [approve_or_reject_order(order_id, action, actor_type, actor_id,
     final_amount, rejection_reason, bot_id)] *)
Definition approve_or_reject_order (oid action : string)
    (actor_type : ActorType) (actor_id : string) (final_amount : option Z)
    (rejection_reason bot_id : option string) : M ApprovalResult :=
  let* denied :=
    match actor_type, bot_given bot_id with
    | TELEGRAM_BOT, Some b =>
        let* bot := query (select_bot b) in
        match bot with
        | None => ret (Some (result false "Bot not found"))
        | Some bot =>
            if negb (is_active bot) then
              ret (Some (result false "Bot is not active"))
            else if negb (can_approve_payments bot) then
              ret (Some (result false "Bot does not have approval permissions"))
            else ret None
        end
    | _, _ => ret None
    end in
  match denied with
  | Some r => ret r
  | None =>
      let* order := query (select_order oid) in
      match order with
      | None => ret (result false "Order not found")
      | Some order =>
          if negb (bool_decide (status order ∈ order_pending_states)) then
            ret {| success := false;
                   message := "Order already " +:+ status order;
                   data := [("already_processed", JBool true)] |}
          else
            let* now := datetime_now in
            let* user := query (select_user (o_user_id order)) in
            match user with
            | None => ret (result false "User not found")
            | Some user =>
                if String.eqb action "approve" then
                  _process_approval order user actor_type actor_id
                    final_amount now
                else
                  _process_rejection order user actor_type actor_id
                    rejection_reason now
            end
      end
  end.

(** [approve_or_reject_wallet_load(request_id, action, actor_type, actor_id,
     final_amount, rejection_reason, bot_id)] *)
Definition approve_or_reject_wallet_load (rid action : string)
    (actor_type : ActorType) (actor_id : string) (final_amount : option Z)
    (rejection_reason bot_id : option string) : M ApprovalResult :=
  let* denied :=
    match actor_type, bot_given bot_id with
    | TELEGRAM_BOT, Some b =>
        let* bot := query (select_bot b) in
        match bot with
        | None => ret (Some (result false "Bot not found"))
        | Some bot =>
            if negb (is_active bot) then
              ret (Some (result false "Bot is not active"))
            else if negb (can_approve_wallet_loads bot) then
              ret (Some (result false
                           "Bot does not have wallet load approval permissions"))
            else ret None
        end
    | _, _ => ret None
    end in
  match denied with
  | Some r => ret r
  | None =>
      let* row := query (select_load_request rid) in
      match row with
      | None => ret (result false "Request not found")
      | Some row =>
          let load_request := lrr_request row in
          if negb (bool_decide
                     (lr_status load_request ∈ request_pending_states)) then
            ret {| success := false;
                   message := "Request already " +:+ lr_status load_request;
                   data := [("already_processed", JBool true)] |}
          else
            let* now := datetime_now in
            let amt := match final_amount with
                       | Some f => f
                       | None => lr_amount load_request
                       end in
            let adjusted := match final_amount with
                            | Some f => negb (f =? lr_amount load_request)
                            | None => false
                            end in
            if String.eqb action "approve" then
              let current_balance := num_or (lrr_real_balance row) 0 in
              let new_balance := current_balance + amt in
              let* attempt :=
                try_except
                  (let* _ :=
                     transaction
                       (let* _ := exec (with_users
                                          (alter (user_set_balance new_balance)
                                                 (lr_user_id load_request))) in
                        let* _ := exec (with_requests
                                          (alter (request_approve amt actor_id
                                                    now) rid)) in
                        let* lid := uuid4 in
                        exec (insert_ledger
                          {| ledger_id := lid;
                             l_user_id := lr_user_id load_request;
                             transaction_type := credit; l_amount := amt;
                             balance_before := current_balance;
                             balance_after := new_balance;
                             reference_type := "wallet_load";
                             reference_id := rid;
                             description :=
                               "Wallet load via " +:+
                               lr_payment_method load_request |})) in
                   ret None)
                  (fun e =>
                     let* _ := exec (with_requests
                                       (alter (request_mark_failed actor_id now
                                                 ("Execution failed: " +:+ str e))
                                              rid)) in
                     ret (Some
                            {| success := false;
                               message :=
                                 "Wallet load approved but execution failed: "
                                 +:+ str e;
                               data := [("request_id", JStr rid);
                                        ("status", JStr "APPROVED_FAILED");
                                        ("error", JStr (str e))] |})) in
              match attempt with
              | Some failed => ret failed
              | None =>
                  let* _ := emit_event
                       {| event_type := WALLET_LOAD_APPROVED;
                          title := "Wallet Load Approved & Executed";
                          e_reference_id := rid;
                          e_reference_type := "wallet_load";
                          e_user_id := lr_user_id load_request;
                          e_username := lrr_username row;
                          e_display_name := Some (lrr_display_name row);
                          e_amount := Some amt;
                          extra_data :=
                            [("new_balance", JNum new_balance);
                             ("approved_by", JStr actor_id);
                             ("actor_type", JStr (actor_value actor_type));
                             ("amount_adjusted", JBool adjusted);
                             ("final_status", JStr "APPROVED_EXECUTED")];
                          requires_action := false |} in
                  ret {| success := true;
                         message :=
                           "Wallet load approved and executed (APPROVED_EXECUTED)";
                         data := [("request_id", JStr rid);
                                  ("amount", JNum amt);
                                  ("new_balance", JNum new_balance);
                                  ("amount_adjusted", JBool adjusted);
                                  ("final_status", JStr "APPROVED_EXECUTED")] |}
              end
            else
              let reason := str_or rejection_reason "Rejected by reviewer" in
              let* _ := exec (with_requests
                                (alter (request_reject reason actor_id now)
                                       rid)) in
              let* _ := emit_event
                   {| event_type := WALLET_LOAD_REJECTED;
                      title := "Wallet Load Rejected";
                      e_reference_id := rid;
                      e_reference_type := "wallet_load";
                      e_user_id := lr_user_id load_request;
                      e_username := lrr_username row;
                      e_display_name := Some (lrr_display_name row);
                      e_amount := Some (lr_amount load_request);
                      extra_data :=
                        [("rejected_by", JStr actor_id);
                         ("actor_type", JStr (actor_value actor_type));
                         ("reason", JStr reason);
                         ("final_status", JStr "REJECTED")];
                      requires_action := false |} in
              ret {| success := true;
                     message := "Wallet load rejected";
                     data := [("request_id", JStr rid);
                              ("reason", JStr reason);
                              ("final_status", JStr "REJECTED")] |}
      end
  end.

End AI9.

(** * Sample stores

    The scenarios of the specification, with amounts in minor units. *)

Definition mk_order (oid uid kind st : string) (amt : Z) : Order :=
  {| order_id := oid; o_user_id := uid; order_type := kind; status := st;
     amount := amt; bonus_amount := None; total_amount := amt;
     game_name := "slots"; payment_method := "gcash";
     payout_amount := None; void_amount := None;
     execution_attempts := 0;
     approved_by := None; approved_by_type := None; approved_by_id := None;
     approved_at := None; amount_adjusted := false;
     adjusted_by := None; adjusted_at := None; executed_at := None;
     execution_result := None; execution_error := None;
     rejection_reason := None |}.

Definition mk_user (uid name : string) (balance : Z) : User :=
  {| user_id := uid; username := name; display_name := name;
     real_balance := Some balance; bonus_balance := 0;
     deposit_count := 0; total_deposited := 0; total_withdrawn := 0 |}.

Definition mk_request (rid uid st : string) (amt : Z) : LoadRequest :=
  {| request_id := rid; lr_user_id := uid; lr_status := st;
     lr_amount := amt; lr_payment_method := "gcash";
     reviewed_by := None; reviewed_at := None;
     lr_rejection_reason := None |}.

Definition mk_world (d : Db) : World :=
  {| db := d; events := []; clock := 1000; next_uuid := 0; faults := [] |}.

Definition with_faults (fs : list bool) (w : World) : World :=
  {| db := db w; events := events w; clock := clock w;
     next_uuid := next_uuid w; faults := fs |}.

(** One user "u1" holding [balance] and one order "o1" of hers. *)
Definition order_db (kind st : string) (amt balance : Z) : Db :=
  {| telegram_bots := {[ "bot1" := {| is_active := false;
                                      can_approve_payments := true;
                                      can_approve_wallet_loads := true |} ]};
     orders := {[ "o1" := mk_order "o1" "u1" kind st amt ]};
     users := {[ "u1" := mk_user "u1" "ana" balance ]};
     wallet_load_requests := ∅;
     games := [ {| game_id := "g1"; g_game_name := "slots";
                   g_display_name := "Lucky Slots" |} ];
     game_loads := [];
     wallet_ledger := [] |}.

(** One user "u1" holding [balance] and one wallet-load request "r1". *)
Definition request_db (st : string) (amt balance : Z) : Db :=
  {| telegram_bots := ∅; orders := ∅;
     users := {[ "u1" := mk_user "u1" "ana" balance ]};
     wallet_load_requests := {[ "r1" := mk_request "r1" "u1" st amt ]};
     games := []; game_loads := []; wallet_ledger := [] |}.

(** Projections used to read a run. *)
Definition returned {A} (r : Outcome A * World) : option A :=
  match fst r with Ret a => Some a | Raise _ => None end.

Definition order_status (oid : string) (w : World) : option string :=
  status <$> orders (db w) !! oid.

Definition request_status (rid : string) (w : World) : option string :=
  lr_status <$> wallet_load_requests (db w) !! rid.

Definition balance_of (uid : string) (w : World) : option Z :=
  users (db w) !! uid ≫= real_balance.

Definition ledger_for (ref : string) (w : World) : list LedgerEntry :=
  filter (fun e => reference_id e = ref) (wallet_ledger (db w)).

Definition emitted (t : EventType) (w : World) : list Event :=
  filter (fun e => event_type e = t) (events w).

(** * Vocabulary of the properties *)

(** The bot check both entry points start with passes: the actor is not a
    bot, or no bot identity came with the call, or the identity resolves to
    an active bot holding the capability [cap]. *)
Definition authorized (cap : Bot -> bool) (actor_type : ActorType)
    (bot_id : option string) (d : Db) : bool :=
  match actor_type, bot_given bot_id with
  | TELEGRAM_BOT, Some b =>
      match telegram_bots d !! b with
      | Some bot => is_active bot && cap bot
      | None => false
      end
  | _, _ => true
  end.

(** The result of a tripped idempotency check. *)
Definition already_processed (what st : string) : ApprovalResult :=
  {| success := false;
     message := what +:+ " already " +:+ st;
     data := [("already_processed", JBool true)] |}.

(** The canonical status values. *)
Definition canonical : list string :=
  ["PENDING_REVIEW"; "APPROVED_EXECUTED"; "APPROVED_FAILED"; "REJECTED"].

Definition terminal : list string :=
  ["APPROVED_EXECUTED"; "APPROVED_FAILED"; "REJECTED"].

(** The legacy synonyms of [PENDING_REVIEW]. *)
Definition legacy_pending : list string :=
  ["pending"; "pending_review"; "initiated"; "awaiting_payment_proof"].

(** The ledger entries a run appended. *)
Definition appended (w0 w : World) : list LedgerEntry :=
  drop (length (wallet_ledger (db w0))) (wallet_ledger (db w)).

(** Execution honesty of one run on order [oid]: the order is left
    [APPROVED_EXECUTED] exactly when the run appended a ledger entry that
    refers to the order and carries the amount the order row now holds. *)
Definition execution_honest (oid : string) (w0 w : World) : Prop :=
  order_status oid w = Some "APPROVED_EXECUTED" <->
  exists e o, e ∈ appended w0 w /\ orders (db w) !! oid = Some o /\
              reference_id e = oid /\ l_amount e = amount o.

(** The outcome of the bot check for a call made with [bot_id]: the
    refusal returned to the caller, if any.  [missing] is the reason given
    when the capability flag [cap] is not set. *)
Definition bot_denial (cap : Bot -> bool) (missing : string)
    (actor_type : ActorType) (bot_id : option string) (d : Db)
    : option ApprovalResult :=
  match actor_type, bot_given bot_id with
  | TELEGRAM_BOT, Some b =>
      match telegram_bots d !! b with
      | None => Some (result false "Bot not found")
      | Some bot =>
          if negb (is_active bot) then Some (result false "Bot is not active")
          else if negb (cap bot) then Some (result false missing)
          else None
      end
  | _, _ => None
  end.

(** The world after [datetime.now()] was read once. *)
Definition tick (w : World) : World :=
  {| db := db w; events := events w; clock := clock w + 1;
     next_uuid := next_uuid w; faults := faults w |}.

(** Local variables of [_process_approval] that depend on the caller's
    [final_amount] only. *)
Definition effective_amount (final_amount : option Z) (o : Order) : Z :=
  match final_amount with Some f => f | None => amount o end.

Definition is_adjusted (final_amount : option Z) (o : Order) : bool :=
  match final_amount with
  | Some f => negb (f =? amount o)
  | None => false
  end.

(** The order kinds [_process_approval] has a branch for. *)
Definition known_kinds : list string :=
  ["wallet_topup"; "deposit"; "game_load"; "withdrawal"].

(** The kinds whose branch writes a ledger entry that names the order. *)
Definition ledger_kinds : list string :=
  ["wallet_topup"; "deposit"; "withdrawal"].

(** The [ORDER_AMOUNT_ADJUSTED] event both copies emit. *)
Definition adjustment_event (o : Order) (u : User) (actor : string)
    (amt : Z) : Event :=
  {| event_type := ORDER_AMOUNT_ADJUSTED;
     title := "Order Amount Adjusted";
     e_reference_id := order_id o; e_reference_type := "order";
     e_user_id := user_id u;
     e_username := username u;
     e_display_name := None;
     e_amount := Some amt;
     extra_data :=
       [("old_amount", JNum (amount o));
        ("new_amount", JNum amt);
        ("adjusted_by", JStr actor)];
     requires_action := false |}.

Definition is_adjustment (e : Event) : Prop :=
  event_type e = ORDER_AMOUNT_ADJUSTED.

Global Instance is_adjustment_dec e : Decision (is_adjustment e).
Proof. unfold is_adjustment. apply _. Defined.

(** What one run of [_process_approval] on order [o] of user [u], started
    in [w] with no persistence failure ahead, leaves behind: the result
    [r], the world [w'], the order row [o'], the ledger entries [les] it
    appended and the events [evs] it emitted. *)
Record Approved (o : Order) (u : User) (actor : string)
    (final_amount : option Z) (now : Time) (w : World)
    (r : ApprovalResult) (w' : World) (o' : Order)
    (les : list LedgerEntry) (evs : list Event) : Prop := {
  ap_faults : faults w' = [];
  ap_bots : telegram_bots (db w') = telegram_bots (db w);
  ap_row : orders (db w') !! order_id o = Some o';
  ap_ledger : wallet_ledger (db w') = wallet_ledger (db w) ++ les;
  ap_events : events w' = events w ++ evs;
  ap_kind : order_type o' = order_type o;
  ap_status :
    status o' = "APPROVED_EXECUTED" \/ status o' = "APPROVED_FAILED";
  ap_failed : success r = false -> status o' = "APPROVED_FAILED";
  ap_success :
    order_type o ∈ known_kinds -> success r = true ->
    status o' = "APPROVED_EXECUTED";
  ap_by : approved_by o' = Some actor /\ approved_at o' = Some now;
  ap_untripped : dict_get (data r) "already_processed" = None;
  ap_failed_ledger : status o' = "APPROVED_FAILED" -> les = [];
  ap_executed_ledger :
    order_type o ∈ ledger_kinds -> status o' = "APPROVED_EXECUTED" ->
    exists e, les = [e] /\ reference_id e = order_id o /\
              l_amount e = amount o' /\ l_user_id e = user_id u;
  ap_adjusted_row :
    success r = true ->
    amount o' = effective_amount final_amount o /\
    total_amount o' =
      effective_amount final_amount o + num_or (bonus_amount o) 0 /\
    amount_adjusted o' = is_adjusted final_amount o /\
    adjusted_by o' =
      (if is_adjusted final_amount o then Some actor else None) /\
    adjusted_at o' =
      (if is_adjusted final_amount o then Some now else None);
  ap_adjust_event :
    filter is_adjustment evs =
    if success r && is_adjusted final_amount o
    then [adjustment_event o u actor (effective_amount final_amount o)]
    else []
}.

(** What one run of [_process_rejection] on order [o], started in [w] with
    no persistence failure ahead, leaves behind. *)
Record Rejected (o : Order) (actor : string) (reason : option string)
    (now : Time) (w : World) (r : ApprovalResult) (w' : World)
    (o' : Order) (e : Event) : Prop := {
  rj_faults : faults w' = [];
  rj_bots : telegram_bots (db w') = telegram_bots (db w);
  rj_row : orders (db w') !! order_id o = Some o';
  rj_users : users (db w') = users (db w);
  rj_ledger : wallet_ledger (db w') = wallet_ledger (db w);
  rj_events : events w' = events w ++ [e];
  rj_status : status o' = "REJECTED";
  rj_by : approved_by o' = Some actor /\ approved_at o' = Some now;
  rj_reason :
    rejection_reason o' = Some (str_or reason "Rejected by reviewer");
  rj_success : success r = true;
  rj_untripped : dict_get (data r) "already_processed" = None;
  rj_event :
    event_type e ∈ [ORDER_REJECTED; WALLET_TOPUP_REJECTED; WITHDRAW_REJECTED]
    /\ e_reference_id e = order_id o
}.

(** What one run of [approve_or_reject_wallet_load] that reached its
    decision on request [rid], started in [w] with no persistence failure
    ahead, leaves behind: the result [r], the world [w'], the request row
    [q'] and the events [evs] it emitted. *)
Record Reviewed (rid : string) (q : LoadRequest) (actor : string)
    (now : Time) (w : World) (r : ApprovalResult) (w' : World)
    (q' : LoadRequest) (evs : list Event) : Prop := {
  rv_faults : faults w' = [];
  rv_bots : telegram_bots (db w') = telegram_bots (db w);
  rv_row : wallet_load_requests (db w') !! rid = Some q';
  rv_owner : lr_user_id q' = lr_user_id q;
  rv_user : is_Some (users (db w') !! lr_user_id q);
  rv_events : events w' = events w ++ evs;
  rv_by : reviewed_by q' = Some actor /\ reviewed_at q' = Some now;
  rv_success : success r = true;
  rv_untripped : dict_get (data r) "already_processed" = None
}.

(** The amount a wallet-load approval credits. *)
Definition load_amount (final_amount : option Z) (q : LoadRequest) : Z :=
  match final_amount with Some f => f | None => lr_amount q end.

(** ** Two calls racing on one order

    Each [await] gives way to other callers.  [load_phase] is what
    [approve_or_reject_order] does up to and including the read of the
    owning user (bot check, order read, idempotency check, clock, user
    read) and [decide_phase] is the dispatch that follows; [raced] is the
    schedule in which two callers both finish the first part before either
    starts the second one, each keeping the order and user rows it read. *)
Module Race.

Definition Loaded : Type := ApprovalResult + (Order * User * Time).

Definition load_phase (states : list string) (oid : string)
    (actor_type : ActorType) (bot_id : option string) : M Loaded :=
  let* denied :=
    match actor_type, bot_given bot_id with
    | TELEGRAM_BOT, Some b =>
        let* bot := query (select_bot b) in
        match bot with
        | None => ret (Some (result false "Bot not found"))
        | Some bot =>
            if negb (is_active bot) then
              ret (Some (result false "Bot is not active"))
            else if negb (can_approve_payments bot) then
              ret (Some (result false "Bot does not have approval permissions"))
            else ret None
        end
    | _, _ => ret None
    end in
  match denied with
  | Some r => ret (inl r)
  | None =>
      let* order := query (select_order oid) in
      match order with
      | None => ret (inl (result false "Order not found"))
      | Some order =>
          if negb (bool_decide (status order ∈ states)) then
            ret (inl {| success := false;
                        message := "Order already " +:+ status order;
                        data := [("already_processed", JBool true)] |})
          else
            let* now := datetime_now in
            let* user := query (select_user (o_user_id order)) in
            match user with
            | None => ret (inl (result false "User not found"))
            | Some user => ret (inr (order, user, now))
            end
      end
  end.

Definition decide_phase
    (approve : Order -> User -> ActorType -> string -> option Z -> Time ->
               M ApprovalResult)
    (reject : Order -> User -> ActorType -> string -> option string -> Time ->
              M ApprovalResult)
    (action : string) (actor_type : ActorType) (actor_id : string)
    (final_amount : option Z) (rejection_reason : option string)
    (x : Loaded) : M ApprovalResult :=
  match x with
  | inl r => ret r
  | inr (order, user, now) =>
      if String.eqb action "approve" then
        approve order user actor_type actor_id final_amount now
      else
        reject order user actor_type actor_id rejection_reason now
  end.

(** A call, cut at the point where it has read the order and the user. *)
Record Call := {
  c_action : string;
  c_actor_type : ActorType;
  c_actor_id : string;
  c_final_amount : option Z;
  c_rejection_reason : option string;
  c_bot_id : option string
}.

Definition backend_load (oid : string) (c : Call) : M Loaded :=
  load_phase Backend.order_pending_states oid (c_actor_type c) (c_bot_id c).

Definition backend_decide (c : Call) (x : Loaded) : M ApprovalResult :=
  decide_phase Backend._process_approval Backend._process_rejection
    (c_action c) (c_actor_type c) (c_actor_id c) (c_final_amount c)
    (c_rejection_reason c) x.

Definition ai9_load (oid : string) (c : Call) : M Loaded :=
  load_phase AI9.order_pending_states oid (c_actor_type c) (c_bot_id c).

Definition ai9_decide (c : Call) (x : Loaded) : M ApprovalResult :=
  decide_phase AI9._process_approval AI9._process_rejection
    (c_action c) (c_actor_type c) (c_actor_id c) (c_final_amount c)
    (c_rejection_reason c) x.

(** The schedule load 1, load 2, decide 1, decide 2. *)
Definition raced (load : Call -> M Loaded)
    (decide : Call -> Loaded -> M ApprovalResult) (c1 c2 : Call)
    : M (ApprovalResult * ApprovalResult) :=
  let* x1 := load c1 in
  let* x2 := load c2 in
  let* r1 := decide c1 x1 in
  let* r2 := decide c2 x2 in
  ret (r1, r2).

(** The same two calls one after the other. *)
Definition sequential (load : Call -> M Loaded)
    (decide : Call -> Loaded -> M ApprovalResult) (c1 c2 : Call)
    : M (ApprovalResult * ApprovalResult) :=
  let* r1 := (let* x1 := load c1 in decide c1 x1) in
  let* r2 := (let* x2 := load c2 in decide c2 x2) in
  ret (r1, r2).

Definition admin_approve : Call :=
  {| c_action := "approve"; c_actor_type := ADMIN; c_actor_id := "adm";
     c_final_amount := None; c_rejection_reason := None; c_bot_id := None |}.

End Race.

(** [f] short-circuits in [w]: it returns the failure [reason] and leaves
    the world as it found it. *)
Definition refused (f : M ApprovalResult) (w : World) (reason : string)
    : Prop :=
  f w = (Ret (result false reason), w).

(** [f] is stopped by the idempotency check in [w]. *)
Definition tripped (f : M ApprovalResult) (w : World) (what st : string)
    : Prop :=
  f w = (Ret (already_processed what st), w).

(** [r] is not the refusal of the idempotency check. *)
Definition untripped (r : ApprovalResult) : Prop :=
  dict_get (data r) "already_processed" = None.

(** [f] run in [w] gets past the idempotency check and decides order
    [oid]: the order is left in a terminal status. *)
Definition decides_order (f : M ApprovalResult) (oid : string) (w : World)
    : Prop :=
  exists r w' st, f w = (Ret r, w') /\ untripped r /\
                  order_status oid w' = Some st /\ st ∈ terminal.

(** [f] run in [w] gets past the idempotency check and decides the
    wallet-load request. *)
Definition decides_request (f : M ApprovalResult) (w : World) : Prop :=
  exists r w', f w = (Ret r, w') /\ untripped r /\ success r = true.

(** No balance and no ledger entry differs between [w] and [w']. *)
Definition no_money_moved (w w' : World) : Prop :=
  users (db w') = users (db w) /\
  wallet_ledger (db w') = wallet_ledger (db w).

Definition rejection_events : list EventType :=
  [ORDER_REJECTED; WALLET_TOPUP_REJECTED; WITHDRAW_REJECTED].

(** [f] run in [w] rejects order [oid]. *)
Definition rejects_order (f : M ApprovalResult) (oid : string) (w : World)
    : Prop :=
  exists r w' e,
    f w = (Ret r, w') /\ success r = true /\
    order_status oid w' = Some "REJECTED" /\
    events w' = events w ++ [e] /\
    event_type e ∈ rejection_events /\ e_reference_id e = oid /\
    no_money_moved w w'.

(** [f] run in [w] rejects wallet-load request [rid], leaving it in status
    [st]. *)
Definition rejects_request (f : M ApprovalResult) (rid st : string)
    (w : World) : Prop :=
  exists r w' e,
    f w = (Ret r, w') /\ success r = true /\
    request_status rid w' = Some st /\
    events w' = events w ++ [e] /\
    event_type e = WALLET_LOAD_REJECTED /\ e_reference_id e = rid /\
    no_money_moved w w'.

(** [f], called in [w] and then called again as [g] in the world the first
    call left, decides [what] once: the first call returns, and the second
    is stopped by the idempotency check on the status [read] finds, leaving
    the world untouched. *)
Definition decided_once (f g : M ApprovalResult)
    (read : World -> option string) (what : string) (w : World) : Prop :=
  exists r1 w1 st,
    f w = (Ret r1, w1) /\ read w1 = Some st /\ tripped g w1 what st.

(** How many of the runs returned [success = true]. *)
Definition successes (runs : list (Outcome ApprovalResult * World)) : nat :=
  length (filter (fun run => success <$> returned run = Some true) runs).

(** The game-load records a run appended. *)
Definition appended_loads (w0 w : World) : list GameLoad :=
  drop (length (game_loads (db w0))) (game_loads (db w)).

(** Execution honesty of a game load in [Backend]: the order is left
    [APPROVED_EXECUTED] exactly when the run appended a game-load record
    and a debit entry of the same amount that refers to that record. *)
Definition game_load_honest (oid : string) (w0 w : World) : Prop :=
  order_status oid w = Some "APPROVED_EXECUTED" <->
  exists e g, e ∈ appended w0 w /\ g ∈ appended_loads w0 w /\
              transaction_type e = debit /\
              reference_type e = "game_load" /\
              reference_id e = load_id g /\ l_amount e = gl_amount g.

(** The record an approval with an adjusted amount [f] leaves: the order
    row [o'] after the call and the adjustment events emitted by it. *)
Definition adjustment_recorded (o : Order) (u : User) (actor : string)
    (f : Z) (now : Time) (w w' : World) (o' : Order) : Prop :=
  amount o' = f /\
  total_amount o' = f + num_or (bonus_amount o) 0 /\
  amount_adjusted o' = true /\
  adjusted_by o' = Some actor /\ adjusted_at o' = Some now /\
  emitted ORDER_AMOUNT_ADJUSTED w' =
    emitted ORDER_AMOUNT_ADJUSTED w ++ [adjustment_event o u actor f].

(** * Vocabulary of the service-wide properties *)

(** ** Judgements on coroutines *)

(** [m] keeps the relation [R] between the store it starts from and the
    store it leaves, whatever its outcome. *)
Definition keeps (R : Db -> Db -> Prop) {A} (m : M A) : Prop :=
  forall w, R (db w) (db (snd (m w))).

(** [m], started on the store [d0], ends on a store related to [d0]. *)
Definition keeps_from (R : Db -> Db -> Prop) (d0 : Db) {A} (m : M A) : Prop :=
  forall w, db w = d0 -> R d0 (db (snd (m w))).

(** [m] does not raise. *)
Definition returns {A} (m : M A) : Prop :=
  forall w, exists a w', m w = (Ret a, w').

(** Every value [m] returns satisfies [Q]. *)
Definition yields {A} (Q : A -> Prop) (m : M A) : Prop :=
  forall w a w', m w = (Ret a, w') -> Q a.

(** [m] is all or nothing: when it raises, the store is the one it started
    from. *)
Definition all_or_nothing {A} (m : M A) : Prop :=
  forall w e w', m w = (Raise e, w') -> db w' = db w.

(** The only exception that leaves [m] is the one of the database. *)
Definition raises_db_only {A} (m : M A) : Prop :=
  forall w e w', m w = (Raise e, w') -> e = DbError.

(** With no persistence failure ahead, [m] meets none and leaves none
    ahead. *)
Definition steady {A} (m : M A) : Prop :=
  forall w, faults w = [] ->
    faults (snd (m w)) = [] /\ fst (m w) <> Raise DbError.

(** A call fails cleanly: nothing but a database error leaves it, a call
    that raises has written nothing, and without persistence failures the
    call returns. *)
Definition fails_cleanly (f : M ApprovalResult) : Prop :=
  (forall w e w', f w = (Raise e, w') -> e = DbError /\ db w' = db w) /\
  (forall w, faults w = [] -> exists r w', f w = (Ret r, w')).

(** ** The entry points *)

(** The signature the four entry points share. *)
Definition EntryPoint : Type :=
  string -> string -> ActorType -> string -> option Z ->
  option string -> option string -> M ApprovalResult.

Definition order_entry_points : list EntryPoint :=
  [Backend.approve_or_reject_order; AI9.approve_or_reject_order].

Definition wallet_load_entry_points : list EntryPoint :=
  [Backend.approve_or_reject_wallet_load; AI9.approve_or_reject_wallet_load].

Definition entry_points : list EntryPoint :=
  order_entry_points ++ wallet_load_entry_points.

(** ** What a call leaves alone *)

(** The append-only tables only grow at their end. *)
Definition append_only (d d' : Db) : Prop :=
  wallet_ledger d `prefix_of` wallet_ledger d' /\
  game_loads d `prefix_of` game_loads d'.

(** The columns of a row that no statement of the service assigns; the
    attempt counter of an order does not go down. *)
Definition same_order (o o' : Order) : Prop :=
  order_id o' = order_id o /\ o_user_id o' = o_user_id o /\
  order_type o' = order_type o /\ game_name o' = game_name o /\
  payment_method o' = payment_method o /\
  bonus_amount o' = bonus_amount o /\
  payout_amount o' = payout_amount o /\ void_amount o' = void_amount o /\
  execution_attempts o <= execution_attempts o'.

Definition same_user (u u' : User) : Prop :=
  user_id u' = user_id u /\ username u' = username u /\
  display_name u' = display_name u.

Definition same_request (q q' : LoadRequest) : Prop :=
  request_id q' = request_id q /\ lr_user_id q' = lr_user_id q /\
  lr_payment_method q' = lr_payment_method q.

(** No row of [orders], [users] or [wallet_load_requests] is created or
    deleted and the columns above are kept; [telegram_bots] and [games] are
    as they were. *)
Definition rows_kept (d d' : Db) : Prop :=
  telegram_bots d' = telegram_bots d /\ games d' = games d /\
  (forall k, option_Forall2 same_order (orders d !! k) (orders d' !! k)) /\
  (forall k, option_Forall2 same_user (users d !! k) (users d' !! k)) /\
  (forall k, option_Forall2 same_request (wallet_load_requests d !! k)
                                         (wallet_load_requests d' !! k)).

(** What the order flow leaves alone. *)
Definition order_flow_only (d d' : Db) : Prop :=
  wallet_load_requests d' = wallet_load_requests d.

(** What the wallet-load flow leaves alone. *)
Definition wallet_load_flow_only (d d' : Db) : Prop :=
  orders d' = orders d /\ game_loads d' = game_loads d.

(** Every row of a table but the one under key [i] is as it was. *)
Definition others_kept {V} (i : string) (m m' : gmap string V) : Prop :=
  forall k, k <> i -> m' !! k = m !! k.

(** Of [orders] and [users], only order [oid] and user [uid] may differ. *)
Definition order_frame (oid uid : string) (d d' : Db) : Prop :=
  others_kept oid (orders d) (orders d') /\
  others_kept uid (users d) (users d').

(** Of [wallet_load_requests] and [users], only request [rid] and user
    [uid] may differ. *)
Definition request_frame (rid uid : string) (d d' : Db) : Prop :=
  others_kept rid (wallet_load_requests d) (wallet_load_requests d') /\
  others_kept uid (users d) (users d').

(** ** The ledger and the balances *)

(** The arithmetic of one ledger entry. *)
Definition entry_balanced (e : LedgerEntry) : Prop :=
  balance_after e =
  match transaction_type e with
  | credit => balance_before e + l_amount e
  | debit => balance_before e - l_amount e
  end.

(** What a call did to the money of user [uid], whose balance read [b0]:
    nothing at all, or one ledger entry of that user, balanced, that starts
    from [b0] and ends on the balance the user row now holds, every other
    user row being as it was. *)
Definition money_effect (uid : string) (b0 : Z) (d d' : Db) : Prop :=
  (users d' = users d /\ wallet_ledger d' = wallet_ledger d) \/
  exists e u',
    wallet_ledger d' = wallet_ledger d ++ [e] /\
    l_user_id e = uid /\ entry_balanced e /\ balance_before e = b0 /\
    others_kept uid (users d) (users d') /\
    users d' !! uid = Some u' /\ real_balance u' = Some (balance_after e).

(** The effect of one call on the money of the store. *)
Definition some_money_effect (d d' : Db) : Prop :=
  exists uid u,
    users d !! uid = Some u /\
    money_effect uid (num_or (real_balance u) 0) d d'.

(** The primary key of a user row is its [user_id] column. *)
Definition users_keyed (d : Db) : Prop :=
  forall k u, users d !! k = Some u -> user_id u = k.

(** The ledger entries of one user, oldest first. *)
Definition entries_of (uid : string) (l : list LedgerEntry)
    : list LedgerEntry :=
  filter (fun e => l_user_id e = uid) l.

(** Each entry starts from the balance the entry before it ended on. *)
Fixpoint chained (l : list LedgerEntry) : Prop :=
  match l with
  | e1 :: l' =>
      match l' with
      | e2 :: _ => balance_before e2 = balance_after e1
      | [] => True
      end /\ chained l'
  | [] => True
  end.

(** The ledger and the balances tell the same story: every entry is
    balanced, the entries of each user are chained, and the balance a user
    row holds is the one the last entry of that user ended on. *)
Definition ledger_sound (d : Db) : Prop :=
  (forall e, e ∈ wallet_ledger d -> entry_balanced e) /\
  (forall uid, chained (entries_of uid (wallet_ledger d))) /\
  (forall uid u e,
     users d !! uid = Some u ->
     last (entries_of uid (wallet_ledger d)) = Some e ->
     real_balance u = Some (balance_after e)).

Definition books_sound (d : Db) : Prop := users_keyed d /\ ledger_sound d.

(** ** What an approval writes *)

(** The type of the approval event, by order kind. *)
Definition approval_event_types : list EventType :=
  [ORDER_APPROVED; WALLET_TOPUP_APPROVED; WITHDRAW_APPROVED].

(** An event about order [o] of user [u]. *)
Definition about_order (o : Order) (u : User) (e : Event) : Prop :=
  e_reference_id e = order_id o /\ e_reference_type e = "order" /\
  e_user_id e = user_id u /\ e_username e = username u.

(** The columns of a user row after a credit of [amt] with bonus [bonus]
    and after a debit of [amt]: the balance is written from [b], the
    counters move from where the stored row [cu] had them. *)
Definition credited (amt bonus b : Z) (cu u' : User) : Prop :=
  real_balance u' = Some (b + amt) /\
  bonus_balance u' = bonus_balance cu + bonus /\
  deposit_count u' = deposit_count cu + 1 /\
  total_deposited u' = total_deposited cu + amt /\
  total_withdrawn u' = total_withdrawn cu.

Definition debited (amt b : Z) (cu u' : User) : Prop :=
  real_balance u' = Some (b - amt) /\
  bonus_balance u' = bonus_balance cu /\
  deposit_count u' = deposit_count cu /\
  total_deposited u' = total_deposited cu /\
  total_withdrawn u' = total_withdrawn cu + amt.

(** A wallet load writes the balance and nothing else of the user row. *)
Definition loaded (amt b : Z) (cu u' : User) : Prop :=
  real_balance u' = Some (b + amt) /\
  bonus_balance u' = bonus_balance cu /\
  deposit_count u' = deposit_count cu /\
  total_deposited u' = total_deposited cu /\
  total_withdrawn u' = total_withdrawn cu.

(** The contract of an execution result: a boolean [success], and an
    [error] string when it is false. *)
Definition reports (res : Dict) : bool :=
  match dict_get res "success" with
  | Some (JBool true) => true
  | Some (JBool false) =>
      match dict_get res "error" with
      | Some (JStr _) => true
      | _ => false
      end
  | _ => false
  end.

(** Two runs agree on the money, on the status of order [oid] and on the
    success they report. *)
Definition same_outcome (oid : string)
    (x y : Outcome ApprovalResult * World) : Prop :=
  users (db (snd x)) = users (db (snd y)) /\
  wallet_ledger (db (snd x)) = wallet_ledger (db (snd y)) /\
  order_status oid (snd x) = order_status oid (snd y) /\
  success <$> returned x = success <$> returned y.

(** ** A top-up followed by a withdrawal *)

(** One movement of [amt] on the wallet of [u], booked for order [o]: the
    user row changes as [change] says, one ledger entry is appended, and
    the rest of the store is as it was. *)
Definition moved (dir : Direction) (amt : Z) (o : Order) (u : User)
    (change : User -> User -> Prop) (w w' : World) : Prop :=
  faults w' = [] /\
  telegram_bots (db w') = telegram_bots (db w) /\
  others_kept (order_id o) (orders (db w)) (orders (db w')) /\
  others_kept (user_id u) (users (db w)) (users (db w')) /\
  (exists u', users (db w') !! user_id u = Some u' /\
              user_id u' = user_id u /\ change u u') /\
  exists e,
    wallet_ledger (db w') = wallet_ledger (db w) ++ [e] /\
    transaction_type e = dir /\ l_amount e = amt /\
    l_user_id e = user_id u /\ reference_id e = order_id o /\
    balance_before e = num_or (real_balance u) 0 /\
    balance_after e =
      match dir with
      | credit => num_or (real_balance u) 0 + amt
      | debit => num_or (real_balance u) 0 - amt
      end.

(** An approval that executed: the call succeeds and the order row holds
    the amounts of the approval. *)
Definition executed_as (amt total : Z) (o : Order) (r : ApprovalResult)
    (w' : World) : Prop :=
  success r = true /\
  exists o', orders (db w') !! order_id o = Some o' /\
             status o' = "APPROVED_EXECUTED" /\
             amount o' = amt /\ total_amount o' = total.

(** First [top] is approved, then [wd], by the same caller. *)
Definition approve_both (f : EntryPoint) (a : ActorType)
    (aid : string) (bid : option string) (top wd : Order) (w : World)
    : World :=
  let w1 := snd (f (order_id top) "approve" a aid None None bid w) in
  snd (f (order_id wd) "approve" a aid None None bid w1).

(** What approving a top-up and then a withdrawal of the same amount [x]
    leaves: the balance [b] the user started with, both orders executed,
    and a credit followed by the debit that undoes it. *)
Definition round_trip (top wd : Order) (u : User) (x b : Z)
    (w w2 : World) : Prop :=
  balance_of (user_id u) w2 = Some b /\
  order_status (order_id top) w2 = Some "APPROVED_EXECUTED" /\
  order_status (order_id wd) w2 = Some "APPROVED_EXECUTED" /\
  exists e1 e2,
    wallet_ledger (db w2) = wallet_ledger (db w) ++ [e1; e2] /\
    transaction_type e1 = credit /\ transaction_type e2 = debit /\
    l_amount e1 = x /\ l_amount e2 = x /\
    balance_before e1 = b /\ balance_after e1 = b + x /\
    balance_before e2 = b + x /\ balance_after e2 = b.

(** One user "u1" holding [balance], with a pending top-up "o1" and a
    pending withdrawal "o2" of [amt] each. *)
Definition two_orders_db (amt balance : Z) : Db :=
  {| telegram_bots := ∅;
     orders := {[ "o1" := mk_order "o1" "u1" "wallet_topup" "pending" amt;
                  "o2" := mk_order "o2" "u1" "withdrawal" "pending" amt ]};
     users := {[ "u1" := mk_user "u1" "ana" balance ]};
     wallet_load_requests := ∅;
     games := []; game_loads := []; wallet_ledger := [] |}.

(** * Running the coroutines

    [run] unfolds the monad and the collaborators in the goal; the service
    functions themselves stay folded until they are unfolded by name. *)

Ltac run :=
  cbv beta iota zeta delta
    [bind ret raise query exec statement transaction try_except
     datetime_now uuid4 emit_event set_db tick
     faults db events clock next_uuid negb].

(** Opens a world whose fault schedule is known to be empty. *)
Ltac calm w :=
  destruct w as [?d ?ev ?clk ?nu ?fs];
  cbn [faults db events clock next_uuid] in *; subst.

(** Case analysis on the next entry of a fault schedule. *)
Ltac next_fault :=
  match goal with
  | |- context [match ?fs with [] => _ | _ :: _ => _ end] =>
      is_var fs; destruct fs as [|[|] fs]
  end.

Lemma bot_denial_authorized cap missing a b d :
  bot_denial cap missing a b d = None <-> authorized cap a b d = true.
Proof.
  unfold bot_denial, authorized.
  destruct a, (bot_given b) as [b'|]; try tauto.
  destruct (telegram_bots d !! b') as [bot|]; [|split; discriminate].
  destruct (is_active bot), (cap bot); simpl; split; congruence.
Qed.

Lemma actor_is_bot_dec (a : ActorType) : a = TELEGRAM_BOT \/ a <> TELEGRAM_BOT.
Proof. destruct a; auto; right; discriminate. Qed.

(** ** The entry points up to the dispatch, when persistence does not fail *)

Lemma Backend_order_entry w oid action a aid fa rr bid :
  faults w = [] ->
  Backend.approve_or_reject_order oid action a aid fa rr bid w =
  match bot_denial can_approve_payments
          "Bot does not have approval permissions" a bid (db w) with
  | Some r => (Ret r, w)
  | None =>
      match orders (db w) !! oid with
      | None => (Ret (result false "Order not found"), w)
      | Some o =>
          if bool_decide (status o ∈ Backend.order_pending_states) then
            match users (db w) !! o_user_id o with
            | None => (Ret (result false "User not found"), tick w)
            | Some u =>
                (if String.eqb action "approve"
                 then Backend._process_approval o u a aid fa (clock w)
                 else Backend._process_rejection o u a aid rr (clock w))
                  (tick w)
            end
          else (Ret (already_processed "Order" (status o)), w)
      end
  end.
Proof.
  intros Hf. calm w.
  unfold Backend.approve_or_reject_order, bot_denial,
    select_bot, select_order, select_user.
  destruct (actor_is_bot_dec a) as [-> | Ha].
  - destruct (bot_given bid) as [b|]; run.
    + destruct (telegram_bots d !! b) as [bot|]; run; [|reflexivity].
      destruct (is_active bot); run; [|reflexivity].
      destruct (can_approve_payments bot); run; [|reflexivity].
      destruct (orders d !! oid) as [o|]; run; [|reflexivity].
      destruct (bool_decide (status o ∈ Backend.order_pending_states)); run;
        [|reflexivity].
      destruct (users d !! o_user_id o) as [u|]; reflexivity.
    + destruct (orders d !! oid) as [o|]; run; [|reflexivity].
      destruct (bool_decide (status o ∈ Backend.order_pending_states)); run;
        [|reflexivity].
      destruct (users d !! o_user_id o) as [u|]; reflexivity.
  - destruct a; try congruence; run;
      (destruct (orders d !! oid) as [o|]; run; [|reflexivity];
       destruct (bool_decide (status o ∈ Backend.order_pending_states)); run;
         [|reflexivity];
       destruct (users d !! o_user_id o) as [u|]; reflexivity).
Qed.

Lemma AI9_order_entry w oid action a aid fa rr bid :
  faults w = [] ->
  AI9.approve_or_reject_order oid action a aid fa rr bid w =
  match bot_denial can_approve_payments
          "Bot does not have approval permissions" a bid (db w) with
  | Some r => (Ret r, w)
  | None =>
      match orders (db w) !! oid with
      | None => (Ret (result false "Order not found"), w)
      | Some o =>
          if bool_decide (status o ∈ AI9.order_pending_states) then
            match users (db w) !! o_user_id o with
            | None => (Ret (result false "User not found"), tick w)
            | Some u =>
                (if String.eqb action "approve"
                 then AI9._process_approval o u a aid fa (clock w)
                 else AI9._process_rejection o u a aid rr (clock w))
                  (tick w)
            end
          else (Ret (already_processed "Order" (status o)), w)
      end
  end.
Proof.
  intros Hf. calm w.
  unfold AI9.approve_or_reject_order, bot_denial,
    select_bot, select_order, select_user.
  destruct (actor_is_bot_dec a) as [-> | Ha].
  - destruct (bot_given bid) as [b|]; run.
    + destruct (telegram_bots d !! b) as [bot|]; run; [|reflexivity].
      destruct (is_active bot); run; [|reflexivity].
      destruct (can_approve_payments bot); run; [|reflexivity].
      destruct (orders d !! oid) as [o|]; run; [|reflexivity].
      destruct (bool_decide (status o ∈ AI9.order_pending_states)); run;
        [|reflexivity].
      destruct (users d !! o_user_id o) as [u|]; reflexivity.
    + destruct (orders d !! oid) as [o|]; run; [|reflexivity].
      destruct (bool_decide (status o ∈ AI9.order_pending_states)); run;
        [|reflexivity].
      destruct (users d !! o_user_id o) as [u|]; reflexivity.
  - destruct a; try congruence; run;
      (destruct (orders d !! oid) as [o|]; run; [|reflexivity];
       destruct (bool_decide (status o ∈ AI9.order_pending_states)); run;
         [|reflexivity];
       destruct (users d !! o_user_id o) as [u|]; reflexivity).
Qed.

(** ** Running [_process_approval] *)

Ltac run_in H :=
  cbv beta iota zeta delta
    [bind ret raise query exec statement transaction try_except
     datetime_now uuid4 emit_event set_db tick
     faults db events clock next_uuid negb
     String.eqb Ascii.eqb Bool.eqb dict_get truthy default jopt
     Backend.error_of] in H.

Ltac split_in H t :=
  match type of H with context [t] => destruct t eqn:? end.

Lemma eqb_true_eq (s t : string) : String.eqb s t = true -> s = t.
Proof. apply String.eqb_eq. Qed.

Lemma eqb_false_neq (s t : string) : String.eqb s t = false -> s <> t.
Proof. apply String.eqb_neq. Qed.

Lemma in_two_kinds (k : string) :
  bool_decide (k ∈ ["wallet_topup"; "deposit"]) = true ->
  k = "wallet_topup" \/ k = "deposit".
Proof. intros H. apply bool_decide_eq_true in H. set_solver. Qed.

Lemma not_in_two_kinds (k : string) :
  bool_decide (k ∈ ["wallet_topup"; "deposit"]) = false ->
  k <> "wallet_topup" /\ k <> "deposit".
Proof. intros H. apply bool_decide_eq_false in H. set_solver. Qed.

(** Turns the recorded outcomes of the tests on the order kind into
    equations and disequations. *)
Ltac kind_facts :=
  repeat match goal with
         | H : String.eqb _ _ = true |- _ =>
             generalize (eqb_true_eq _ _ H); clear H; intro
         | H : String.eqb _ _ = false |- _ =>
             generalize (eqb_false_neq _ _ H); clear H; intro
         | H : bool_decide _ = false |- _ =>
             generalize (not_in_two_kinds _ H); clear H; intros [? ?]
         | H : bool_decide _ = true |- _ =>
             generalize (in_two_kinds _ H); clear H; intros [?|?]
         end.

Ltac kinds o :=
  destruct (bool_decide (order_type o ∈ ["wallet_topup"; "deposit"])) eqn:?;
  destruct (String.eqb (order_type o) "wallet_topup") eqn:?;
  destruct (String.eqb (order_type o) "withdrawal") eqn:?;
  destruct (String.eqb (order_type o) "game_load") eqn:?;
  try (exfalso; kind_facts; congruence).

Lemma select_game_with_orders n f d :
  select_game n (with_orders f d) = select_game n d.
Proof. reflexivity. Qed.

Ltac finish_lists :=
  first [ reflexivity
        | symmetry; apply app_nil_r
        | rewrite <- !app_assoc; reflexivity ].

Ltac kind_clash :=
  exfalso; kind_facts;
  repeat match goal with
         | H : order_type _ = _ |- _ => rewrite H in *
         end;
  unfold known_kinds, ledger_kinds in *; set_solver.

Ltac order_fields :=
  cbn [order_id o_user_id order_type status amount bonus_amount total_amount
       game_name payment_method payout_amount void_amount execution_attempts
       approved_by approved_by_type approved_by_id approved_at
       amount_adjusted adjusted_by adjusted_at executed_at execution_result
       execution_error rejection_reason
       Backend.order_finalize Backend.order_attempt Backend.order_reject
       AI9.order_finalize AI9.order_mark_failed AI9.order_reject
       success data message andb
       reference_id l_amount l_user_id reference_type transaction_type].

Ltac leaf :=
  order_fields;
  first
    [ reflexivity
    | finish_lists
    | left; reflexivity
    | right; reflexivity
    | intros; congruence
    | intros; repeat split; reflexivity
    | intros; eexists; repeat split; reflexivity
    | intros; kind_clash ].

Lemma Backend_approval w o u a aid fa now :
  faults w = [] ->
  users (db w) !! user_id u = Some u ->
  orders (db w) !! order_id o = Some o ->
  exists r w' o' les evs,
    Backend._process_approval o u a aid fa now w = (Ret r, w') /\
    Approved o u aid fa now w r w' o' les evs.
Proof.
  intros Hf Hu Ho. calm w.
  destruct (Backend._process_approval _ _ _ _ _ _ _) as [out w'] eqn:Hrun.
  unfold Backend._process_approval, Backend.execute_withdrawal,
    Backend.execute_game_load, select_user in Hrun.
  fold (effective_amount fa o) (is_adjusted fa o) in Hrun.
  set (amt := effective_amount fa o) in *.
  destruct (is_adjusted fa o) eqn:Hadj.
  all: kinds o.
  all: run_in Hrun.
  all: try (split_in Hrun (num_or (real_balance u) 0 - amt <? 0);
            run_in Hrun).
  all: rewrite ?select_game_with_orders in Hrun.
  all: try (split_in Hrun (select_game (game_name o) d); run_in Hrun).
  all: cbn [users with_users with_orders insert_ledger insert_game_load] in Hrun.
  all: rewrite ?lookup_alter_eq, ?Hu in Hrun.
  all: cbn [fmap option_fmap option_map] in Hrun; run_in Hrun.
  all: try (split_in Hrun (num_or (real_balance u) 0 - amount o <? 0);
            run_in Hrun).
  all: injection Hrun as <- <-; do 5 eexists; split; [reflexivity|].
  all: constructor;
       cbn [faults db events with_orders with_users insert_ledger
            insert_game_load telegram_bots orders wallet_ledger success data].
  all: rewrite ?lookup_alter_eq, ?Ho; cbn [fmap option_fmap option_map].
  all: rewrite ?Hadj.
  all: leaf.
Qed.

Lemma AI9_approval w o u a aid fa now :
  faults w = [] ->
  users (db w) !! user_id u = Some u ->
  orders (db w) !! order_id o = Some o ->
  exists r w' o' les evs,
    AI9._process_approval o u a aid fa now w = (Ret r, w') /\
    Approved o u aid fa now w r w' o' les evs.
Proof.
  intros Hf Hu Ho. calm w.
  destruct (AI9._process_approval _ _ _ _ _ _ _) as [out w'] eqn:Hrun.
  unfold AI9._process_approval in Hrun.
  fold (effective_amount fa o) (is_adjusted fa o) in Hrun.
  set (amt := effective_amount fa o) in *.
  destruct (is_adjusted fa o) eqn:Hadj.
  all: kinds o.
  all: run_in Hrun.
  all: try (split_in Hrun (num_or (real_balance u) 0 <? amt); run_in Hrun).
  all: injection Hrun as <- <-; do 5 eexists; split; [reflexivity|].
  all: constructor;
       cbn [faults db events with_orders with_users insert_ledger
            insert_game_load telegram_bots orders wallet_ledger success data].
  all: rewrite ?lookup_alter_eq, ?Ho; cbn [fmap option_fmap option_map].
  all: rewrite ?Hadj.
  all: leaf.
Qed.

(** ** [_process_approval] under an arbitrary fault schedule *)

Ltac fault_in H :=
  match type of H with
  | context [match ?fs with [] => _ | _ :: _ => _ end] =>
      is_var fs; destruct fs as [|[|] fs]
  end.

Lemma Backend_approval_returns w o u a aid fa now r w' :
  orders (db w) !! order_id o = Some o ->
  Backend._process_approval o u a aid fa now w = (Ret r, w') ->
  exists o', orders (db w') !! order_id o = Some o' /\
             (status o' = "APPROVED_EXECUTED" \/ status o' = "APPROVED_FAILED").
Proof.
  intros Ho Hrun.
  destruct w as [d ev clk nu fs]; cbn [db] in Ho.
  unfold Backend._process_approval, Backend.execute_withdrawal,
    Backend.execute_game_load, select_user in Hrun.
  fold (effective_amount fa o) (is_adjusted fa o) in Hrun.
  set (amt := effective_amount fa o) in *.
  destruct (is_adjusted fa o) eqn:Hadj.
  all: kinds o.
  all: run_in Hrun.
  all: repeat first
         [ discriminate Hrun
         | fault_in Hrun; run_in Hrun
         | split_in Hrun (num_or (real_balance u) 0 - amt <? 0); run_in Hrun
         | rewrite select_game_with_orders in Hrun
         | split_in Hrun (select_game (game_name o) d); run_in Hrun
         | match type of Hrun with
           | context [match ?x with Some _ => _ | None => _ end] =>
               destruct x eqn:?; run_in Hrun
           | context [if ?x then _ else _] =>
               destruct x eqn:?; run_in Hrun
           end ].
  all: injection Hrun as <- <-; eexists; split;
       [ cbn [db orders with_orders with_users insert_ledger insert_game_load];
         rewrite !lookup_alter_eq, Ho; reflexivity
       | order_fields; auto ].
Qed.

Lemma AI9_approval_returns w o u a aid fa now r w' :
  orders (db w) !! order_id o = Some o ->
  AI9._process_approval o u a aid fa now w = (Ret r, w') ->
  exists o', orders (db w') !! order_id o = Some o' /\
             (status o' = "APPROVED_EXECUTED" \/ status o' = "APPROVED_FAILED") /\
             (success r = false ->
              status o' = "APPROVED_FAILED" /\
              users (db w') = users (db w) /\
              wallet_ledger (db w') = wallet_ledger (db w)).
Proof.
  intros Ho Hrun.
  destruct w as [d ev clk nu fs]; cbn [db] in Ho.
  unfold AI9._process_approval in Hrun.
  fold (effective_amount fa o) (is_adjusted fa o) in Hrun.
  set (amt := effective_amount fa o) in *.
  destruct (is_adjusted fa o) eqn:Hadj.
  all: kinds o.
  all: run_in Hrun.
  all: repeat first
         [ discriminate Hrun
         | fault_in Hrun; run_in Hrun
         | split_in Hrun (num_or (real_balance u) 0 <? amt); run_in Hrun ].
  all: injection Hrun as <- <-; eexists; split;
       [ cbn [db orders with_orders with_users insert_ledger insert_game_load];
         rewrite !lookup_alter_eq, Ho; reflexivity
       | order_fields; split; [auto | intros; first [congruence | auto]] ].
Qed.

Lemma Backend_rejection_returns w o u a aid rr now r w' :
  orders (db w) !! order_id o = Some o ->
  Backend._process_rejection o u a aid rr now w = (Ret r, w') ->
  exists o', orders (db w') !! order_id o = Some o' /\ status o' = "REJECTED".
Proof.
  intros Ho Hrun.
  destruct w as [d ev clk nu fs]; cbn [db] in Ho.
  unfold Backend._process_rejection in Hrun.
  run_in Hrun.
  repeat first [ discriminate Hrun | fault_in Hrun; run_in Hrun ].
  all: injection Hrun as <- <-; eexists; split;
       [ cbn [db orders with_orders]; rewrite !lookup_alter_eq, Ho; reflexivity
       | reflexivity ].
Qed.

Lemma AI9_rejection_returns w o u a aid rr now r w' :
  orders (db w) !! order_id o = Some o ->
  AI9._process_rejection o u a aid rr now w = (Ret r, w') ->
  exists o', orders (db w') !! order_id o = Some o' /\ status o' = "REJECTED".
Proof.
  intros Ho Hrun.
  destruct w as [d ev clk nu fs]; cbn [db] in Ho.
  unfold AI9._process_rejection in Hrun.
  run_in Hrun.
  repeat first [ discriminate Hrun | fault_in Hrun; run_in Hrun ].
  all: injection Hrun as <- <-; eexists; split;
       [ cbn [db orders with_orders]; rewrite !lookup_alter_eq, Ho; reflexivity
       | reflexivity ].
Qed.

(** ** The entry points under an arbitrary fault schedule *)

Ltac entry_faulty Hrun Ha Ho Hs Hu :=
  unfold select_bot, select_order, select_user in Hrun;
  unfold authorized in Ha;
  match type of Hrun with
  | context [bot_given ?bid] => destruct (bot_given bid) as [?b|]
  end;
  match type of Hrun with
  | context [match ?a with ADMIN => _ | _ => _ end] => destruct a
  end;
  run_in Hrun;
  repeat first
    [ discriminate Hrun
    | fault_in Hrun; run_in Hrun
    | rewrite Ho in Hrun; run_in Hrun
    | rewrite Hu in Hrun; run_in Hrun
    | rewrite Hs in Hrun; run_in Hrun
    | match type of Hrun with
      | context [telegram_bots ?d !! ?b] =>
          destruct (telegram_bots d !! b) as [?bot|]; [|discriminate Ha];
          apply andb_true_iff in Ha; destruct Ha as [Ha1 Ha2];
          rewrite ?Ha1, ?Ha2 in Hrun; run_in Hrun
      end ].

Lemma Backend_order_entry_returns w oid action a aid fa rr bid o u r w' :
  authorized can_approve_payments a bid (db w) = true ->
  orders (db w) !! oid = Some o ->
  bool_decide (status o ∈ Backend.order_pending_states) = true ->
  users (db w) !! o_user_id o = Some u ->
  Backend.approve_or_reject_order oid action a aid fa rr bid w = (Ret r, w') ->
  exists w0, db w0 = db w /\
    (if String.eqb action "approve"
     then Backend._process_approval o u a aid fa (clock w)
     else Backend._process_rejection o u a aid rr (clock w)) w0 = (Ret r, w').
Proof.
  intros Ha Ho Hs Hu Hrun.
  destruct w as [d ev clk nu fs]; cbn [db clock] in *.
  unfold Backend.approve_or_reject_order in Hrun.
  entry_faulty Hrun Ha Ho Hs Hu.
  all: eexists; split; [|exact Hrun]; reflexivity.
Qed.

Lemma AI9_order_entry_returns w oid action a aid fa rr bid o u r w' :
  authorized can_approve_payments a bid (db w) = true ->
  orders (db w) !! oid = Some o ->
  bool_decide (status o ∈ AI9.order_pending_states) = true ->
  users (db w) !! o_user_id o = Some u ->
  AI9.approve_or_reject_order oid action a aid fa rr bid w = (Ret r, w') ->
  exists w0, db w0 = db w /\
    (if String.eqb action "approve"
     then AI9._process_approval o u a aid fa (clock w)
     else AI9._process_rejection o u a aid rr (clock w)) w0 = (Ret r, w').
Proof.
  intros Ha Ho Hs Hu Hrun.
  destruct w as [d ev clk nu fs]; cbn [db clock] in *.
  unfold AI9.approve_or_reject_order in Hrun.
  entry_faulty Hrun Ha Ho Hs Hu.
  all: eexists; split; [|exact Hrun]; reflexivity.
Qed.

(** ** [_process_rejection] when persistence does not fail *)

Ltac event_kind :=
  first [ apply list_elem_of_here
        | apply list_elem_of_further; event_kind ].

Lemma Backend_rejection w o u a aid rr now :
  faults w = [] ->
  orders (db w) !! order_id o = Some o ->
  exists r w' o' e,
    Backend._process_rejection o u a aid rr now w = (Ret r, w') /\
    Rejected o aid rr now w r w' o' e.
Proof.
  intros Hf Ho. calm w.
  unfold Backend._process_rejection.
  destruct (String.eqb (order_type o) "wallet_topup") eqn:?;
  destruct (String.eqb (order_type o) "withdrawal") eqn:?; run.
  all: do 4 eexists; split; [reflexivity|].
  all: constructor; cbn [faults db events with_orders telegram_bots orders
                         users wallet_ledger success data];
       rewrite ?lookup_alter_eq, ?Ho; cbn [fmap option_fmap option_map];
       try reflexivity.
  all: try (split; reflexivity).
  all: split; [cbn [event_type]; event_kind | reflexivity].
Qed.

Lemma AI9_rejection w o u a aid rr now :
  faults w = [] ->
  orders (db w) !! order_id o = Some o ->
  exists r w' o' e,
    AI9._process_rejection o u a aid rr now w = (Ret r, w') /\
    Rejected o aid rr now w r w' o' e.
Proof.
  intros Hf Ho. calm w.
  unfold AI9._process_rejection.
  destruct (String.eqb (order_type o) "wallet_topup") eqn:?;
  destruct (String.eqb (order_type o) "withdrawal") eqn:?; run.
  all: do 4 eexists; split; [reflexivity|].
  all: constructor; cbn [faults db events with_orders telegram_bots orders
                         users wallet_ledger success data];
       rewrite ?lookup_alter_eq, ?Ho; cbn [fmap option_fmap option_map];
       try reflexivity.
  all: try (split; reflexivity).
  all: split; [cbn [event_type]; event_kind | reflexivity].
Qed.

(** ** [approve_or_reject_wallet_load] when persistence does not fail *)

Lemma listed_true (s : string) (l : list string) :
  s ∈ l -> bool_decide (s ∈ l) = true.
Proof. apply bool_decide_eq_true. Qed.

Lemma listed_false (s : string) (l : list string) :
  s ∉ l -> bool_decide (s ∈ l) = false.
Proof. apply bool_decide_eq_false. Qed.

Ltac wallet_entry cap :=
  unfold bot_denial, select_bot;
  match goal with
  | |- context [bot_given ?bid] => destruct (bot_given bid) as [?b|]
  end;
  match goal with
  | a : ActorType |- _ => destruct a
  end;
  run;
  repeat match goal with
         | |- context [telegram_bots ?d !! ?b] =>
             destruct (telegram_bots d !! b) as [?bot|]; run
         | |- context [is_active ?bot] => destruct (is_active bot); run
         | |- context [cap ?bot] => destruct (cap bot); run
         end.

Lemma Backend_wallet_denied w rid action a aid fa rr bid r :
  faults w = [] ->
  bot_denial can_approve_wallet_loads
    "Bot does not have wallet load approval permissions" a bid (db w)
    = Some r ->
  Backend.approve_or_reject_wallet_load rid action a aid fa rr bid w
  = (Ret r, w).
Proof.
  intros Hf. calm w. unfold Backend.approve_or_reject_wallet_load.
  wallet_entry can_approve_wallet_loads;
    intros H; first [discriminate H | injection H as <-; reflexivity].
Qed.

Lemma AI9_wallet_denied w rid action a aid fa rr bid r :
  faults w = [] ->
  bot_denial can_approve_wallet_loads
    "Bot does not have wallet load approval permissions" a bid (db w)
    = Some r ->
  AI9.approve_or_reject_wallet_load rid action a aid fa rr bid w
  = (Ret r, w).
Proof.
  intros Hf. calm w. unfold AI9.approve_or_reject_wallet_load.
  wallet_entry can_approve_wallet_loads;
    intros H; first [discriminate H | injection H as <-; reflexivity].
Qed.

Lemma Backend_wallet_tripped w rid action a aid fa rr bid row :
  faults w = [] ->
  bot_denial can_approve_wallet_loads
    "Bot does not have wallet load approval permissions" a bid (db w)
    = None ->
  select_load_request rid (db w) = Some row ->
  lr_status (lrr_request row) <> "pending" ->
  Backend.approve_or_reject_wallet_load rid action a aid fa rr bid w
  = (Ret (already_processed "Request" (lr_status (lrr_request row))), w).
Proof.
  intros Hf Hd Hrow Hs. calm w. revert Hd.
  apply String.eqb_neq in Hs.
  unfold Backend.approve_or_reject_wallet_load.
  wallet_entry can_approve_wallet_loads; intros H; try discriminate H;
    rewrite Hrow; run; rewrite Hs; reflexivity.
Qed.

Lemma AI9_wallet_tripped w rid action a aid fa rr bid row :
  faults w = [] ->
  bot_denial can_approve_wallet_loads
    "Bot does not have wallet load approval permissions" a bid (db w)
    = None ->
  select_load_request rid (db w) = Some row ->
  lr_status (lrr_request row) ∉ AI9.request_pending_states ->
  AI9.approve_or_reject_wallet_load rid action a aid fa rr bid w
  = (Ret (already_processed "Request" (lr_status (lrr_request row))), w).
Proof.
  intros Hf Hd Hrow Hs. calm w. revert Hd.
  apply listed_false in Hs.
  unfold AI9.approve_or_reject_wallet_load.
  wallet_entry can_approve_wallet_loads; intros H; try discriminate H;
    rewrite Hrow; run; rewrite Hs; reflexivity.
Qed.

Lemma select_load_request_joined rid d q u :
  wallet_load_requests d !! rid = Some q ->
  users d !! lr_user_id q = Some u ->
  select_load_request rid d =
  Some {| lrr_request := q; lrr_username := username u;
          lrr_display_name := display_name u;
          lrr_real_balance := real_balance u |}.
Proof. intros Hq Hu. unfold select_load_request. now rewrite Hq, Hu. Qed.

Ltac wallet_fields :=
  cbn [request_id lr_user_id lr_status lr_amount lr_payment_method
       reviewed_by reviewed_at lr_rejection_reason
       Backend.request_approve Backend.request_reject
       AI9.request_approve AI9.request_reject AI9.request_mark_failed
       lrr_request lrr_username lrr_display_name lrr_real_balance
       success data message event_type e_reference_id
       reference_id l_amount l_user_id reference_type transaction_type
       balance_before balance_after].

Lemma Backend_wallet_decided w rid action a aid fa rr bid q u :
  faults w = [] ->
  bot_denial can_approve_wallet_loads
    "Bot does not have wallet load approval permissions" a bid (db w)
    = None ->
  wallet_load_requests (db w) !! rid = Some q ->
  users (db w) !! lr_user_id q = Some u ->
  lr_status q = "pending" ->
  exists r w' q' evs,
    Backend.approve_or_reject_wallet_load rid action a aid fa rr bid w
    = (Ret r, w') /\
    Reviewed rid q aid (clock w) w r w' q' evs /\
    (String.eqb action "approve" = true ->
     lr_status q' = "approved" /\
     lr_amount q' = load_amount fa q /\
     balance_of (lr_user_id q) w' =
       Some (num_or (real_balance u) 0 + load_amount fa q) /\
     (exists e, wallet_ledger (db w') = wallet_ledger (db w) ++ [e] /\
                reference_id e = rid /\ l_amount e = load_amount fa q /\
                transaction_type e = credit /\
                balance_before e = num_or (real_balance u) 0 /\
                balance_after e =
                  num_or (real_balance u) 0 + load_amount fa q) /\
     exists e, evs = [e] /\ event_type e = WALLET_LOAD_APPROVED) /\
    (String.eqb action "approve" = false ->
     lr_status q' = "rejected" /\
     users (db w') = users (db w) /\
     wallet_ledger (db w') = wallet_ledger (db w) /\
     exists e, evs = [e] /\ event_type e = WALLET_LOAD_REJECTED /\
               e_reference_id e = rid).
Proof.
  intros Hf Hd Hq Hu Hs. calm w. revert Hd.
  pose proof (select_load_request_joined _ _ _ _ Hq Hu) as Hrow.
  unfold Backend.approve_or_reject_wallet_load.
  fold (load_amount fa q).
  wallet_entry can_approve_wallet_loads; intros H; try discriminate H;
    rewrite Hrow; run; wallet_fields; rewrite Hs; run.
  all: fold (load_amount fa q).
  all: destruct (String.eqb action "approve"); run.
  all: do 4 eexists; split; [reflexivity|].
  all: split; [constructor|split; intros; try discriminate];
       unfold balance_of;
       cbn [faults db events with_users with_requests insert_ledger
            telegram_bots wallet_load_requests users wallet_ledger];
       rewrite ?lookup_alter_eq, ?Hq, ?Hu;
       cbn [fmap option_fmap option_map mbind option_bind];
       wallet_fields; repeat first [ reflexivity | split | eexists ].
Qed.

Lemma AI9_wallet_decided w rid action a aid fa rr bid q u :
  faults w = [] ->
  bot_denial can_approve_wallet_loads
    "Bot does not have wallet load approval permissions" a bid (db w)
    = None ->
  wallet_load_requests (db w) !! rid = Some q ->
  users (db w) !! lr_user_id q = Some u ->
  lr_status q ∈ AI9.request_pending_states ->
  exists r w' q' evs,
    AI9.approve_or_reject_wallet_load rid action a aid fa rr bid w
    = (Ret r, w') /\
    Reviewed rid q aid (clock w) w r w' q' evs /\
    (String.eqb action "approve" = true ->
     lr_status q' = "APPROVED_EXECUTED" /\
     lr_amount q' = load_amount fa q /\
     balance_of (lr_user_id q) w' =
       Some (num_or (real_balance u) 0 + load_amount fa q) /\
     (exists e, wallet_ledger (db w') = wallet_ledger (db w) ++ [e] /\
                reference_id e = rid /\ l_amount e = load_amount fa q /\
                transaction_type e = credit /\
                balance_before e = num_or (real_balance u) 0 /\
                balance_after e =
                  num_or (real_balance u) 0 + load_amount fa q) /\
     exists e, evs = [e] /\ event_type e = WALLET_LOAD_APPROVED) /\
    (String.eqb action "approve" = false ->
     lr_status q' = "REJECTED" /\
     users (db w') = users (db w) /\
     wallet_ledger (db w') = wallet_ledger (db w) /\
     exists e, evs = [e] /\ event_type e = WALLET_LOAD_REJECTED /\
               e_reference_id e = rid).
Proof.
  intros Hf Hd Hq Hu Hs. calm w. revert Hd.
  pose proof (select_load_request_joined _ _ _ _ Hq Hu) as Hrow.
  apply listed_true in Hs.
  unfold AI9.approve_or_reject_wallet_load.
  fold (load_amount fa q).
  wallet_entry can_approve_wallet_loads; intros H; try discriminate H;
    rewrite Hrow; run; wallet_fields; rewrite Hs; run.
  all: fold (load_amount fa q).
  all: destruct (String.eqb action "approve"); run.
  all: do 4 eexists; split; [reflexivity|].
  all: split; [constructor|split; intros; try discriminate];
       unfold balance_of;
       cbn [faults db events with_users with_requests insert_ledger
            telegram_bots wallet_load_requests users wallet_ledger];
       rewrite ?lookup_alter_eq, ?Hq, ?Hu;
       cbn [fmap option_fmap option_map mbind option_bind];
       wallet_fields; repeat first [ reflexivity | split | eexists ].
Qed.

(** ** [approve_or_reject_wallet_load] of AI9 under an arbitrary fault
    schedule *)

Lemma AI9_wallet_returns w rid action a aid fa rr bid q u r w' :
  authorized can_approve_wallet_loads a bid (db w) = true ->
  wallet_load_requests (db w) !! rid = Some q ->
  users (db w) !! lr_user_id q = Some u ->
  lr_status q ∈ AI9.request_pending_states ->
  AI9.approve_or_reject_wallet_load rid action a aid fa rr bid w
  = (Ret r, w') ->
  exists q', wallet_load_requests (db w') !! rid = Some q' /\
    (lr_status q' = "APPROVED_EXECUTED" \/ lr_status q' = "APPROVED_FAILED"
     \/ lr_status q' = "REJECTED") /\
    (success r = false ->
     lr_status q' = "APPROVED_FAILED" /\
     users (db w') = users (db w) /\
     wallet_ledger (db w') = wallet_ledger (db w)).
Proof.
  intros Ha Hq Hu Hs Hrun.
  destruct w as [d ev clk nu fs]; cbn [db clock] in *.
  pose proof (select_load_request_joined _ _ _ _ Hq Hu) as Hrow.
  apply listed_true in Hs.
  unfold AI9.approve_or_reject_wallet_load, select_bot in Hrun.
  unfold authorized in Ha.
  destruct (String.eqb action "approve");
    destruct (bot_given bid) as [b|]; destruct a; run_in Hrun.
  all: repeat first
    [ discriminate Hrun
    | fault_in Hrun; run_in Hrun
    | rewrite Hrow in Hrun; run_in Hrun;
      cbn [lrr_request lrr_real_balance lrr_username lrr_display_name] in Hrun;
      rewrite Hs in Hrun; run_in Hrun
    | match type of Hrun with
      | context [telegram_bots ?d !! ?b] =>
          destruct (telegram_bots d !! b) as [?bot|]; [|discriminate Ha];
          apply andb_true_iff in Ha; destruct Ha as [Ha1 Ha2];
          rewrite ?Ha1, ?Ha2 in Hrun; run_in Hrun
      end ].
  all: injection Hrun as <- <-; eexists; split;
       [ cbn [db wallet_load_requests with_requests with_users insert_ledger];
         rewrite !lookup_alter_eq, Hq; reflexivity
       | wallet_fields; split; [auto | intros; first [congruence | auto]] ].
Qed.

(** ** The game-load branch of [Backend._process_approval] *)

Lemma Backend_game_load w o u a aid fa now :
  faults w = [] ->
  users (db w) !! user_id u = Some u ->
  orders (db w) !! order_id o = Some o ->
  order_type o = "game_load" ->
  exists r w' o',
    Backend._process_approval o u a aid fa now w = (Ret r, w') /\
    orders (db w') !! order_id o = Some o' /\
    (status o' = "APPROVED_EXECUTED" \/ status o' = "APPROVED_FAILED") /\
    (status o' = "APPROVED_EXECUTED" ->
     exists e g,
       wallet_ledger (db w') = wallet_ledger (db w) ++ [e] /\
       game_loads (db w') = game_loads (db w) ++ [g] /\
       reference_type e = "game_load" /\ reference_id e = load_id g /\
       transaction_type e = debit /\
       l_amount e = amount o /\ gl_amount g = amount o /\
       balance_before e = num_or (real_balance u) 0 /\
       balance_after e = num_or (real_balance u) 0 - amount o /\
       0 <= balance_after e /\
       balance_of (user_id u) w' = Some (balance_after e)) /\
    (status o' = "APPROVED_FAILED" ->
     wallet_ledger (db w') = wallet_ledger (db w) /\
     game_loads (db w') = game_loads (db w) /\
     users (db w') = users (db w)).
Proof.
  intros Hf Hu Ho Hkind. calm w.
  destruct (Backend._process_approval _ _ _ _ _ _ _) as [out w'] eqn:Hrun.
  unfold Backend._process_approval, Backend.execute_withdrawal,
    Backend.execute_game_load, select_user in Hrun.
  destruct (is_adjusted fa o) eqn:Hadj; unfold is_adjusted in Hadj;
    rewrite Hadj in Hrun.
  all: kinds o; try (exfalso; kind_facts; congruence).
  all: run_in Hrun.
  all: rewrite ?select_game_with_orders in Hrun.
  all: try (split_in Hrun (select_game (game_name o) d); run_in Hrun).
  all: cbn [users with_users with_orders insert_ledger insert_game_load] in Hrun.
  all: rewrite ?lookup_alter_eq, ?Hu in Hrun.
  all: cbn [fmap option_fmap option_map] in Hrun; run_in Hrun.
  all: try (split_in Hrun (num_or (real_balance u) 0 - amount o <? 0);
            run_in Hrun).
  all: injection Hrun as <- <-; do 3 eexists; split; [reflexivity|].
  all: unfold balance_of;
       cbn [faults db events with_orders with_users insert_ledger
            insert_game_load telegram_bots orders wallet_ledger game_loads
            users];
       rewrite ?lookup_alter_eq, ?Ho, ?Hu;
       cbn [fmap option_fmap option_map mbind option_bind].
  all: split; [reflexivity|]; order_fields.
  all: split; [auto|]; split; intros; try congruence.
  all: try (split; [|split]; reflexivity).
  all: do 2 eexists;
       cbn [reference_type reference_id transaction_type l_amount gl_amount
            load_id balance_before balance_after real_balance
            user_set_balance];
       repeat split; try reflexivity.
  all: apply Z.ltb_ge; assumption.
Qed.

(** ** A call is its two phases run back to back *)

Lemma Backend_order_phases oid c w :
  Backend.approve_or_reject_order oid (Race.c_action c) (Race.c_actor_type c)
    (Race.c_actor_id c) (Race.c_final_amount c) (Race.c_rejection_reason c)
    (Race.c_bot_id c) w
  = (let* x := Race.backend_load oid c in Race.backend_decide c x) w.
Proof.
  destruct c as [action a aid fa rr bid]; cbn [Race.c_action Race.c_actor_type
    Race.c_actor_id Race.c_final_amount Race.c_rejection_reason Race.c_bot_id].
  unfold Backend.approve_or_reject_order, Race.backend_load, Race.backend_decide,
    Race.load_phase, Race.decide_phase, select_bot, select_order, select_user.
  cbn [Race.c_action Race.c_actor_type
    Race.c_actor_id Race.c_final_amount Race.c_rejection_reason Race.c_bot_id].
  destruct w as [d ev clk nu fs].
  destruct (bot_given bid) as [b|]; destruct a; run.
  all: repeat first
    [ reflexivity
    | next_fault; run
    | match goal with
      | |- context [telegram_bots ?d !! ?b] =>
          destruct (telegram_bots d !! b) as [?bot|]; run
      | |- context [is_active ?bot] => destruct (is_active bot); run
      | |- context [can_approve_payments ?bot] =>
          destruct (can_approve_payments bot); run
      | |- context [orders ?d !! ?k] =>
          destruct (orders d !! k) as [?o|]; run
      | |- context [bool_decide ?P] => destruct (bool_decide P); run
      | |- context [users ?d !! ?k] =>
          destruct (users d !! k) as [?u|]; run
      end ].
Qed.

Lemma AI9_order_phases oid c w :
  AI9.approve_or_reject_order oid (Race.c_action c) (Race.c_actor_type c)
    (Race.c_actor_id c) (Race.c_final_amount c) (Race.c_rejection_reason c)
    (Race.c_bot_id c) w
  = (let* x := Race.ai9_load oid c in Race.ai9_decide c x) w.
Proof.
  destruct c as [action a aid fa rr bid]; cbn [Race.c_action Race.c_actor_type
    Race.c_actor_id Race.c_final_amount Race.c_rejection_reason Race.c_bot_id].
  unfold AI9.approve_or_reject_order, Race.ai9_load, Race.ai9_decide,
    Race.load_phase, Race.decide_phase, select_bot, select_order, select_user.
  cbn [Race.c_action Race.c_actor_type
    Race.c_actor_id Race.c_final_amount Race.c_rejection_reason Race.c_bot_id].
  destruct w as [d ev clk nu fs].
  destruct (bot_given bid) as [b|]; destruct a; run.
  all: repeat first
    [ reflexivity
    | next_fault; run
    | match goal with
      | |- context [telegram_bots ?d !! ?b] =>
          destruct (telegram_bots d !! b) as [?bot|]; run
      | |- context [is_active ?bot] => destruct (is_active bot); run
      | |- context [can_approve_payments ?bot] =>
          destruct (can_approve_payments bot); run
      | |- context [orders ?d !! ?k] =>
          destruct (orders d !! k) as [?o|]; run
      | |- context [bool_decide ?P] => destruct (bool_decide P); run
      | |- context [users ?d !! ?k] =>
          destruct (users d !! k) as [?u|]; run
      end ].
Qed.

Lemma Backend_order_denied w oid action a aid fa rr bid r :
  faults w = [] ->
  bot_denial can_approve_payments "Bot does not have approval permissions"
    a bid (db w) = Some r ->
  Backend.approve_or_reject_order oid action a aid fa rr bid w = (Ret r, w).
Proof. intros Hf Hd. rewrite Backend_order_entry by assumption. now rewrite Hd. Qed.

Lemma AI9_order_denied w oid action a aid fa rr bid r :
  faults w = [] ->
  bot_denial can_approve_payments "Bot does not have approval permissions"
    a bid (db w) = Some r ->
  AI9.approve_or_reject_order oid action a aid fa rr bid w = (Ret r, w).
Proof. intros Hf Hd. rewrite AI9_order_entry by assumption. now rewrite Hd. Qed.


(** ** The order entry points, from the call to the decision *)

Lemma authorized_ext cap a bid d d' :
  telegram_bots d' = telegram_bots d ->
  authorized cap a bid d' = authorized cap a bid d.
Proof. intros H. unfold authorized. now rewrite H. Qed.

Lemma authorized_denial cap missing a bid d :
  authorized cap a bid d = true -> bot_denial cap missing a bid d = None.
Proof. apply bot_denial_authorized. Qed.

Lemma Backend_order_decided w oid action a aid fa rr bid o u :
  faults w = [] ->
  authorized can_approve_payments a bid (db w) = true ->
  orders (db w) !! oid = Some o -> order_id o = oid ->
  status o ∈ Backend.order_pending_states ->
  users (db w) !! o_user_id o = Some u -> user_id u = o_user_id o ->
  (String.eqb action "approve" = true /\
   exists r w' o' les evs,
     Backend.approve_or_reject_order oid action a aid fa rr bid w
     = (Ret r, w') /\
     Approved o u aid fa (clock w) (tick w) r w' o' les evs) \/
  (String.eqb action "approve" = false /\
   exists r w' o' e,
     Backend.approve_or_reject_order oid action a aid fa rr bid w
     = (Ret r, w') /\
     Rejected o aid rr (clock w) (tick w) r w' o' e).
Proof.
  intros Hf Ha Ho Hk Hs Hu Huk.
  rewrite Backend_order_entry by assumption.
  rewrite (authorized_denial _ _ _ _ _ Ha), Ho, (listed_true _ _ Hs), Hu.
  subst oid. rewrite <- Huk in Hu.
  destruct (String.eqb action "approve"); [left|right]; split; try reflexivity.
  - apply Backend_approval; assumption.
  - apply Backend_rejection; assumption.
Qed.

Lemma AI9_order_decided w oid action a aid fa rr bid o u :
  faults w = [] ->
  authorized can_approve_payments a bid (db w) = true ->
  orders (db w) !! oid = Some o -> order_id o = oid ->
  status o ∈ AI9.order_pending_states ->
  users (db w) !! o_user_id o = Some u -> user_id u = o_user_id o ->
  (String.eqb action "approve" = true /\
   exists r w' o' les evs,
     AI9.approve_or_reject_order oid action a aid fa rr bid w
     = (Ret r, w') /\
     Approved o u aid fa (clock w) (tick w) r w' o' les evs) \/
  (String.eqb action "approve" = false /\
   exists r w' o' e,
     AI9.approve_or_reject_order oid action a aid fa rr bid w
     = (Ret r, w') /\
     Rejected o aid rr (clock w) (tick w) r w' o' e).
Proof.
  intros Hf Ha Ho Hk Hs Hu Huk.
  rewrite AI9_order_entry by assumption.
  rewrite (authorized_denial _ _ _ _ _ Ha), Ho, (listed_true _ _ Hs), Hu.
  subst oid. rewrite <- Huk in Hu.
  destruct (String.eqb action "approve"); [left|right]; split; try reflexivity.
  - apply AI9_approval; assumption.
  - apply AI9_rejection; assumption.
Qed.

(** A terminal status stops every later call at the idempotency check. *)
Lemma Backend_order_tripped w oid action a aid fa rr bid o :
  faults w = [] ->
  authorized can_approve_payments a bid (db w) = true ->
  orders (db w) !! oid = Some o ->
  status o ∉ Backend.order_pending_states ->
  tripped (Backend.approve_or_reject_order oid action a aid fa rr bid) w
    "Order" (status o).
Proof.
  intros Hf Ha Ho Hs. unfold tripped.
  rewrite Backend_order_entry by assumption.
  now rewrite (authorized_denial _ _ _ _ _ Ha), Ho, (listed_false _ _ Hs).
Qed.

Lemma AI9_order_tripped w oid action a aid fa rr bid o :
  faults w = [] ->
  authorized can_approve_payments a bid (db w) = true ->
  orders (db w) !! oid = Some o ->
  status o ∉ AI9.order_pending_states ->
  tripped (AI9.approve_or_reject_order oid action a aid fa rr bid) w
    "Order" (status o).
Proof.
  intros Hf Ha Ho Hs. unfold tripped.
  rewrite AI9_order_entry by assumption.
  now rewrite (authorized_denial _ _ _ _ _ Ha), Ho, (listed_false _ _ Hs).
Qed.

Lemma terminal_not_pending (st : string) :
  st ∈ terminal ->
  (st ∉ Backend.order_pending_states) /\ (st ∉ AI9.order_pending_states) /\
  (st ∉ AI9.request_pending_states) /\ st <> "pending".
Proof.
  unfold terminal, Backend.order_pending_states, AI9.order_pending_states,
    AI9.request_pending_states.
  intros H. repeat split; intros H'; set_solver.
Qed.

Lemma executed_or_failed_terminal (st : string) :
  st = "APPROVED_EXECUTED" \/ st = "APPROVED_FAILED" -> st ∈ terminal.
Proof. unfold terminal. intros [-> | ->]; set_solver. Qed.

Lemma rejected_terminal : "REJECTED" ∈ terminal.
Proof. unfold terminal. set_solver. Qed.
(** ** The debit branches keep the balance at or above zero *)

Lemma Backend_withdrawal w o u a aid fa now :
  faults w = [] ->
  users (db w) !! user_id u = Some u ->
  orders (db w) !! order_id o = Some o ->
  order_type o = "withdrawal" ->
  let new_balance := num_or (real_balance u) 0 - effective_amount fa o in
  exists r w' o',
    Backend._process_approval o u a aid fa now w = (Ret r, w') /\
    orders (db w') !! order_id o = Some o' /\
    (0 <= new_balance ->
     status o' = "APPROVED_EXECUTED" /\
     balance_of (user_id u) w' = Some new_balance) /\
    (new_balance < 0 ->
     status o' = "APPROVED_FAILED" /\ success r = false /\
     execution_error o' =
       Some "Withdrawal failed: Insufficient balance for withdrawal" /\
     no_money_moved w w').
Proof.
  intros Hf Hu Ho Hkind new_balance. subst new_balance. calm w.
  destruct (Backend._process_approval _ _ _ _ _ _ _) as [out w'] eqn:Hrun.
  unfold Backend._process_approval, Backend.execute_withdrawal,
    Backend.execute_game_load, select_user in Hrun.
  fold (effective_amount fa o) (is_adjusted fa o) in Hrun.
  set (amt := effective_amount fa o) in *.
  destruct (is_adjusted fa o) eqn:Hadj.
  all: kinds o; try (exfalso; kind_facts; congruence).
  all: run_in Hrun.
  all: split_in Hrun (num_or (real_balance u) 0 - amt <? 0); run_in Hrun.
  all: cbn [users with_users with_orders insert_ledger insert_game_load] in Hrun.
  all: rewrite ?lookup_alter_eq, ?Hu in Hrun.
  all: cbn [fmap option_fmap option_map] in Hrun; run_in Hrun.
  all: injection Hrun as <- <-; do 3 eexists; split; [reflexivity|].
  all: unfold balance_of, no_money_moved;
       cbn [faults db events with_orders with_users insert_ledger
            insert_game_load telegram_bots orders wallet_ledger game_loads
            users];
       rewrite ?lookup_alter_eq, ?Ho, ?Hu;
       cbn [fmap option_fmap option_map mbind option_bind].
  all: split; [reflexivity|]; order_fields.
  all: match goal with
       | H : (_ <? 0) = true |- _ => apply Z.ltb_lt in H
       | H : (_ <? 0) = false |- _ => apply Z.ltb_ge in H
       end.
  all: split; intros; try lia; repeat split; reflexivity.
Qed.

Lemma AI9_withdrawal w o u a aid fa now :
  faults w = [] ->
  users (db w) !! user_id u = Some u ->
  orders (db w) !! order_id o = Some o ->
  order_type o = "withdrawal" ->
  let new_balance := num_or (real_balance u) 0 - effective_amount fa o in
  exists r w' o',
    AI9._process_approval o u a aid fa now w = (Ret r, w') /\
    orders (db w') !! order_id o = Some o' /\
    (0 <= new_balance ->
     status o' = "APPROVED_EXECUTED" /\
     balance_of (user_id u) w' = Some new_balance) /\
    (new_balance < 0 ->
     status o' = "APPROVED_FAILED" /\ success r = false /\
     no_money_moved w w').
Proof.
  intros Hf Hu Ho Hkind new_balance. subst new_balance. calm w.
  destruct (AI9._process_approval _ _ _ _ _ _ _) as [out w'] eqn:Hrun.
  unfold AI9._process_approval in Hrun.
  fold (effective_amount fa o) (is_adjusted fa o) in Hrun.
  set (amt := effective_amount fa o) in *.
  destruct (is_adjusted fa o) eqn:Hadj.
  all: kinds o; try (exfalso; kind_facts; congruence).
  all: run_in Hrun.
  all: split_in Hrun (num_or (real_balance u) 0 <? amt); run_in Hrun.
  all: injection Hrun as <- <-; do 3 eexists; split; [reflexivity|].
  all: unfold balance_of, no_money_moved;
       cbn [faults db events with_orders with_users insert_ledger
            insert_game_load telegram_bots orders wallet_ledger game_loads
            users];
       rewrite ?lookup_alter_eq, ?Ho, ?Hu;
       cbn [fmap option_fmap option_map mbind option_bind].
  all: split; [reflexivity|]; order_fields.
  all: match goal with
       | H : (_ <? _) = true |- _ => apply Z.ltb_lt in H
       | H : (_ <? _) = false |- _ => apply Z.ltb_ge in H
       end.
  all: split; intros; try lia; repeat split; reflexivity.
Qed.

(** * The scenarios of the specification, run on both copies *)

(** Scenario A: a top-up of 500.00 on an empty wallet. *)
Example scenario_A :
  let w := mk_world (order_db "wallet_topup" "pending" 50000 0) in
  let check (run : Outcome ApprovalResult * World) :=
    success <$> returned run = Some true /\
    order_status "o1" (snd run) = Some "APPROVED_EXECUTED" /\
    balance_of "u1" (snd run) = Some 50000 /\
    exists e, wallet_ledger (db (snd run)) = [e] /\
              transaction_type e = credit /\ l_amount e = 50000 /\
              balance_before e = 0 /\ balance_after e = 50000 /\
              reference_id e = "o1" in
  check (Backend.approve_or_reject_order "o1" "approve" ADMIN "adm" None None
           None w) /\
  check (AI9.approve_or_reject_order "o1" "approve" ADMIN "adm" None None
           None w).
Proof.
  cbv zeta. repeat split; try (vm_compute; reflexivity);
    eexists; repeat split; vm_compute; reflexivity.
Qed.

(** Scenario B: a withdrawal of 300.00 against a balance of 100.00. *)
Example scenario_B :
  let w := mk_world (order_db "withdrawal" "pending" 30000 10000) in
  let check (run : Outcome ApprovalResult * World) :=
    success <$> returned run = Some false /\
    order_status "o1" (snd run) = Some "APPROVED_FAILED" /\
    balance_of "u1" (snd run) = Some 10000 /\
    wallet_ledger (db (snd run)) = [] in
  check (Backend.approve_or_reject_order "o1" "approve" ADMIN "adm" None None
           None w) /\
  check (AI9.approve_or_reject_order "o1" "approve" ADMIN "adm" None None
           None w).
Proof. cbv zeta. repeat split; vm_compute; reflexivity. Qed.

(** Scenario C: a game load for a game the registry does not know.  The
    AI9 copy does not resolve the game and reports the load as executed. *)
Example scenario_C :
  let o := {| order_id := "o1"; o_user_id := "u1"; order_type := "game_load";
              status := "pending"; amount := 5000; bonus_amount := None;
              total_amount := 5000; game_name := "no-such-game";
              payment_method := "gcash"; payout_amount := None;
              void_amount := None; execution_attempts := 0;
              approved_by := None; approved_by_type := None;
              approved_by_id := None; approved_at := None;
              amount_adjusted := false; adjusted_by := None;
              adjusted_at := None; executed_at := None;
              execution_result := None; execution_error := None;
              rejection_reason := None |} in
  let w := mk_world
             (with_orders (fun _ => {[ "o1" := o ]})
                (order_db "game_load" "pending" 5000 10000)) in
  let backend :=
    Backend.approve_or_reject_order "o1" "approve" ADMIN "adm" None None None
      w in
  let ai9 :=
    AI9.approve_or_reject_order "o1" "approve" ADMIN "adm" None None None w in
  (success <$> returned backend = Some false /\
   order_status "o1" (snd backend) = Some "APPROVED_FAILED" /\
   (orders (db (snd backend)) !! "o1" ≫= execution_error)
     = Some "Game not found: no-such-game" /\
   balance_of "u1" (snd backend) = Some 10000 /\
   wallet_ledger (db (snd backend)) = []) /\
  (success <$> returned ai9 = Some true /\
   order_status "o1" (snd ai9) = Some "APPROVED_EXECUTED" /\
   balance_of "u1" (snd ai9) = Some 10000 /\
   wallet_ledger (db (snd ai9)) = []).
Proof. cbv zeta. repeat split; vm_compute; reflexivity. Qed.

(** Scenario D: approving a rejected request. *)
Example scenario_D :
  let w := mk_world (order_db "wallet_topup" "REJECTED" 50000 0) in
  tripped (Backend.approve_or_reject_order "o1" "approve" ADMIN "adm" None
             None None) w "Order" "REJECTED" /\
  tripped (AI9.approve_or_reject_order "o1" "approve" ADMIN "adm" None
             None None) w "Order" "REJECTED".
Proof. split; vm_compute; reflexivity. Qed.

(** Scenario E: a top-up of 500.00 approved for 450.00.  The order row
    holds 450.00 afterwards; 500.00 is found in the events only. *)
Example scenario_E :
  let w := mk_world (order_db "wallet_topup" "pending" 50000 0) in
  let o := mk_order "o1" "u1" "wallet_topup" "pending" 50000 in
  let u := mk_user "u1" "ana" 0 in
  let check (run : Outcome ApprovalResult * World) :=
    success <$> returned run = Some true /\
    balance_of "u1" (snd run) = Some 45000 /\
    (amount <$> orders (db (snd run)) !! "o1") = Some 45000 /\
    (total_amount <$> orders (db (snd run)) !! "o1") = Some 45000 /\
    (amount_adjusted <$> orders (db (snd run)) !! "o1") = Some true /\
    emitted ORDER_AMOUNT_ADJUSTED (snd run)
      = [adjustment_event o u "adm" 45000] in
  check (Backend.approve_or_reject_order "o1" "approve" ADMIN "adm"
           (Some 45000) None None w) /\
  check (AI9.approve_or_reject_order "o1" "approve" ADMIN "adm"
           (Some 45000) None None w).
Proof. cbv zeta. repeat split; vm_compute; reflexivity. Qed.

(** * The claims *)

(** ** C1: execution honesty *)


Lemma appended_ledger w w' les :
  wallet_ledger (db w') = wallet_ledger (db w) ++ les -> appended w w' = les.
Proof. intros H. unfold appended. rewrite H. apply drop_app_length. Qed.

Lemma appended_game_loads w w' gs :
  game_loads (db w') = game_loads (db w) ++ gs -> appended_loads w w' = gs.
Proof. intros H. unfold appended_loads. rewrite H. apply drop_app_length. Qed.

Lemma Approved_honest o u aid fa now w0 w r w' o' les evs :
  wallet_ledger (db w) = wallet_ledger (db w0) ->
  order_type o ∈ ledger_kinds ->
  Approved o u aid fa now w r w' o' les evs ->
  execution_honest (order_id o) w0 w'.
Proof.
  intros Hw0 Hkind [_ _ Hrow Hledger _ _ Hst _ _ _ _ Hfl Hel _ _].
  rewrite Hw0 in Hledger. apply appended_ledger in Hledger.
  unfold execution_honest, order_status. rewrite Hrow, Hledger.
  cbn [fmap option_fmap option_map]. split.
  - intros [= Hex]. destruct (Hel Hkind Hex) as (e & -> & Href & Hamt & _).
    exists e, o'. repeat split; try assumption. apply list_elem_of_here.
  - intros (e & o'' & He & _ & _).
    destruct Hst as [-> | Hfailed]; [reflexivity|].
    rewrite (Hfl Hfailed) in He. now apply elem_of_nil in He.
Qed.



(** ** C2: idempotence of two calls in sequence *)


Lemma tripped_fails f w what st r w' :
  tripped f w what st -> f w = (Ret r, w') ->
  success r = false /\ w' = w /\
  dict_get (data r) "already_processed" = Some (JBool true) /\
  message r = what +:+ " already " +:+ st.
Proof.
  unfold tripped. intros -> [= <- <-]. repeat split.
Qed.



(** ** C3: no balance below zero *)

(** C3 is violated by the code (code_bug): only the debit branches
    compare the new balance with zero ([Backend_withdrawal],
    [AI9_withdrawal], [Backend_game_load]).  The credit branches add the
    caller-supplied final_amount as it comes, so that a negative
    final_amount commits a negative balance together with a credit ledger
    entry, in the wallet-load flow of both copies and in the top-up branch
    of the order flow. *)
Theorem C3_negative_final_amount_commits_negative_balance :
  let loads := mk_world (request_db "pending" 50000 10000) in
  let orders := mk_world (order_db "wallet_topup" "pending" 50000 10000) in
  let committed (run : Outcome ApprovalResult * World) :=
    success <$> returned run = Some true /\
    balance_of "u1" (snd run) = Some (-40000) /\
    exists e, wallet_ledger (db (snd run)) = [e] /\
              transaction_type e = credit /\ l_amount e = -50000 /\
              balance_before e = 10000 /\ balance_after e = -40000 in
  committed (Backend.approve_or_reject_wallet_load "r1" "approve" ADMIN "adm"
               (Some (-50000)) None None loads) /\
  committed (AI9.approve_or_reject_wallet_load "r1" "approve" ADMIN "adm"
               (Some (-50000)) None None loads) /\
  committed (Backend.approve_or_reject_order "o1" "approve" ADMIN "adm"
               (Some (-50000)) None None orders) /\
  committed (AI9.approve_or_reject_order "o1" "approve" ADMIN "adm"
               (Some (-50000)) None None orders).
Proof.
  cbv zeta. repeat split; try (vm_compute; reflexivity);
    eexists; repeat split; vm_compute; reflexivity.
Qed.


(** ** C4: terminal status after a decision *)




(** In [Backend] an exception that leaves the transaction is not caught:
    when the statement that counts the execution attempt fails, the call
    raises and the order stays pending. *)
Example Backend_failed_statement_leaves_order_pending :
  let w := with_faults [false; false; true]
             (mk_world (order_db "wallet_topup" "pending" 50000 0)) in
  let run :=
    Backend.approve_or_reject_order "o1" "approve" ADMIN "adm" None None None
      w in
  fst run = Raise DbError /\ order_status "o1" (snd run) = Some "pending".
Proof. vm_compute. split; reflexivity. Qed.

(** ** C5: bot authorization *)




(** ** C6: legacy pending statuses *)

(** C6, as stated, fails: the wallet-load flow does not treat [initiated]
    as pending, not even in the copy with the longer list. *)
Lemma C6_counterexample :
  let w := mk_world (request_db "initiated" 50000 0) in
  "initiated" ∈ legacy_pending /\
  tripped (AI9.approve_or_reject_wallet_load "r1" "approve" ADMIN "adm"
             None None None) w "Request" "initiated".
Proof.
  split.
  - unfold legacy_pending. set_solver.
  - vm_compute. reflexivity.
Qed.

Lemma common_order_states (s : string) :
  s ∈ ["pending"; "initiated"; "awaiting_payment_proof"; "PENDING_REVIEW"] ->
  s ∈ Backend.order_pending_states /\ s ∈ AI9.order_pending_states.
Proof.
  unfold Backend.order_pending_states, AI9.order_pending_states.
  rewrite !elem_of_cons, !elem_of_nil. tauto.
Qed.

Lemma ai9_request_states (s : string) :
  s = "pending" \/ s ∈ ["pending_review"; "PENDING_REVIEW"] ->
  s ∈ AI9.request_pending_states.
Proof.
  unfold AI9.request_pending_states.
  rewrite !elem_of_cons, !elem_of_nil. tauto.
Qed.

Lemma order_only_states (s : string) :
  s ∈ ["initiated"; "awaiting_payment_proof"] ->
  s <> "pending" /\ (s ∉ AI9.request_pending_states).
Proof.
  unfold AI9.request_pending_states.
  rewrite !elem_of_cons, !elem_of_nil.
  intros [-> | [-> | []]]; split; try discriminate;
    intros [H | [H | [H | []]]]; discriminate H.
Qed.

(** C6 (amended): in the order flow of both copies a request whose stored
    status is [pending], [initiated], [awaiting_payment_proof] or
    [PENDING_REVIEW] passes the idempotency check and is decided, and AI9
    also accepts [pending_review]; in the wallet-load flow both copies
    accept [pending], AI9 also [pending_review] and [PENDING_REVIEW], and
    both copies treat [initiated] and [awaiting_payment_proof] as already
    processed. *)
Theorem C6_accepted_pending_states :
  (forall w oid action a aid fa rr bid o u,
     faults w = [] ->
     authorized can_approve_payments a bid (db w) = true ->
     orders (db w) !! oid = Some o -> order_id o = oid ->
     users (db w) !! o_user_id o = Some u -> user_id u = o_user_id o ->
     let order_b :=
       Backend.approve_or_reject_order oid action a aid fa rr bid in
     let order_a := AI9.approve_or_reject_order oid action a aid fa rr bid in
     (status o ∈ ["pending"; "initiated"; "awaiting_payment_proof";
                  "PENDING_REVIEW"] ->
      decides_order order_b oid w /\ decides_order order_a oid w) /\
     (status o = "pending_review" -> decides_order order_a oid w)) /\
  (forall w rid action a aid fa rr bid q v,
     faults w = [] ->
     authorized can_approve_wallet_loads a bid (db w) = true ->
     wallet_load_requests (db w) !! rid = Some q ->
     users (db w) !! lr_user_id q = Some v ->
     let load_b :=
       Backend.approve_or_reject_wallet_load rid action a aid fa rr bid in
     let load_a :=
       AI9.approve_or_reject_wallet_load rid action a aid fa rr bid in
     (lr_status q = "pending" ->
      decides_request load_b w /\ decides_request load_a w) /\
     (lr_status q ∈ ["pending_review"; "PENDING_REVIEW"] ->
      decides_request load_a w) /\
     (lr_status q ∈ ["initiated"; "awaiting_payment_proof"] ->
      tripped load_b w "Request" (lr_status q) /\
      tripped load_a w "Request" (lr_status q))).
Proof.
  assert (Hdec_b : forall w oid action a aid fa rr bid o u,
    faults w = [] ->
    authorized can_approve_payments a bid (db w) = true ->
    orders (db w) !! oid = Some o -> order_id o = oid ->
    users (db w) !! o_user_id o = Some u -> user_id u = o_user_id o ->
    status o ∈ Backend.order_pending_states ->
    decides_order (Backend.approve_or_reject_order oid action a aid fa rr bid)
      oid w).
  { intros w oid action a aid fa rr bid o u Hf Ha Ho Hk Hu Huk Hs.
    destruct (Backend_order_decided w oid action a aid fa rr bid o u)
      as [(_ & r & w' & o' & les & evs & Hrun & Hap)
         |(_ & r & w' & o' & e & Hrun & Hrj)]; try assumption.
    - exists r, w', (status o'). split; [assumption|]. split; [|split].
      + apply (ap_untripped _ _ _ _ _ _ _ _ _ _ _ Hap).
      + unfold order_status. subst oid.
        now rewrite (ap_row _ _ _ _ _ _ _ _ _ _ _ Hap).
      + apply executed_or_failed_terminal, (ap_status _ _ _ _ _ _ _ _ _ _ _ Hap).
    - exists r, w', (status o'). split; [assumption|]. split; [|split].
      + apply (rj_untripped _ _ _ _ _ _ _ _ _ Hrj).
      + unfold order_status. subst oid.
        now rewrite (rj_row _ _ _ _ _ _ _ _ _ Hrj).
      + rewrite (rj_status _ _ _ _ _ _ _ _ _ Hrj). apply rejected_terminal. }
  assert (Hdec_a : forall w oid action a aid fa rr bid o u,
    faults w = [] ->
    authorized can_approve_payments a bid (db w) = true ->
    orders (db w) !! oid = Some o -> order_id o = oid ->
    users (db w) !! o_user_id o = Some u -> user_id u = o_user_id o ->
    status o ∈ AI9.order_pending_states ->
    decides_order (AI9.approve_or_reject_order oid action a aid fa rr bid)
      oid w).
  { intros w oid action a aid fa rr bid o u Hf Ha Ho Hk Hu Huk Hs.
    destruct (AI9_order_decided w oid action a aid fa rr bid o u)
      as [(_ & r & w' & o' & les & evs & Hrun & Hap)
         |(_ & r & w' & o' & e & Hrun & Hrj)]; try assumption.
    - exists r, w', (status o'). split; [assumption|]. split; [|split].
      + apply (ap_untripped _ _ _ _ _ _ _ _ _ _ _ Hap).
      + unfold order_status. subst oid.
        now rewrite (ap_row _ _ _ _ _ _ _ _ _ _ _ Hap).
      + apply executed_or_failed_terminal, (ap_status _ _ _ _ _ _ _ _ _ _ _ Hap).
    - exists r, w', (status o'). split; [assumption|]. split; [|split].
      + apply (rj_untripped _ _ _ _ _ _ _ _ _ Hrj).
      + unfold order_status. subst oid.
        now rewrite (rj_row _ _ _ _ _ _ _ _ _ Hrj).
      + rewrite (rj_status _ _ _ _ _ _ _ _ _ Hrj). apply rejected_terminal. }
  split.
  - intros w oid action a aid fa rr bid o u Hf Ha Ho Hk Hu Huk order_b order_a.
    subst order_b order_a. split.
    + intros Hs. split.
      * eapply Hdec_b; try eassumption. now apply common_order_states.
      * eapply Hdec_a; try eassumption. now apply common_order_states.
    + intros Hs. eapply Hdec_a; try eassumption.
      unfold AI9.order_pending_states. rewrite Hs.
      apply list_elem_of_further, list_elem_of_here.
  - intros w rid action a aid fa rr bid q v Hf Ha Hq Hv load_b load_a.
    subst load_b load_a.
    pose proof (authorized_denial _
      "Bot does not have wallet load approval permissions" _ _ _ Ha) as Hd.
    assert (Hdec_la : lr_status q ∈ AI9.request_pending_states ->
      decides_request
        (AI9.approve_or_reject_wallet_load rid action a aid fa rr bid) w).
    { intros Hs.
      destruct (AI9_wallet_decided w rid action a aid fa rr bid q v)
        as (r & w' & q' & evs & Hrun & Hrv & _); try assumption.
      exists r, w'. split; [assumption|]. split.
      - apply (rv_untripped _ _ _ _ _ _ _ _ _ Hrv).
      - apply (rv_success _ _ _ _ _ _ _ _ _ Hrv). }
    split; [|split].
    + intros Hs. split.
      * destruct (Backend_wallet_decided w rid action a aid fa rr bid q v)
          as (r & w' & q' & evs & Hrun & Hrv & _); try assumption.
        exists r, w'. split; [assumption|]. split.
        -- apply (rv_untripped _ _ _ _ _ _ _ _ _ Hrv).
        -- apply (rv_success _ _ _ _ _ _ _ _ _ Hrv).
      * apply Hdec_la, ai9_request_states. now left.
    + intros Hs. apply Hdec_la, ai9_request_states. now right.
    + intros Hs. apply order_only_states in Hs as [Hs1 Hs2].
      pose proof (select_load_request_joined _ _ _ _ Hq Hv) as Hrow.
      split.
      * apply (Backend_wallet_tripped w rid action a aid fa rr bid _ Hf Hd Hrow).
        exact Hs1.
      * apply (AI9_wallet_tripped w rid action a aid fa rr bid _ Hf Hd Hrow).
        exact Hs2.
Qed.

(** An order stored as [awaiting_payment_proof] is decided by [Backend]. *)
Lemma C6_witness :
  decides_order
    (Backend.approve_or_reject_order "o1" "approve" ADMIN "adm" None None None)
    "o1" (mk_world (order_db "wallet_topup" "awaiting_payment_proof" 50000 0)).
Proof.
  pose proof (proj1 C6_accepted_pending_states
    (mk_world (order_db "wallet_topup" "awaiting_payment_proof" 50000 0))
    "o1" "approve" ADMIN "adm" None None None
    (mk_order "o1" "u1" "wallet_topup" "awaiting_payment_proof" 50000)
    (mk_user "u1" "ana" 0)
    eq_refl eq_refl eq_refl eq_refl eq_refl eq_refl) as H.
  cbv zeta in H. destruct H as [H _].
  apply H. cbn [status mk_order].
  apply list_elem_of_further, list_elem_of_further, list_elem_of_here.
Defined.

(** ** C7: canonical status values *)

(** C7 is violated by the code (code_bug): the wallet-load flow of
    [Backend] writes the statuses [approved] and [rejected], which are not
    among the canonical four; the order flow next to it and the wallet-load
    flow of AI9 write canonical values. *)
Theorem C7_backend_wallet_load_writes_legacy_status :
  let w := mk_world (request_db "pending" 50000 0) in
  let approve :=
    Backend.approve_or_reject_wallet_load "r1" "approve" ADMIN "adm" None None
      None w in
  let reject :=
    Backend.approve_or_reject_wallet_load "r1" "reject" ADMIN "adm" None None
      None w in
  request_status "r1" (snd approve) = Some "approved" /\
  request_status "r1" (snd reject) = Some "rejected" /\
  ("approved" ∉ canonical) /\ ("rejected" ∉ canonical) /\
  request_status "r1"
    (snd (AI9.approve_or_reject_wallet_load "r1" "approve" ADMIN "adm" None
            None None w)) = Some "APPROVED_EXECUTED" /\
  request_status "r1"
    (snd (AI9.approve_or_reject_wallet_load "r1" "reject" ADMIN "adm" None
            None None w)) = Some "REJECTED".
Proof.
  cbv zeta. repeat split; try (vm_compute; reflexivity);
    unfold canonical; rewrite !elem_of_cons, elem_of_nil;
    intros [H | [H | [H | [H | []]]]]; discriminate H.
Qed.


(** ** C8: approval with an adjusted amount *)


Lemma emitted_app t w w' evs :
  events w' = events w ++ evs ->
  emitted t w' = emitted t w ++ filter (fun e => event_type e = t) evs.
Proof. intros H. unfold emitted. rewrite H. apply filter_app. Qed.

Lemma Approved_adjustment o u aid f now w0 w r w' o' les evs :
  events w = events w0 ->
  f <> amount o ->
  Approved o u aid (Some f) now w r w' o' les evs ->
  (success r = true -> adjustment_recorded o u aid f now w0 w' o') /\
  (success r = false ->
   emitted ORDER_AMOUNT_ADJUSTED w' = emitted ORDER_AMOUNT_ADJUSTED w0).
Proof.
  intros Hw0 Hne [_ _ _ _ Hev _ _ _ _ _ _ _ _ Hrow Hadj].
  assert (Hflag : is_adjusted (Some f) o = true).
  { unfold is_adjusted. apply negb_true_iff, Z.eqb_neq. exact Hne. }
  rewrite Hflag in *. cbn [effective_amount] in *.
  rewrite Hw0 in Hev.
  pose proof (emitted_app ORDER_AMOUNT_ADJUSTED _ _ _ Hev) as Hem.
  change (filter (fun e => event_type e = ORDER_AMOUNT_ADJUSTED) evs)
    with (filter is_adjustment evs) in Hem.
  rewrite Hadj in Hem.
  split; intros Hr; rewrite Hr in Hem; cbn [andb] in Hem.
  - destruct (Hrow Hr) as (? & ? & ? & ? & ?).
    unfold adjustment_recorded. repeat split; assumption.
  - now rewrite app_nil_r in Hem.
Qed.




(** ** C9: concurrent calls on one request *)

(** C9 is violated by the code (code_bug): the idempotency check is a
    read that is separate from the later status write.  When two approvals
    of one pending top-up both read the order before either writes, both
    pass the check, both run their transaction and both return success:
    two ledger entries are committed for the order, and neither call
    returns the already-processed refusal.  Run one after the other, the
    same two calls give one success and one refusal. *)
Theorem C9_two_racing_approvals_both_execute :
  let w := mk_world (order_db "wallet_topup" "pending" 50000 0) in
  let racing (load : Race.Call -> M Race.Loaded) decide :=
    Race.raced load decide Race.admin_approve Race.admin_approve w in
  let both_executed (run : Outcome (ApprovalResult * ApprovalResult) * World) :=
    (exists r1 r2, fst run = Ret (r1, r2) /\
       success r1 = true /\ success r2 = true /\
       untripped r1 /\ untripped r2) /\
    length (ledger_for "o1" (snd run)) = 2%nat /\
    order_status "o1" (snd run) = Some "APPROVED_EXECUTED" in
  both_executed (racing (Race.backend_load "o1") Race.backend_decide) /\
  both_executed (racing (Race.ai9_load "o1") Race.ai9_decide) /\
  (exists r1 r2,
     fst (Race.sequential (Race.backend_load "o1") Race.backend_decide
            Race.admin_approve Race.admin_approve w) = Ret (r1, r2) /\
     success r1 = true /\
     r2 = already_processed "Order" "APPROVED_EXECUTED").
Proof.
  cbv zeta. repeat split;
    try (do 2 eexists; repeat split; vm_compute; reflexivity);
    vm_compute; reflexivity.
Qed.

(** ** C10: any action other than "approve" *)




(** * Service-wide properties

    The properties below hold of the service as a whole.  Those of the first
    group are proved by walking the coroutines, one rule for each
    constructor of the monad, and hold whatever the persistence layer does;
    those that follow are read off a run without persistence failures. *)

(** ** Rules of the judgements *)

Section Keeping.
Context {R : Db -> Db -> Prop} `{!Reflexive R, !Transitive R}.

Lemma keeps_ret {A} (a : A) : keeps R (ret a).
Proof. intros w. reflexivity. Qed.

Lemma keeps_raise {A} e : keeps R (@raise A e).
Proof. intros w. reflexivity. Qed.

Lemma keeps_statement : keeps R statement.
Proof.
  intros [d ev clk nu [|[|] fs]]; unfold statement; cbn; reflexivity.
Qed.

Lemma keeps_bind {A B} (m : M A) (k : A -> M B) :
  keeps R m -> (forall a, keeps R (k a)) -> keeps R (bind m k).
Proof.
  intros Hm Hk w. unfold bind. specialize (Hm w).
  destruct (m w) as [[a|e] w1]; cbn in *; [|assumption].
  etransitivity; [exact Hm|apply Hk].
Qed.

Lemma keeps_try {A} (body : M A) handler :
  keeps R body -> (forall e, keeps R (handler e)) ->
  keeps R (try_except body handler).
Proof.
  intros Hm Hk w. unfold try_except. specialize (Hm w).
  destruct (body w) as [[a|e] w1]; cbn in *; [assumption|].
  etransitivity; [exact Hm|apply Hk].
Qed.

Lemma keeps_transaction {A} (body : M A) :
  keeps R body -> keeps R (transaction body).
Proof.
  intros Hm w. unfold transaction. specialize (Hm w).
  destruct (body w) as [[a|e] w1]; cbn in *; [assumption|reflexivity].
Qed.

Lemma keeps_query {A} (q : Db -> A) : keeps R (query q).
Proof.
  unfold query. apply keeps_bind; [apply keeps_statement|].
  intros _ w. reflexivity.
Qed.

Lemma keeps_exec (u : Db -> Db) :
  (forall d, R d (u d)) -> keeps R (exec u).
Proof.
  intros Hu. unfold exec. apply keeps_bind; [apply keeps_statement|].
  intros _ w. apply Hu.
Qed.

Lemma keeps_now : keeps R datetime_now.
Proof. intros w. reflexivity. Qed.

Lemma keeps_uuid4 : keeps R uuid4.
Proof. intros w. reflexivity. Qed.

Lemma keeps_emit e : keeps R (emit_event e).
Proof. intros w. reflexivity. Qed.
End Keeping.

(** Walks a coroutine, leaving one goal for each statement that writes. *)
Ltac keeping_rule L := apply L; try (solve [typeclasses eauto]).

Ltac keeping :=
  repeat (cbv beta zeta;
          lazymatch goal with
          | |- keeps _ (ret _) => keeping_rule @keeps_ret
          | |- keeps _ (raise _) => keeping_rule @keeps_raise
          | |- keeps _ (query _) => keeping_rule @keeps_query
          | |- keeps _ (exec _) => keeping_rule @keeps_exec
          | |- keeps _ datetime_now => keeping_rule @keeps_now
          | |- keeps _ uuid4 => keeping_rule @keeps_uuid4
          | |- keeps _ (emit_event _) => keeping_rule @keeps_emit
          | |- keeps _ (transaction _) => keeping_rule @keeps_transaction
          | |- keeps _ (try_except _ _) =>
              keeping_rule @keeps_try; [|intros ?]
          | |- keeps _ (bind _ _) => keeping_rule @keeps_bind; [|intros ?]
          | |- keeps _ (match ?x with _ => _ end) => destruct x
          end).

Lemma returns_ret {A} (a : A) : returns (ret a).
Proof. intros w. eauto. Qed.

Lemma returns_emit e : returns (emit_event e).
Proof. intros w. unfold emit_event. eauto. Qed.

Lemma returns_bind {A B} (m : M A) (k : A -> M B) :
  returns m -> (forall a, returns (k a)) -> returns (bind m k).
Proof.
  intros Hm Hk w. unfold bind. destruct (Hm w) as (a & w1 & ->). apply Hk.
Qed.

Ltac returning :=
  repeat (cbv beta zeta;
          lazymatch goal with
          | |- returns (ret _) => apply returns_ret
          | |- returns (emit_event _) => apply returns_emit
          | |- returns (bind _ _) => apply returns_bind; [|intros ?]
          | |- returns (match ?x with _ => _ end) => destruct x
          end).

Lemma aon_reads {A} (m : M A) : keeps eq m -> all_or_nothing m.
Proof.
  intros Hm w e w' Hrun. specialize (Hm w). rewrite Hrun in Hm.
  symmetry. exact Hm.
Qed.

Lemma aon_transaction {A} (body : M A) : all_or_nothing (transaction body).
Proof.
  intros w e w'. unfold transaction.
  destruct (body w) as [[a|e1] w1]; intros [= <- <-]. reflexivity.
Qed.

Lemma aon_exec u : all_or_nothing (exec u).
Proof.
  intros [d ev clk nu [|[|] fs]] e w'; unfold exec, bind, statement; cbn;
    intros [= <- <-]. reflexivity.
Qed.

Lemma aon_bind_reads {A B} (m : M A) (k : A -> M B) :
  keeps eq m -> (forall a, all_or_nothing (k a)) -> all_or_nothing (bind m k).
Proof.
  intros Hm Hk w e w'. unfold bind. specialize (Hm w).
  destruct (m w) as [[a|e1] w1]; cbn in Hm.
  - intros Hrun. rewrite Hm. eapply Hk, Hrun.
  - intros [= <- <-]. symmetry. exact Hm.
Qed.

Lemma aon_bind_returns {A B} (m : M A) (k : A -> M B) :
  all_or_nothing m -> (forall a, returns (k a)) -> all_or_nothing (bind m k).
Proof.
  intros Hm Hk w e w'. unfold bind.
  destruct (m w) as [[a|e1] w1] eqn:Hrun.
  - destruct (Hk a w1) as (b & w2 & ->). discriminate.
  - intros [= <- <-]. eapply Hm, Hrun.
Qed.

Lemma aon_try {A} (body : M A) handler :
  all_or_nothing body -> (forall e, all_or_nothing (handler e)) ->
  all_or_nothing (try_except body handler).
Proof.
  intros Hm Hk w e w'. unfold try_except.
  destruct (body w) as [[a|e1] w1] eqn:Hrun; [discriminate|].
  intros Hh. rewrite <- (Hm _ _ _ Hrun). eapply Hk, Hh.
Qed.

Ltac atomicity :=
  repeat (cbv beta zeta;
          lazymatch goal with
          | |- all_or_nothing (transaction _) => apply aon_transaction
          | |- all_or_nothing (exec _) => apply aon_exec
          | |- all_or_nothing (try_except _ _) => apply aon_try; [|intros ?]
          | |- all_or_nothing (bind (transaction _) _) =>
              apply aon_bind_returns;
              [apply aon_transaction|intros ?; returning]
          | |- all_or_nothing (bind (exec _) _) =>
              apply aon_bind_returns; [apply aon_exec|intros ?; returning]
          | |- all_or_nothing (bind (try_except _ _) _) =>
              apply aon_bind_returns; [|intros ?; returning]
          | |- all_or_nothing (ret _) => apply aon_reads, keeps_ret
          | |- all_or_nothing (bind _ _) =>
              apply aon_bind_reads; [keeping|intros ?]
          | |- all_or_nothing (match ?x with _ => _ end) => destruct x
          end).

Lemma rdo_ret {A} (a : A) : raises_db_only (ret a).
Proof. intros w e w'. discriminate. Qed.

Lemma rdo_statement : raises_db_only statement.
Proof.
  intros [d ev clk nu [|[|] fs]] e w'; unfold statement; cbn;
    intros [= <- <-]; reflexivity.
Qed.

Lemma rdo_bind {A B} (m : M A) (k : A -> M B) :
  raises_db_only m -> (forall a, raises_db_only (k a)) ->
  raises_db_only (bind m k).
Proof.
  intros Hm Hk w e w'. unfold bind.
  destruct (m w) as [[a|e1] w1] eqn:Hrun.
  - apply Hk.
  - intros [= <- <-]. eapply Hm, Hrun.
Qed.

Lemma rdo_try {A} (body : M A) handler :
  (forall e, raises_db_only (handler e)) ->
  raises_db_only (try_except body handler).
Proof.
  intros Hk w e w'. unfold try_except.
  destruct (body w) as [[a|e1] w1]; [discriminate|]. apply Hk.
Qed.

Lemma rdo_transaction {A} (body : M A) :
  raises_db_only body -> raises_db_only (transaction body).
Proof.
  intros Hm w e w'. unfold transaction.
  destruct (body w) as [[a|e1] w1] eqn:Hrun; intros [= <- <-].
  eapply Hm, Hrun.
Qed.

Lemma rdo_query {A} (q : Db -> A) : raises_db_only (query q).
Proof.
  unfold query. apply rdo_bind; [apply rdo_statement|].
  intros _ w e w'. discriminate.
Qed.

Lemma rdo_exec u : raises_db_only (exec u).
Proof.
  unfold exec. apply rdo_bind; [apply rdo_statement|].
  intros _ w e w'. discriminate.
Qed.

Lemma rdo_now : raises_db_only datetime_now.
Proof. intros w e w'. discriminate. Qed.

Lemma rdo_uuid4 : raises_db_only uuid4.
Proof. intros w e w'. discriminate. Qed.

Lemma rdo_emit ev : raises_db_only (emit_event ev).
Proof. intros w e w'. discriminate. Qed.

Ltac db_errors_only :=
  repeat (cbv beta zeta;
          lazymatch goal with
          | |- raises_db_only (ret _) => apply rdo_ret
          | |- raises_db_only (query _) => apply rdo_query
          | |- raises_db_only (exec _) => apply rdo_exec
          | |- raises_db_only datetime_now => apply rdo_now
          | |- raises_db_only uuid4 => apply rdo_uuid4
          | |- raises_db_only (emit_event _) => apply rdo_emit
          | |- raises_db_only (transaction _) => apply rdo_transaction
          | |- raises_db_only (try_except _ _) => apply rdo_try; intros ?
          | |- raises_db_only (bind _ _) => apply rdo_bind; [|intros ?]
          | |- raises_db_only (match ?x with _ => _ end) => destruct x
          end).

Lemma steady_ret {A} (a : A) : steady (ret a).
Proof. intros w Hf. split; [assumption|discriminate]. Qed.

Lemma steady_raise {A} msg : steady (@raise A (PyException msg)).
Proof. intros w Hf. split; [assumption|discriminate]. Qed.

Lemma steady_statement : steady statement.
Proof.
  intros [d ev clk nu fs] Hf. cbn in Hf. subst fs.
  split; [reflexivity|discriminate].
Qed.

Lemma steady_bind {A B} (m : M A) (k : A -> M B) :
  steady m -> (forall a, steady (k a)) -> steady (bind m k).
Proof.
  intros Hm Hk w Hf. unfold bind. destruct (Hm w Hf) as [Hf1 Hne].
  destruct (m w) as [[a|e] w1]; cbn in *.
  - apply Hk, Hf1.
  - split; [assumption|]. congruence.
Qed.

Lemma steady_try {A} (body : M A) handler :
  steady body -> (forall e, steady (handler e)) ->
  steady (try_except body handler).
Proof.
  intros Hm Hk w Hf. unfold try_except. destruct (Hm w Hf) as [Hf1 Hne].
  destruct (body w) as [[a|e] w1]; cbn in *.
  - split; [assumption|discriminate].
  - apply Hk, Hf1.
Qed.

Lemma steady_transaction {A} (body : M A) :
  steady body -> steady (transaction body).
Proof.
  intros Hm w Hf. unfold transaction. destruct (Hm w Hf) as [Hf1 Hne].
  destruct (body w) as [[a|e] w1]; cbn in *;
    split; first [assumption|discriminate].
Qed.

Lemma steady_query {A} (q : Db -> A) : steady (query q).
Proof.
  unfold query. apply steady_bind; [apply steady_statement|].
  intros _ w Hf. split; [assumption|discriminate].
Qed.

Lemma steady_exec u : steady (exec u).
Proof.
  unfold exec. apply steady_bind; [apply steady_statement|].
  intros _ w Hf. split; [assumption|discriminate].
Qed.

Lemma steady_now : steady datetime_now.
Proof. intros w Hf. split; [assumption|discriminate]. Qed.

Lemma steady_uuid4 : steady uuid4.
Proof. intros w Hf. split; [assumption|discriminate]. Qed.

Lemma steady_emit ev : steady (emit_event ev).
Proof. intros w Hf. split; [assumption|discriminate]. Qed.

Ltac steadying :=
  repeat (cbv beta zeta;
          lazymatch goal with
          | |- steady (ret _) => apply steady_ret
          | |- steady (raise _) => apply steady_raise
          | |- steady (query _) => apply steady_query
          | |- steady (exec _) => apply steady_exec
          | |- steady datetime_now => apply steady_now
          | |- steady uuid4 => apply steady_uuid4
          | |- steady (emit_event _) => apply steady_emit
          | |- steady (transaction _) => apply steady_transaction
          | |- steady (try_except _ _) => apply steady_try; [|intros ?]
          | |- steady (bind _ _) => apply steady_bind; [|intros ?]
          | |- steady (match ?x with _ => _ end) => destruct x
          end).

Lemma fails_cleanly_intro (f : M ApprovalResult) :
  all_or_nothing f -> raises_db_only f -> steady f -> fails_cleanly f.
Proof.
  intros Ha Hr Hs. split.
  - intros w e w' Hrun. split; [eapply Hr|eapply Ha]; exact Hrun.
  - intros w Hf. destruct (Hs w Hf) as [_ Hne].
    destruct (f w) as [[r|e] w'] eqn:Hrun; [eauto|].
    cbn in Hne. rewrite (Hr _ _ _ Hrun) in Hne. congruence.
Qed.

(** Unfolds the functions of both copies of the service. *)
Ltac open_service :=
  unfold Backend.approve_or_reject_order,
    Backend.approve_or_reject_wallet_load,
    Backend._process_approval, Backend._process_rejection,
    Backend.execute_game_load, Backend.execute_withdrawal,
    AI9.approve_or_reject_order, AI9.approve_or_reject_wallet_load,
    AI9._process_approval, AI9._process_rejection.

(** One goal for each of the entry points. *)
Ltac each_entry_point :=
  unfold entry_points, order_entry_points, wallet_load_entry_points;
  cbn [app];
  repeat first [apply List.Forall_nil | apply List.Forall_cons].

(** ** Failures of the persistence layer *)

(** X1: whatever the arguments, the store and the statements that fail,
    the only exception that leaves one of the four entry points is the
    error of the persistence layer, a call that raises leaves every table
    as it found it, and a call that meets no persistence failure returns a
    result. *)
Theorem X1_calls_fail_cleanly :
  Forall (fun f : EntryPoint =>
    forall id action actor_type actor_id final_amount rejection_reason
           bot_id,
      fails_cleanly
        (f id action actor_type actor_id final_amount rejection_reason
           bot_id))
    entry_points.
Proof.
  each_entry_point; intros id action a aid fa rr bid.
  all: apply fails_cleanly_intro; open_service.
  all: first [ solve [atomicity] | solve [db_errors_only]
             | solve [steadying] ].
Qed.

(** ** What every call leaves alone *)

Global Instance append_only_preorder : PreOrder append_only.
Proof.
  split.
  - intros d. split; reflexivity.
  - intros d1 d2 d3 [H1 H2] [H3 H4]. split; etransitivity; eassumption.
Qed.

Global Instance same_order_preorder : PreOrder same_order.
Proof.
  split.
  - intros o. unfold same_order. repeat split; reflexivity.
  - intros o1 o2 o3. unfold same_order. intros H1 H2.
    destruct H1 as (? & ? & ? & ? & ? & ? & ? & ? & ?).
    destruct H2 as (? & ? & ? & ? & ? & ? & ? & ? & ?).
    repeat split; first [congruence|lia].
Qed.

Global Instance same_user_preorder : PreOrder same_user.
Proof.
  split.
  - intros u. unfold same_user. repeat split; reflexivity.
  - intros u1 u2 u3. unfold same_user. intros (? & ? & ?) (? & ? & ?).
    repeat split; congruence.
Qed.

Global Instance same_request_preorder : PreOrder same_request.
Proof.
  split.
  - intros u. unfold same_request. repeat split; reflexivity.
  - intros u1 u2 u3. unfold same_request. intros (? & ? & ?) (? & ? & ?).
    repeat split; congruence.
Qed.

Global Instance rows_kept_preorder : PreOrder rows_kept.
Proof.
  split.
  - intros d. unfold rows_kept. repeat split; intros; reflexivity.
  - intros d1 d2 d3 (? & ? & Ho & Hu & Hq) (? & ? & Ho' & Hu' & Hq').
    unfold rows_kept. repeat split; try congruence; intros k.
    + etransitivity; [apply Ho|apply Ho'].
    + etransitivity; [apply Hu|apply Hu'].
    + etransitivity; [apply Hq|apply Hq'].
Qed.

Global Instance order_flow_only_preorder : PreOrder order_flow_only.
Proof.
  split; [intros d; reflexivity|].
  intros d1 d2 d3. unfold order_flow_only. congruence.
Qed.

Global Instance wallet_load_flow_only_preorder :
  PreOrder wallet_load_flow_only.
Proof.
  split; [intros d; split; reflexivity|].
  intros d1 d2 d3 [? ?] [? ?]. split; congruence.
Qed.

Lemma alter_kept {V} (S : relation V) `{!Reflexive S} (f : V -> V)
    (i k : string) (m : gmap string V) :
  (forall x, S x (f x)) -> option_Forall2 S (m !! k) (alter f i m !! k).
Proof.
  intros Hf. destruct (decide (i = k)) as [->|Hne].
  - rewrite lookup_alter_eq. destruct (m !! k); constructor. apply Hf.
  - rewrite lookup_alter_ne by assumption. reflexivity.
Qed.

Lemma keeps_run (R : Db -> Db -> Prop) {A} (m : M A) :
  keeps R m -> forall w, R (db w) (db (snd (m w))).
Proof. intros H. exact H. Qed.

Ltac table_write :=
  intros ?d;
  unfold append_only, order_flow_only, wallet_load_flow_only;
  cbn [with_orders with_users with_requests insert_ledger insert_game_load
       telegram_bots games orders users wallet_load_requests wallet_ledger
       game_loads];
  repeat split; first [reflexivity | apply prefix_app_r; reflexivity].

(** X2: the wallet ledger and the game-load table are append-only: after
    any call of an entry point, whatever its outcome, the entries that were
    there are still there, unchanged and in the same order, at the head of
    the table. *)
Theorem X2_ledger_append_only :
  Forall (fun f : EntryPoint =>
    forall id action actor_type actor_id final_amount rejection_reason
           bot_id w,
      append_only (db w)
        (db (snd (f id action actor_type actor_id final_amount
                    rejection_reason bot_id w))))
    entry_points.
Proof.
  each_entry_point; intros id action a aid fa rr bid.
  all: apply (keeps_run append_only); open_service; keeping; table_write.
Qed.

Ltac row_fields :=
  cbn [order_id o_user_id order_type status amount bonus_amount total_amount
       game_name payment_method payout_amount void_amount execution_attempts
       Backend.order_finalize Backend.order_attempt Backend.order_reject
       AI9.order_finalize AI9.order_mark_failed AI9.order_reject
       user_id username display_name user_credit user_withdraw
       user_set_balance
       request_id lr_user_id lr_payment_method
       Backend.request_approve Backend.request_reject
       AI9.request_approve AI9.request_reject AI9.request_mark_failed].

Ltac kept_write :=
  intros ?d; unfold rows_kept;
  cbn [with_orders with_users with_requests insert_ledger insert_game_load
       telegram_bots games orders users wallet_load_requests];
  repeat split; intros; try reflexivity;
  apply alter_kept; try (solve [typeclasses eauto]);
  intros ?x; unfold same_order, same_user, same_request; row_fields;
  repeat split; first [reflexivity|lia].

(** X3: no call of an entry point, whatever its outcome, creates or
    deletes a row of [orders], [users] or [wallet_load_requests], or
    touches [telegram_bots] or [games]; in the rows that stay, the keys,
    the owner, the order type, the game, the payment method and the bonus,
    payout and void amounts are as they were, and the attempt counter of
    an order never goes down. *)
Theorem X3_rows_kept :
  Forall (fun f : EntryPoint =>
    forall id action actor_type actor_id final_amount rejection_reason
           bot_id w,
      rows_kept (db w)
        (db (snd (f id action actor_type actor_id final_amount
                    rejection_reason bot_id w))))
    entry_points.
Proof.
  each_entry_point; intros id action a aid fa rr bid.
  all: apply (keeps_run rows_kept); open_service; keeping; kept_write.
Qed.

(** X4: the two flows keep apart: [approve_or_reject_order] never writes
    to [wallet_load_requests], and [approve_or_reject_wallet_load] never
    writes to [orders] or to [game_loads]. *)
Theorem X4_flows_apart :
  Forall (fun f : EntryPoint =>
    forall id action actor_type actor_id final_amount rejection_reason
           bot_id w,
      order_flow_only (db w)
        (db (snd (f id action actor_type actor_id final_amount
                    rejection_reason bot_id w))))
    order_entry_points /\
  Forall (fun f : EntryPoint =>
    forall id action actor_type actor_id final_amount rejection_reason
           bot_id w,
      wallet_load_flow_only (db w)
        (db (snd (f id action actor_type actor_id final_amount
                    rejection_reason bot_id w))))
    wallet_load_entry_points.
Proof.
  split; each_entry_point; intros id action a aid fa rr bid.
  1,2: apply (keeps_run order_flow_only); open_service; keeping;
       table_write.
  all: apply (keeps_run wallet_load_flow_only); open_service; keeping;
       table_write.
Qed.

(** ** The rows a call may write *)

Global Instance others_kept_preorder {V} i : PreOrder (@others_kept V i).
Proof.
  split.
  - intros m k _. reflexivity.
  - intros m1 m2 m3 H1 H2 k Hk. rewrite H2, H1 by assumption. reflexivity.
Qed.

Global Instance order_frame_preorder oid uid :
  PreOrder (order_frame oid uid).
Proof.
  split.
  - intros d. split; reflexivity.
  - intros d1 d2 d3 [? ?] [? ?]. split; etransitivity; eassumption.
Qed.

Global Instance request_frame_preorder rid uid :
  PreOrder (request_frame rid uid).
Proof.
  split.
  - intros d. split; reflexivity.
  - intros d1 d2 d3 [? ?] [? ?]. split; etransitivity; eassumption.
Qed.

Section KeepingFrom.
Context {R : Db -> Db -> Prop} `{!Reflexive R}.

Lemma kf_ret {A} d0 (a : A) : keeps_from R d0 (ret a).
Proof. intros w <-. reflexivity. Qed.

Lemma kf_reads_bind {A B} d0 (m : M A) (k : A -> M B) :
  keeps eq m -> (forall a, keeps_from R d0 (k a)) ->
  keeps_from R d0 (bind m k).
Proof.
  intros Hm Hk w Hw. unfold bind. specialize (Hm w).
  destruct (m w) as [[a|e] w1]; cbn in *.
  - apply Hk. congruence.
  - rewrite <- Hm, Hw. reflexivity.
Qed.

Lemma kf_query_bind {A B} d0 (q : Db -> A) (k : A -> M B) :
  keeps_from R d0 (k (q d0)) -> keeps_from R d0 (bind (query q) k).
Proof.
  intros Hk [d ev clk nu fs] Hw. cbn in Hw. subst d.
  unfold bind, query, statement; cbn.
  destruct fs as [|[|] fs]; cbn; try reflexivity; apply Hk; reflexivity.
Qed.

Lemma kf_keeps {A} d0 (R' : Db -> Db -> Prop) (m : M A) :
  keeps R' m -> (forall d', R' d0 d' -> R d0 d') -> keeps_from R d0 m.
Proof. intros Hm Hw w <-. apply Hw, Hm. Qed.
End KeepingFrom.

Lemma keeps_from_run (R : Db -> Db -> Prop) {A} (m : M A) w :
  keeps_from R (db w) m -> R (db w) (db (snd (m w))).
Proof. intros H. now apply H. Qed.

Ltac frame_write :=
  intros ?d; unfold order_frame, request_frame, others_kept;
  cbn [with_orders with_users with_requests insert_ledger insert_game_load
       orders users wallet_load_requests];
  split; intros ?k ?Hk; first [reflexivity | now apply lookup_alter_ne].

(** The bot check both entry points start with reads only. *)
Ltac bot_check_reads :=
  match goal with
  | |- keeps eq (match ?a with ADMIN => _ | _ => _ end) => destruct a
  end;
  keeping.

(** X5: a call about order [oid] writes to no other order and to no user
    but the owner of [oid]; a call about wallet-load request [rid] writes
    to no other request and to no user but the owner of [rid].  This holds
    whatever the outcome of the call and whatever statements fail, provided
    the rows are stored under their own keys. *)
Theorem X5_isolation :
  Forall (fun f : EntryPoint =>
    forall oid action actor_type actor_id final_amount rejection_reason
           bot_id w o,
      orders (db w) !! oid = Some o -> order_id o = oid ->
      (forall u, users (db w) !! o_user_id o = Some u ->
                 user_id u = o_user_id o) ->
      order_frame oid (o_user_id o) (db w)
        (db (snd (f oid action actor_type actor_id final_amount
                    rejection_reason bot_id w))))
    order_entry_points /\
  Forall (fun f : EntryPoint =>
    forall rid action actor_type actor_id final_amount rejection_reason
           bot_id w q,
      wallet_load_requests (db w) !! rid = Some q ->
      request_frame rid (lr_user_id q) (db w)
        (db (snd (f rid action actor_type actor_id final_amount
                    rejection_reason bot_id w))))
    wallet_load_entry_points.
Proof.
  split; each_entry_point.
  1,2: intros oid action a aid fa rr bid w o Ho Hk Hu;
       apply keeps_from_run;
       unfold Backend.approve_or_reject_order, AI9.approve_or_reject_order;
       (apply kf_reads_bind; [bot_check_reads|intros [r|]]; [apply kf_ret|]);
       apply kf_query_bind; unfold select_order at 1; rewrite Ho;
       (destruct (negb _); [apply kf_ret|]);
       (apply kf_reads_bind; [keeping|intros now]);
       apply kf_query_bind; unfold select_user at 1;
       (destruct (users (db w) !! o_user_id o) as [u|] eqn:Hrow;
          [|apply kf_ret]);
       specialize (Hu u eq_refl);
       (destruct (String.eqb action "approve");
        (apply (kf_keeps _ (order_frame (order_id o) (user_id u)));
         [|rewrite Hk, Hu; auto]));
       open_service; keeping; frame_write.
  all: intros rid action a aid fa rr bid w q Hq;
       apply keeps_from_run;
       unfold Backend.approve_or_reject_wallet_load,
         AI9.approve_or_reject_wallet_load;
       (apply kf_reads_bind; [bot_check_reads|intros [r|]]; [apply kf_ret|]);
       apply kf_query_bind; unfold select_load_request at 1; rewrite Hq;
       (destruct (users (db w) !! lr_user_id q) as [u|]; [|apply kf_ret]);
       cbn [lrr_request];
       (apply (kf_keeps _ (request_frame rid (lr_user_id q))); [|auto]);
       keeping; frame_write.
Qed.

(** The order "o1" of the sample store and its owner frame a call about
    it. *)
Lemma X5_witness :
  order_frame "o1" "u1"
    (order_db "wallet_topup" "pending" 50000 0)
    (db (snd (Backend.approve_or_reject_order "o1" "approve" ADMIN "adm" None
                None None
                (with_faults [false; true]
                   (mk_world (order_db "wallet_topup" "pending" 50000 0)))))).
Proof.
  pose proof (proj1 X5_isolation) as H.
  unfold order_entry_points in H. apply List.Forall_inv in H.
  apply (H "o1" "approve" ADMIN "adm" None None None
           (with_faults [false; true]
              (mk_world (order_db "wallet_topup" "pending" 50000 0)))
           (mk_order "o1" "u1" "wallet_topup" "pending" 50000)
           eq_refl eq_refl).
  intros u Hu. cbn in Hu. injection Hu as <-. reflexivity.
Defined.

(** ** The bot identity *)

(** X6: the [bot_id] argument is read only when the actor is a Telegram
    bot: a call by an admin or by the system gives the same outcome and
    the same store with and without it, and for a bot an empty identity
    counts as none. *)
Theorem X6_bot_id_unused :
  Forall (fun f : EntryPoint =>
    forall id action actor_id final_amount rejection_reason bot_id w,
      let call actor_type bot_id :=
        f id action actor_type actor_id final_amount rejection_reason bot_id
          w in
      call ADMIN bot_id = call ADMIN None /\
      call SYSTEM bot_id = call SYSTEM None /\
      call TELEGRAM_BOT (Some "") = call TELEGRAM_BOT None)
    entry_points.
Proof.
  each_entry_point; intros id action aid fa rr bid w; cbv zeta;
    repeat split; reflexivity.
Qed.

(** ** Requests that are not there, and requests that are not pending *)

Lemma Backend_wallet_missing w rid action a aid fa rr bid :
  faults w = [] ->
  bot_denial can_approve_wallet_loads
    "Bot does not have wallet load approval permissions" a bid (db w)
    = None ->
  select_load_request rid (db w) = None ->
  refused (Backend.approve_or_reject_wallet_load rid action a aid fa rr bid)
    w "Request not found".
Proof.
  intros Hf Hd Hrow. calm w. revert Hd. unfold refused.
  unfold Backend.approve_or_reject_wallet_load.
  wallet_entry can_approve_wallet_loads; intros H; try discriminate H;
    rewrite Hrow; reflexivity.
Qed.

Lemma AI9_wallet_missing w rid action a aid fa rr bid :
  faults w = [] ->
  bot_denial can_approve_wallet_loads
    "Bot does not have wallet load approval permissions" a bid (db w)
    = None ->
  select_load_request rid (db w) = None ->
  refused (AI9.approve_or_reject_wallet_load rid action a aid fa rr bid)
    w "Request not found".
Proof.
  intros Hf Hd Hrow. calm w. revert Hd. unfold refused.
  unfold AI9.approve_or_reject_wallet_load.
  wallet_entry can_approve_wallet_loads; intros H; try discriminate H;
    rewrite Hrow; reflexivity.
Qed.

Lemma select_load_request_None rid d :
  select_load_request rid d = None <->
  wallet_load_requests d !! rid = None \/
  exists q, wallet_load_requests d !! rid = Some q /\
            users d !! lr_user_id q = None.
Proof.
  unfold select_load_request.
  destruct (wallet_load_requests d !! rid) as [q|]; [|tauto].
  destruct (users d !! lr_user_id q) eqn:Hu.
  - split; [discriminate|]. intros [H | (q' & [= <-] & H)]; congruence.
  - split; [|reflexivity]. intros _. right. eauto.
Qed.

(** X7: what is not there is refused before anything is written.  With
    the bot check passed and no persistence failure, a call about an order
    that does not exist is refused with "Order not found" in both copies; a
    call about a pending order whose user row is missing returns "User not
    found", the clock having been read; a call about a wallet-load request
    that does not exist, or whose user row is missing, is refused with
    "Request not found".  No table is written and no event is emitted. *)
Theorem X7_missing_rows w id action a aid fa rr bid :
  faults w = [] ->
  let order_b := Backend.approve_or_reject_order id action a aid fa rr bid in
  let order_a := AI9.approve_or_reject_order id action a aid fa rr bid in
  let load_b :=
    Backend.approve_or_reject_wallet_load id action a aid fa rr bid in
  let load_a := AI9.approve_or_reject_wallet_load id action a aid fa rr bid in
  (authorized can_approve_payments a bid (db w) = true ->
   (orders (db w) !! id = None ->
    refused order_b w "Order not found" /\
    refused order_a w "Order not found") /\
   (forall o, orders (db w) !! id = Some o ->
      users (db w) !! o_user_id o = None ->
      (status o ∈ Backend.order_pending_states ->
       order_b w = (Ret (result false "User not found"), tick w)) /\
      (status o ∈ AI9.order_pending_states ->
       order_a w = (Ret (result false "User not found"), tick w)))) /\
  (authorized can_approve_wallet_loads a bid (db w) = true ->
   (wallet_load_requests (db w) !! id = None \/
    exists q, wallet_load_requests (db w) !! id = Some q /\
              users (db w) !! lr_user_id q = None) ->
   refused load_b w "Request not found" /\
   refused load_a w "Request not found").
Proof.
  intros Hf order_b order_a load_b load_a.
  subst order_b order_a load_b load_a. unfold refused.
  split; intros Ha.
  - split.
    + intros Ho.
      rewrite Backend_order_entry, AI9_order_entry by assumption.
      now rewrite (authorized_denial _ _ _ _ _ Ha), Ho.
    + intros o Ho Hu. split; intros Hs.
      * rewrite Backend_order_entry by assumption.
        now rewrite (authorized_denial _ _ _ _ _ Ha), Ho,
          (listed_true _ _ Hs), Hu.
      * rewrite AI9_order_entry by assumption.
        now rewrite (authorized_denial _ _ _ _ _ Ha), Ho,
          (listed_true _ _ Hs), Hu.
  - intros Hrow. apply select_load_request_None in Hrow.
    pose proof (authorized_denial _
      "Bot does not have wallet load approval permissions" _ _ _ Ha) as Hd.
    split.
    + now apply Backend_wallet_missing.
    + now apply AI9_wallet_missing.
Qed.

(** The sample store has no order "o2". *)
Lemma X7_witness :
  refused (Backend.approve_or_reject_order "o2" "approve" ADMIN "adm" None None
             None)
    (mk_world (order_db "wallet_topup" "pending" 50000 0)) "Order not found".
Proof.
  pose proof (X7_missing_rows
    (mk_world (order_db "wallet_topup" "pending" 50000 0))
    "o2" "approve" ADMIN "adm" None None None eq_refl) as H.
  cbv zeta in H. destruct H as [H _].
  destruct (H eq_refl) as [Hmiss _].
  apply Hmiss. reflexivity.
Defined.

(** X8: a decision is taken once.  With the bot check passed and no
    persistence failure, a call about an order whose status is outside the
    pending states of the copy at hand, or about a wallet-load request that
    is not pending, is refused by the idempotency guard, which names the
    current status; nothing is written and no event is emitted. *)
Theorem X8_not_pending_refused w id action a aid fa rr bid :
  faults w = [] ->
  let order_b := Backend.approve_or_reject_order id action a aid fa rr bid in
  let order_a := AI9.approve_or_reject_order id action a aid fa rr bid in
  let load_b :=
    Backend.approve_or_reject_wallet_load id action a aid fa rr bid in
  let load_a := AI9.approve_or_reject_wallet_load id action a aid fa rr bid in
  (forall o,
     authorized can_approve_payments a bid (db w) = true ->
     orders (db w) !! id = Some o ->
     (status o ∉ Backend.order_pending_states ->
      tripped order_b w "Order" (status o)) /\
     (status o ∉ AI9.order_pending_states ->
      tripped order_a w "Order" (status o))) /\
  (forall q v,
     authorized can_approve_wallet_loads a bid (db w) = true ->
     wallet_load_requests (db w) !! id = Some q ->
     users (db w) !! lr_user_id q = Some v ->
     (lr_status q <> "pending" -> tripped load_b w "Request" (lr_status q)) /\
     (lr_status q ∉ AI9.request_pending_states ->
      tripped load_a w "Request" (lr_status q))).
Proof.
  intros Hf order_b order_a load_b load_a.
  subst order_b order_a load_b load_a.
  split.
  - intros o Ha Ho. split; intros Hs.
    + now apply Backend_order_tripped.
    + now apply AI9_order_tripped.
  - intros q v Ha Hq Hv.
    pose proof (authorized_denial _
      "Bot does not have wallet load approval permissions" _ _ _ Ha) as Hd.
    pose proof (select_load_request_joined _ _ _ _ Hq Hv) as Hrow.
    split; intros Hs.
    + apply (Backend_wallet_tripped w id action a aid fa rr bid _ Hf Hd Hrow).
      exact Hs.
    + apply (AI9_wallet_tripped w id action a aid fa rr bid _ Hf Hd Hrow).
      exact Hs.
Qed.

(** A request under review is not pending for [Backend]. *)
Lemma X8_witness :
  tripped (Backend.approve_or_reject_wallet_load "r1" "approve" ADMIN "adm"
             None None None)
    (mk_world (request_db "PENDING_REVIEW" 50000 0))
    "Request" "PENDING_REVIEW".
Proof.
  pose proof (X8_not_pending_refused
    (mk_world (request_db "PENDING_REVIEW" 50000 0))
    "r1" "approve" ADMIN "adm" None None None eq_refl) as H.
  cbv zeta in H. destruct H as [_ H].
  destruct (H (mk_request "r1" "u1" "PENDING_REVIEW" 50000)
              (mk_user "u1" "ana" 0) eq_refl eq_refl eq_refl) as [Hb _].
  apply Hb. discriminate.
Defined.

(** ** What one approval does to the money *)

Ltac money_leaf uid :=
  first
    [ left; split; reflexivity
    | right; do 2 eexists;
      cbn [l_user_id balance_before balance_after l_amount transaction_type
           real_balance user_credit user_withdraw user_set_balance];
      unfold entry_balanced, others_kept;
      cbn [l_user_id balance_before balance_after l_amount transaction_type
           real_balance user_credit user_withdraw user_set_balance];
      split; [reflexivity|];
      split; [reflexivity|];
      split; [reflexivity|];
      split; [reflexivity|];
      split; [intros ?k ?Hk; now rewrite lookup_alter_ne by congruence|];
      split; [rewrite lookup_alter_eq; match goal with
                                      | H : _ !! uid = Some _ |- _ => rewrite H
                                      end; reflexivity
             |reflexivity] ].

Lemma Backend_approval_money w o u a aid fa now :
  faults w = [] ->
  users (db w) !! user_id u = Some u ->
  exists r w',
    Backend._process_approval o u a aid fa now w = (Ret r, w') /\
    money_effect (user_id u) (num_or (real_balance u) 0) (db w) (db w').
Proof.
  intros Hf Hu. calm w.
  destruct (Backend._process_approval _ _ _ _ _ _ _) as [out w'] eqn:Hrun.
  unfold Backend._process_approval, Backend.execute_withdrawal,
    Backend.execute_game_load, select_user in Hrun.
  fold (effective_amount fa o) (is_adjusted fa o) in Hrun.
  set (amt := effective_amount fa o) in *.
  destruct (is_adjusted fa o) eqn:Hadj.
  all: kinds o.
  all: run_in Hrun.
  all: try (split_in Hrun (num_or (real_balance u) 0 - amt <? 0);
            run_in Hrun).
  all: rewrite ?select_game_with_orders in Hrun.
  all: try (split_in Hrun (select_game (game_name o) d); run_in Hrun).
  all: cbn [users with_users with_orders insert_ledger insert_game_load]
         in Hrun.
  all: rewrite ?lookup_alter_eq, ?Hu in Hrun.
  all: cbn [fmap option_fmap option_map] in Hrun; run_in Hrun.
  all: try (split_in Hrun (num_or (real_balance u) 0 - amount o <? 0);
            run_in Hrun).
  all: injection Hrun as <- <-; do 2 eexists; split; [reflexivity|].
  all: unfold money_effect;
       cbn [db with_orders with_users insert_ledger insert_game_load
            users wallet_ledger].
  all: money_leaf (user_id u).
Qed.

Lemma AI9_approval_money w o u a aid fa now :
  faults w = [] ->
  users (db w) !! user_id u = Some u ->
  exists r w',
    AI9._process_approval o u a aid fa now w = (Ret r, w') /\
    money_effect (user_id u) (num_or (real_balance u) 0) (db w) (db w').
Proof.
  intros Hf Hu. calm w.
  destruct (AI9._process_approval _ _ _ _ _ _ _) as [out w'] eqn:Hrun.
  unfold AI9._process_approval in Hrun.
  fold (effective_amount fa o) (is_adjusted fa o) in Hrun.
  set (amt := effective_amount fa o) in *.
  destruct (is_adjusted fa o) eqn:Hadj.
  all: kinds o.
  all: run_in Hrun.
  all: try (split_in Hrun (num_or (real_balance u) 0 <? amt); run_in Hrun).
  all: injection Hrun as <- <-; do 2 eexists; split; [reflexivity|].
  all: unfold money_effect;
       cbn [db with_orders with_users insert_ledger insert_game_load
            users wallet_ledger].
  all: money_leaf (user_id u).
Qed.

(** ** The ledger invariant *)

Lemma chained_snoc l e :
  chained l ->
  (forall p, last l = Some p -> balance_before e = balance_after p) ->
  chained (l ++ [e]).
Proof.
  induction l as [|e1 l IH]; intros Hc Hl; [cbn; auto|].
  destruct Hc as [H1 Hc]. cbn [app chained]. split.
  - destruct l as [|e2 l]; cbn [app].
    + apply Hl. reflexivity.
    + exact H1.
  - apply IH; [exact Hc|]. intros p Hp. apply Hl.
    destruct l; [discriminate Hp|]. exact Hp.
Qed.

Lemma entries_of_snoc uid l e :
  entries_of uid (l ++ [e]) =
  entries_of uid l ++ (if decide (l_user_id e = uid) then [e] else []).
Proof.
  unfold entries_of. rewrite filter_app. reflexivity.
Qed.

Lemma num_or_zero z : num_or (Some z) 0 = z.
Proof. unfold num_or. destruct (z =? 0) eqn:H; [|reflexivity]. lia. Qed.

Lemma money_effect_sound uid u d d' :
  users d !! uid = Some u ->
  money_effect uid (num_or (real_balance u) 0) d d' ->
  ledger_sound d -> ledger_sound d'.
Proof.
  intros Hu [[Husers Hledger] | (e & u' & Hledger & He & Hbal & Hb0 & Hothers
                                 & Hu' & Hnew)] (Hall & Hchain & Hlast).
  - unfold ledger_sound. rewrite Husers, Hledger. auto.
  - unfold ledger_sound. rewrite Hledger. split; [|split].
    + intros e' [He' | He']%elem_of_app; [auto|].
      apply list_elem_of_singleton in He'. now subst e'.
    + intros k. rewrite entries_of_snoc.
      destruct (decide (l_user_id e = k)) as [Hk|Hk];
        [|rewrite app_nil_r; apply Hchain].
      apply chained_snoc; [apply Hchain|].
      intros p Hp. subst k. rewrite He in Hp.
      rewrite Hb0, (Hlast _ _ _ Hu Hp). apply num_or_zero.
    + intros k v e'. rewrite entries_of_snoc.
      destruct (decide (l_user_id e = k)) as [Hk|Hk].
      * rewrite last_snoc. intros Hv [= <-]. congruence.
      * rewrite app_nil_r. intros Hv. apply Hlast.
        rewrite <- Hothers; [exact Hv|congruence].
Qed.

Lemma rows_kept_keyed d d' : rows_kept d d' -> users_keyed d -> users_keyed d'.
Proof.
  intros (_ & _ & _ & Hu & _) Hk k u' Hu'.
  specialize (Hu k). rewrite Hu' in Hu.
  inversion Hu as [u ? [Hid _] Hrow|]; subst.
  rewrite Hid. apply Hk. congruence.
Qed.

(** ** What one call does to the money *)

Lemma Backend_order_money w oid action a aid fa rr bid :
  faults w = [] -> users_keyed (db w) ->
  exists r w',
    Backend.approve_or_reject_order oid action a aid fa rr bid w = (Ret r, w')
    /\ (db w' = db w \/ some_money_effect (db w) (db w')).
Proof.
  intros Hf Hkey. rewrite Backend_order_entry by assumption.
  destruct (bot_denial _ _ _ _ _); [eauto|].
  destruct (orders (db w) !! oid) as [o|]; [|eauto].
  destruct (bool_decide _); [|eauto].
  destruct (users (db w) !! o_user_id o) as [u|] eqn:Hu; [|eauto].
  pose proof (Hkey _ _ Hu) as Hid. rewrite <- Hid in Hu.
  destruct (String.eqb action "approve").
  - destruct (Backend_approval_money (tick w) o u a aid fa (clock w))
      as (r & w' & Hrun & Hm); try assumption.
    exists r, w'. split; [assumption|]. right. exists (user_id u), u. auto.
  - destruct (Backend._process_rejection o u a aid rr (clock w) (tick w))
      as [out w'] eqn:Hrun.
    revert Hrun. calm w. unfold Backend._process_rejection. run.
    intros [= <- <-]. do 2 eexists. split; [reflexivity|].
    right. exists (user_id u), u. split; [assumption|]. left.
    split; reflexivity.
Qed.

Lemma AI9_order_money w oid action a aid fa rr bid :
  faults w = [] -> users_keyed (db w) ->
  exists r w',
    AI9.approve_or_reject_order oid action a aid fa rr bid w = (Ret r, w')
    /\ (db w' = db w \/ some_money_effect (db w) (db w')).
Proof.
  intros Hf Hkey. rewrite AI9_order_entry by assumption.
  destruct (bot_denial _ _ _ _ _); [eauto|].
  destruct (orders (db w) !! oid) as [o|]; [|eauto].
  destruct (bool_decide _); [|eauto].
  destruct (users (db w) !! o_user_id o) as [u|] eqn:Hu; [|eauto].
  pose proof (Hkey _ _ Hu) as Hid. rewrite <- Hid in Hu.
  destruct (String.eqb action "approve").
  - destruct (AI9_approval_money (tick w) o u a aid fa (clock w))
      as (r & w' & Hrun & Hm); try assumption.
    exists r, w'. split; [assumption|]. right. exists (user_id u), u. auto.
  - destruct (AI9._process_rejection o u a aid rr (clock w) (tick w))
      as [out w'] eqn:Hrun.
    revert Hrun. calm w. unfold AI9._process_rejection. run.
    intros [= <- <-]. do 2 eexists. split; [reflexivity|].
    right. exists (user_id u), u. split; [assumption|]. left.
    split; reflexivity.
Qed.

Ltac wallet_money Hq Hu :=
  do 2 eexists; split; [reflexivity|];
  first
    [ left; reflexivity
    | right; do 2 eexists; split; [exact Hu|];
      unfold money_effect;
      cbn [db with_users with_requests insert_ledger users wallet_ledger];
      first
        [ left; split; reflexivity
        | right; do 2 eexists;
          unfold entry_balanced, others_kept;
          cbn [l_user_id balance_before balance_after l_amount
               transaction_type real_balance user_set_balance
               lrr_request lrr_real_balance];
          split; [reflexivity|];
          split; [reflexivity|];
          split; [reflexivity|];
          split; [reflexivity|];
          split; [intros ?k ?Hk; now rewrite lookup_alter_ne by congruence|];
          split; [rewrite lookup_alter_eq, Hu; reflexivity|reflexivity] ] ].

Lemma Backend_wallet_money w rid action a aid fa rr bid :
  faults w = [] ->
  exists r w',
    Backend.approve_or_reject_wallet_load rid action a aid fa rr bid w
    = (Ret r, w')
    /\ (db w' = db w \/ some_money_effect (db w) (db w')).
Proof.
  intros Hf. calm w.
  unfold Backend.approve_or_reject_wallet_load, select_bot.
  destruct (bot_given bid) as [b|]; destruct a; run.
  all: repeat match goal with
         | |- context [telegram_bots ?d !! ?b] =>
             destruct (telegram_bots d !! b) as [?bot|]; run
         | |- context [is_active ?bot] => destruct (is_active bot); run
         | |- context [can_approve_wallet_loads ?bot] =>
             destruct (can_approve_wallet_loads bot); run
         end.
  all: try (do 2 eexists; split; [reflexivity|]; left; reflexivity).
  all: unfold select_load_request;
       destruct (wallet_load_requests d !! rid) as [q|] eqn:Hq;
       [destruct (users d !! lr_user_id q) as [u|] eqn:Hu|]; run;
       try (do 2 eexists; split; [reflexivity|]; left; reflexivity).
  all: cbn [lrr_request lrr_real_balance lrr_username lrr_display_name];
       destruct (String.eqb (lr_status q) "pending"); run;
       try (do 2 eexists; split; [reflexivity|]; left; reflexivity).
  all: destruct (String.eqb action "approve"); run.
  all: wallet_money Hq Hu.
Qed.

Lemma AI9_wallet_money w rid action a aid fa rr bid :
  faults w = [] ->
  exists r w',
    AI9.approve_or_reject_wallet_load rid action a aid fa rr bid w
    = (Ret r, w')
    /\ (db w' = db w \/ some_money_effect (db w) (db w')).
Proof.
  intros Hf. calm w.
  unfold AI9.approve_or_reject_wallet_load, select_bot.
  destruct (bot_given bid) as [b|]; destruct a; run.
  all: repeat match goal with
         | |- context [telegram_bots ?d !! ?b] =>
             destruct (telegram_bots d !! b) as [?bot|]; run
         | |- context [is_active ?bot] => destruct (is_active bot); run
         | |- context [can_approve_wallet_loads ?bot] =>
             destruct (can_approve_wallet_loads bot); run
         end.
  all: try (do 2 eexists; split; [reflexivity|]; left; reflexivity).
  all: unfold select_load_request;
       destruct (wallet_load_requests d !! rid) as [q|] eqn:Hq;
       [destruct (users d !! lr_user_id q) as [u|] eqn:Hu|]; run;
       try (do 2 eexists; split; [reflexivity|]; left; reflexivity).
  all: cbn [lrr_request lrr_real_balance lrr_username lrr_display_name];
       destruct (bool_decide (lr_status q ∈ AI9.request_pending_states)); run;
       try (do 2 eexists; split; [reflexivity|]; left; reflexivity).
  all: destruct (String.eqb action "approve"); run.
  all: wallet_money Hq Hu.
Qed.

Lemma entry_rows_kept :
  Forall (fun f : EntryPoint =>
    forall id action a aid fa rr bid,
      keeps rows_kept (f id action a aid fa rr bid))
    entry_points.
Proof.
  each_entry_point; intros id action a aid fa rr bid;
    open_service; keeping; kept_write.
Qed.

Lemma entry_steady :
  Forall (fun f : EntryPoint =>
    forall id action a aid fa rr bid, steady (f id action a aid fa rr bid))
    entry_points.
Proof.
  each_entry_point; intros id action a aid fa rr bid;
    open_service; steadying.
Qed.

Lemma entry_money :
  Forall (fun f : EntryPoint =>
    forall id action a aid fa rr bid w,
      faults w = [] -> users_keyed (db w) ->
      exists r w',
        f id action a aid fa rr bid w = (Ret r, w') /\
        (db w' = db w \/ some_money_effect (db w) (db w')))
    entry_points.
Proof.
  each_entry_point; intros id action a aid fa rr bid w Hf Hk.
  - now apply Backend_order_money.
  - now apply AI9_order_money.
  - now apply Backend_wallet_money.
  - now apply AI9_wallet_money.
Qed.

(** X9: the ledger and the balances tell the same story, and every call
    keeps it so.  Starting from a store where every ledger entry is
    balanced, the entries of each user are chained and the balance of each
    user is the one the last entry ended on, any call of an entry point
    that meets no persistence failure leaves such a store again. *)
Theorem X9_books_stay_sound :
  Forall (fun f : EntryPoint =>
    forall id action actor_type actor_id final_amount rejection_reason bot_id
           w,
      faults w = [] -> books_sound (db w) ->
      let w' := snd (f id action actor_type actor_id final_amount
                       rejection_reason bot_id w) in
      faults w' = [] /\ books_sound (db w'))
    entry_points.
Proof.
  pose proof entry_rows_kept as Hrows.
  pose proof entry_steady as Hsteady.
  pose proof entry_money as Hmoney.
  rewrite Forall_forall in *. intros f Hin id action a aid fa rr bid w Hf
    [Hkey Hsound] w'. subst w'.
  split; [apply (Hsteady f Hin), Hf|].
  split.
  - eapply rows_kept_keyed; [|exact Hkey]. apply (Hrows f Hin).
  - destruct (Hmoney f Hin id action a aid fa rr bid w Hf Hkey)
      as (r & w' & Hrun & Hcase).
    rewrite Hrun. cbn [snd]. destruct Hcase as [-> | (uid & u & Hu & Hm)].
    + exact Hsound.
    + eapply money_effect_sound; eassumption.
Qed.

(** The books of the sample store are sound, and stay so when its top-up
    is approved. *)
Lemma X9_witness :
  books_sound
    (db (snd (Backend.approve_or_reject_order "o1" "approve" ADMIN "adm" None
                None None
                (mk_world (order_db "wallet_topup" "pending" 50000 0))))).
Proof.
  pose proof X9_books_stay_sound as H.
  unfold entry_points, order_entry_points in H. cbn [app] in H.
  apply List.Forall_inv in H.
  refine (proj2 (H "o1" "approve" ADMIN "adm" None None None
                   (mk_world (order_db "wallet_topup" "pending" 50000 0))
                   eq_refl _)).
  split; [|split; [|split]].
  - intros k u Hu. cbn [users db mk_world order_db] in Hu.
    apply lookup_singleton_Some in Hu as [<- <-]. reflexivity.
  - intros e He. inversion He.
  - intros uid. exact I.
  - intros uid u e _ He. discriminate He.
Defined.

(** ** Reading a run of an approval *)

(** Runs [Backend._process_approval] in [Hrun], one goal for each path. *)
Ltac backend_paths Hrun Hu :=
  lazymatch type of Hrun with
  | Backend._process_approval ?o ?u _ _ ?fa _ _ = _ =>
      unfold Backend._process_approval, Backend.execute_withdrawal,
        Backend.execute_game_load, select_user in Hrun;
      fold (effective_amount fa o) (is_adjusted fa o) in Hrun;
      destruct (is_adjusted fa o) eqn:?Hadj;
      kinds o;
      run_in Hrun;
      try (split_in Hrun
             (num_or (real_balance u) 0 - effective_amount fa o <? 0);
           run_in Hrun);
      rewrite ?select_game_with_orders in Hrun;
      try (match type of Hrun with
           | context [select_game ?n ?dd] =>
               destruct (select_game n dd) eqn:?Hgame
           end; run_in Hrun);
      cbn [users with_users with_orders insert_ledger insert_game_load]
        in Hrun;
      rewrite ?lookup_alter_eq, ?Hu in Hrun;
      cbn [fmap option_fmap option_map] in Hrun; run_in Hrun;
      try (split_in Hrun (num_or (real_balance u) 0 - amount o <? 0);
           run_in Hrun);
      injection Hrun as <- <-
  end.

(** Runs [AI9._process_approval] in [Hrun], one goal for each path. *)
Ltac ai9_paths Hrun :=
  lazymatch type of Hrun with
  | AI9._process_approval ?o ?u _ _ ?fa _ _ = _ =>
      unfold AI9._process_approval in Hrun;
      fold (effective_amount fa o) (is_adjusted fa o) in Hrun;
      destruct (is_adjusted fa o) eqn:?Hadj;
      kinds o;
      run_in Hrun;
      try (split_in Hrun (num_or (real_balance u) 0 <? effective_amount fa o);
           run_in Hrun);
      injection Hrun as <- <-
  end.

Ltac row_after Ho :=
  cbn [faults db events with_orders with_users insert_ledger
       insert_game_load telegram_bots orders wallet_ledger users game_loads];
  rewrite ?lookup_alter_eq, ?Ho; cbn [fmap option_fmap option_map].

(** X10: who decided.  Both copies write [approved_by] and [approved_at]
    on approval and on rejection.  [Backend] also writes the actor type and
    the actor id, and counts one more execution attempt on approval and
    none on rejection; [AI9] leaves the actor type, the actor id and the
    attempt counter as they were. *)
Theorem X10_decision_record w o u a aid fa rr now :
  faults w = [] ->
  users (db w) !! user_id u = Some u ->
  orders (db w) !! order_id o = Some o ->
  let recorded (run : Outcome ApprovalResult * World)
        (type id : option string) (attempts : Z) :=
    exists o', orders (db (snd run)) !! order_id o = Some o' /\
      approved_by o' = Some aid /\ approved_at o' = Some now /\
      approved_by_type o' = type /\ approved_by_id o' = id /\
      execution_attempts o' = attempts in
  recorded (Backend._process_approval o u a aid fa now w)
    (Some (actor_value a)) (Some aid) (execution_attempts o + 1) /\
  recorded (Backend._process_rejection o u a aid rr now w)
    (Some (actor_value a)) (Some aid) (execution_attempts o) /\
  recorded (AI9._process_approval o u a aid fa now w)
    (approved_by_type o) (approved_by_id o) (execution_attempts o) /\
  recorded (AI9._process_rejection o u a aid rr now w)
    (approved_by_type o) (approved_by_id o) (execution_attempts o).
Proof.
  intros Hf Hu Ho recorded. subst recorded. calm w.
  split; [|split; [|split]].
  - destruct (Backend._process_approval _ _ _ _ _ _ _) as [out w'] eqn:Hrun.
    backend_paths Hrun Hu.
    all: eexists; cbn [snd]; row_after Ho; split; [reflexivity|].
    all: order_fields; repeat split; reflexivity.
  - unfold Backend._process_rejection. run.
    eexists; cbn [snd]; row_after Ho; split; [reflexivity|].
    order_fields; repeat split; reflexivity.
  - destruct (AI9._process_approval _ _ _ _ _ _ _) as [out w'] eqn:Hrun.
    ai9_paths Hrun.
    all: eexists; cbn [snd]; row_after Ho; split; [reflexivity|].
    all: order_fields; repeat split; reflexivity.
  - unfold AI9._process_rejection. run.
    eexists; cbn [snd]; row_after Ho; split; [reflexivity|].
    order_fields; repeat split; reflexivity.
Qed.

(** Approving the top-up of the sample store as "adm" records "adm" and
    one attempt. *)
Lemma X10_witness :
  exists o',
    orders (db (snd (Backend._process_approval
                       (mk_order "o1" "u1" "wallet_topup" "pending" 50000)
                       (mk_user "u1" "ana" 0) ADMIN "adm" None 1000
                       (mk_world
                          (order_db "wallet_topup" "pending" 50000 0)))))
      !! "o1" = Some o' /\
    approved_by o' = Some "adm" /\ approved_by_id o' = Some "adm" /\
    execution_attempts o' = 1.
Proof.
  destruct (X10_decision_record
    (mk_world (order_db "wallet_topup" "pending" 50000 0))
    (mk_order "o1" "u1" "wallet_topup" "pending" 50000)
    (mk_user "u1" "ana" 0) ADMIN "adm" None None 1000
    eq_refl eq_refl eq_refl) as [(o' & H1 & H2 & _ & _ & H5 & H6) _].
  exists o'. repeat split; assumption.
Defined.

(** ** The result and the row *)

Lemma unknown_kind (k : string) :
  k ∉ known_kinds ->
  bool_decide (k ∈ ["wallet_topup"; "deposit"]) = false /\
  String.eqb k "wallet_topup" = false /\
  String.eqb k "withdrawal" = false /\
  String.eqb k "game_load" = false.
Proof.
  unfold known_kinds. rewrite !not_elem_of_cons. intros (H1 & H2 & H3 & H4 & _).
  repeat split; try (now apply String.eqb_neq).
  apply bool_decide_eq_false. rewrite !not_elem_of_cons. repeat split; auto.
  apply not_elem_of_nil.
Qed.

(** Closes the goals a run leaves once its result and its final world are
    known. *)
Ltac settle :=
  repeat match goal with
         | H : true = false |- _ => discriminate H
         | H : false = true |- _ => discriminate H
         | H : @eq string _ _ |- _ => discriminate H
         | |- _ /\ _ => split
         | |- _ <-> _ => split
         | |- _ -> _ => intros ?
         | |- exists _, _ => eexists
         | |- _ = _ => reflexivity
         end.

Ltac result_fields :=
  cbn [success data message dict_get String.eqb Ascii.eqb Bool.eqb
       jopt fmap option_fmap option_map];
  order_fields.

(** X11: an order type the service does not know.  Approving an order
    that is neither a top-up, a deposit, a withdrawal nor a game load moves
    no money and records no execution.  [Backend] marks the order
    [APPROVED_EXECUTED]; [AI9] marks it [APPROVED_FAILED] and still reports
    success. *)
Theorem X11_unknown_order_type w o u a aid fa now :
  faults w = [] ->
  users (db w) !! user_id u = Some u ->
  orders (db w) !! order_id o = Some o ->
  order_type o ∉ known_kinds ->
  let outcome (run : Outcome ApprovalResult * World) (st msg : string) :=
    exists r w' o',
      run = (Ret r, w') /\ orders (db w') !! order_id o = Some o' /\
      success r = true /\ message r = msg /\ status o' = st /\
      executed_at o' = None /\ execution_result o' = None /\
      no_money_moved w w' /\ game_loads (db w') = game_loads (db w) in
  outcome (Backend._process_approval o u a aid fa now w)
    "APPROVED_EXECUTED" "Order approved and executed successfully" /\
  outcome (AI9._process_approval o u a aid fa now w)
    "APPROVED_FAILED"
    "Order approved and executed successfully (APPROVED_FAILED)".
Proof.
  intros Hf Hu Ho Hkind outcome. subst outcome. calm w.
  destruct (unknown_kind _ Hkind) as (K1 & K2 & K3 & K4).
  split.
  - destruct (Backend._process_approval _ _ _ _ _ _ _) as [out w'] eqn:Hrun.
    backend_paths Hrun Hu.
    all: do 3 eexists; split; [reflexivity|]; unfold no_money_moved;
         row_after Ho; split; [reflexivity|].
    all: result_fields; settle.
  - destruct (AI9._process_approval _ _ _ _ _ _ _) as [out w'] eqn:Hrun.
    ai9_paths Hrun.
    all: do 3 eexists; split; [reflexivity|]; unfold no_money_moved;
         row_after Ho; split; [reflexivity|].
    all: result_fields; settle.
Qed.

(** An order of type "bonus": [AI9] reports success and leaves it
    [APPROVED_FAILED]. *)
Lemma X11_witness :
  exists r w' o',
    AI9._process_approval
      (mk_order "o1" "u1" "bonus" "pending" 50000) (mk_user "u1" "ana" 0)
      ADMIN "adm" None 1000
      (mk_world (order_db "bonus" "pending" 50000 0)) = (Ret r, w') /\
    orders (db w') !! "o1" = Some o' /\
    success r = true /\ status o' = "APPROVED_FAILED".
Proof.
  assert (Hk : "bonus" ∉ known_kinds)
    by (apply (bool_decide_unpack _); vm_compute; exact I).
  destruct (X11_unknown_order_type
    (mk_world (order_db "bonus" "pending" 50000 0))
    (mk_order "o1" "u1" "bonus" "pending" 50000)
    (mk_user "u1" "ana" 0) ADMIN "adm" None 1000
    eq_refl eq_refl eq_refl Hk)
    as [_ (r & w' & o' & Hrun & Ho & Hs & _ & Hst & _)].
  exists r, w', o'. repeat split; assumption.
Defined.

(** X12: the result of an approval tells what the order row holds.  In
    [Backend] the status of the result is the status of the row, success
    means [APPROVED_EXECUTED], and a failure carries the execution error of
    the row; in [AI9] a success carries the final status, the amount and
    the execution result of the row, and a failure means
    [APPROVED_FAILED]. *)
Theorem X12_result_tells_the_row w o u a aid fa now :
  faults w = [] ->
  users (db w) !! user_id u = Some u ->
  orders (db w) !! order_id o = Some o ->
  (exists r w' o',
     Backend._process_approval o u a aid fa now w = (Ret r, w') /\
     orders (db w') !! order_id o = Some o' /\
     dict_get (data r) "status" = Some (JStr (status o')) /\
     (success r = true <-> status o' = "APPROVED_EXECUTED") /\
     (success r = true ->
      execution_error o' = None /\
      dict_get (data r) "amount" = Some (JNum (amount o')) /\
      dict_get (data r) "amount_adjusted"
        = Some (JBool (amount_adjusted o')) /\
      dict_get (data r) "execution_result"
        = Some (default JNone (execution_result o'))) /\
     (success r = false ->
      exists err,
        execution_error o' = Some err /\
        message r = "Execution failed: " +:+ err /\
        dict_get (data r) "execution_error" = Some (JStr err))) /\
  (exists r w' o',
     AI9._process_approval o u a aid fa now w = (Ret r, w') /\
     orders (db w') !! order_id o = Some o' /\
     (success r = true ->
      dict_get (data r) "final_status" = Some (JStr (status o')) /\
      message r =
        "Order approved and executed successfully (" +:+ status o' +:+ ")" /\
      dict_get (data r) "amount" = Some (JNum (amount o')) /\
      dict_get (data r) "amount_adjusted"
        = Some (JBool (amount_adjusted o')) /\
      dict_get (data r) "execution_result"
        = Some (default JNone (execution_result o'))) /\
     (success r = false ->
      status o' = "APPROVED_FAILED" /\
      dict_get (data r) "status" = Some (JStr (status o')) /\
      exists err,
        dict_get (data r) "error" = Some (JStr err) /\
        message r = "Order approved but execution failed: " +:+ err /\
        execution_result o' = Some (JStr ("Execution failed: " +:+ err)))).
Proof.
  intros Hf Hu Ho. calm w. split.
  - destruct (Backend._process_approval _ _ _ _ _ _ _) as [out w'] eqn:Hrun.
    backend_paths Hrun Hu.
    all: do 3 eexists; split; [reflexivity|];
         row_after Ho; split; [reflexivity|].
    all: result_fields; cbn [default]; settle.
  - destruct (AI9._process_approval _ _ _ _ _ _ _) as [out w'] eqn:Hrun.
    ai9_paths Hrun.
    all: do 3 eexists; split; [reflexivity|];
         row_after Ho; split; [reflexivity|].
    all: result_fields; cbn [default]; settle.
Qed.

(** The result of approving the top-up of the sample store carries the
    status of its row. *)
Lemma X12_witness :
  exists r w' o',
    Backend._process_approval
      (mk_order "o1" "u1" "wallet_topup" "pending" 50000)
      (mk_user "u1" "ana" 0) ADMIN "adm" None 1000
      (mk_world (order_db "wallet_topup" "pending" 50000 0)) = (Ret r, w') /\
    orders (db w') !! "o1" = Some o' /\
    dict_get (data r) "status" = Some (JStr (status o')).
Proof.
  destruct (X12_result_tells_the_row
    (mk_world (order_db "wallet_topup" "pending" 50000 0))
    (mk_order "o1" "u1" "wallet_topup" "pending" 50000)
    (mk_user "u1" "ana" 0) ADMIN "adm" None 1000
    eq_refl eq_refl eq_refl) as [(r & w' & o' & Hrun & Ho & Hst & _) _].
  exists r, w', o'. repeat split; assumption.
Defined.

(** ** The user row and the events *)

Ltac user_fields :=
  cbn [user_id username display_name real_balance bonus_balance
       deposit_count total_deposited total_withdrawn
       user_credit user_withdraw user_set_balance].

(** X13: the counters of the user row.  An approved top-up or deposit
    adds the amount to [total_deposited], one to [deposit_count] and the
    bonus to [bonus_balance]; an approved withdrawal that is covered adds
    the amount to [total_withdrawn].  The counters move from the stored
    row, the balance is written from the row the caller read; the order row
    holds the effective amount and the total with the bonus. *)
Theorem X13_user_counters w o u cu a aid fa now :
  faults w = [] ->
  users (db w) !! user_id u = Some cu ->
  orders (db w) !! order_id o = Some o ->
  let amt := effective_amount fa o in
  let bonus := num_or (bonus_amount o) 0 in
  let b := num_or (real_balance u) 0 in
  let outcome (run : Outcome ApprovalResult * World)
        (change : User -> User -> Prop) :=
    exists r w' u' o',
      run = (Ret r, w') /\ success r = true /\
      users (db w') !! user_id u = Some u' /\ change cu u' /\
      orders (db w') !! order_id o = Some o' /\
      amount o' = amt /\ total_amount o' = amt + bonus in
  (order_type o ∈ ["wallet_topup"; "deposit"] ->
   outcome (Backend._process_approval o u a aid fa now w)
     (credited amt bonus b) /\
   outcome (AI9._process_approval o u a aid fa now w)
     (credited amt bonus b)) /\
  (order_type o = "withdrawal" -> amt <= b ->
   outcome (Backend._process_approval o u a aid fa now w) (debited amt b) /\
   outcome (AI9._process_approval o u a aid fa now w) (debited amt b)).
Proof.
  intros Hf Hu Ho amt bonus b outcome. subst amt bonus b outcome. calm w.
  split; [intros Hkind; apply listed_true in Hkind
         |intros Hkind Hcover; apply String.eqb_eq in Hkind].
  all: split.
  all: match goal with
       | |- context [Backend._process_approval] =>
           destruct (Backend._process_approval _ _ _ _ _ _ _)
             as [out w'] eqn:Hrun;
           backend_paths Hrun Hu
       | |- context [AI9._process_approval] =>
           destruct (AI9._process_approval _ _ _ _ _ _ _)
             as [out w'] eqn:Hrun;
           ai9_paths Hrun
       end.
  all: try match goal with
           | H : (_ <? _) = true |- _ => apply Z.ltb_lt in H; lia
           end.
  all: do 4 eexists; split; [reflexivity|]; split; [reflexivity|];
       row_after Ho; rewrite ?lookup_alter_eq, ?Hu;
       cbn [fmap option_fmap option_map].
  all: split; [reflexivity|]; unfold credited, debited; user_fields;
       order_fields; settle.
Qed.

(** The top-up of the sample store credits 50000 and counts one
    deposit. *)
Lemma X13_witness :
  exists u',
    users (db (snd (Backend._process_approval
                      (mk_order "o1" "u1" "wallet_topup" "pending" 50000)
                      (mk_user "u1" "ana" 0) ADMIN "adm" None 1000
                      (mk_world
                         (order_db "wallet_topup" "pending" 50000 0)))))
      !! "u1" = Some u' /\
    credited 50000 0 0 (mk_user "u1" "ana" 0) u'.
Proof.
  pose proof (X13_user_counters
    (mk_world (order_db "wallet_topup" "pending" 50000 0))
    (mk_order "o1" "u1" "wallet_topup" "pending" 50000)
    (mk_user "u1" "ana" 0) (mk_user "u1" "ana" 0) ADMIN "adm" None 1000
    eq_refl eq_refl eq_refl) as H.
  cbv zeta in H. destruct H as [H _].
  destruct (H (list_elem_of_here _ _))
    as [(r & w' & u' & o' & Hrun & _ & Hu & Hc & _) _].
  exists u'. rewrite Hrun. split; [exact Hu|exact Hc].
Defined.

(** X14: the events of an approval.  An approval emits at most three
    events, all of them about the order and its user.  On success the first
    one is the approval event, with the effective amount, and none asks for
    action; on failure nothing is emitted or, for a game load only, the
    one event [GAME_LOAD_FAILED], which asks for action. *)
Theorem X14_approval_events w o u a aid fa now :
  faults w = [] ->
  users (db w) !! user_id u = Some u ->
  orders (db w) !! order_id o = Some o ->
  let outcome (run : Outcome ApprovalResult * World) :=
    exists r w' evs,
      run = (Ret r, w') /\ events w' = events w ++ evs /\
      Forall (about_order o u) evs /\ (length evs <= 3)%nat /\
      (success r = true ->
       exists e rest,
         evs = e :: rest /\ event_type e ∈ approval_event_types /\
         e_amount e = Some (effective_amount fa o) /\
         Forall (fun e => requires_action e = false) evs) /\
      (success r = false ->
       evs = [] \/
       order_type o = "game_load" /\
       exists e, evs = [e] /\ event_type e = GAME_LOAD_FAILED /\
                 requires_action e = true) in
  outcome (Backend._process_approval o u a aid fa now w) /\
  outcome (AI9._process_approval o u a aid fa now w).
Proof.
  intros Hf Hu Ho outcome. subst outcome. calm w. split.
  all: match goal with
       | |- context [Backend._process_approval] =>
           destruct (Backend._process_approval _ _ _ _ _ _ _)
             as [out w'] eqn:Hrun;
           backend_paths Hrun Hu
       | |- context [AI9._process_approval] =>
           destruct (AI9._process_approval _ _ _ _ _ _ _)
             as [out w'] eqn:Hrun;
           ai9_paths Hrun
       end.
  all: kind_facts.
  all: do 3 eexists; split; [reflexivity|]; cbn [events success].
  all: split; [finish_lists|]; cbn [app].
  all: split; [solve [repeat constructor]|].
  all: split; [cbn [length]; lia|].
  all: split; intros Hok; try discriminate Hok.
  all: try (do 2 eexists; split; [reflexivity|]; cbn [event_type e_amount];
            split; [unfold approval_event_types; event_kind|];
            split; [reflexivity|solve [repeat constructor]]).
  all: first [ left; reflexivity
             | right; split; [assumption|]; eexists; repeat split ].
Qed.

(** Approving the top-up of the sample store emits at most three
    events. *)
Lemma X14_witness :
  exists r w' evs,
    Backend._process_approval
      (mk_order "o1" "u1" "wallet_topup" "pending" 50000)
      (mk_user "u1" "ana" 0) ADMIN "adm" None 1000
      (mk_world (order_db "wallet_topup" "pending" 50000 0)) = (Ret r, w') /\
    events w' = evs /\ (length evs <= 3)%nat.
Proof.
  destruct (X14_approval_events
    (mk_world (order_db "wallet_topup" "pending" 50000 0))
    (mk_order "o1" "u1" "wallet_topup" "pending" 50000)
    (mk_user "u1" "ana" 0) ADMIN "adm" None 1000
    eq_refl eq_refl eq_refl)
    as [(r & w' & evs & Hrun & Hev & _ & Hlen & _) _].
  exists r, w', evs. repeat split; assumption.
Defined.

(** ** The executions *)

Lemma returns_try {A} (body : M A) handler :
  (forall e, returns (handler e)) -> returns (try_except body handler).
Proof.
  intros Hk w. unfold try_except.
  destruct (body w) as [[a|e] w1]; [eauto|apply Hk].
Qed.

Lemma yields_ret {A} (Q : A -> Prop) a : Q a -> yields Q (ret a).
Proof. intros Ha w a' w' [= <- <-]. exact Ha. Qed.

Lemma yields_raise {A} (Q : A -> Prop) e : yields Q (raise e).
Proof. intros w a w'. discriminate. Qed.

Lemma yields_bind {A B} (Q : B -> Prop) (m : M A) (k : A -> M B) :
  (forall a, yields Q (k a)) -> yields Q (bind m k).
Proof.
  intros Hk w b w'. unfold bind.
  destruct (m w) as [[a|e] w1]; [apply Hk|discriminate].
Qed.

Lemma yields_try {A} (Q : A -> Prop) (body : M A) handler :
  yields Q body -> (forall e, yields Q (handler e)) ->
  yields Q (try_except body handler).
Proof.
  intros Hm Hk w a w'. unfold try_except.
  destruct (body w) as [[a1|e] w1] eqn:Hrun.
  - intros [= <- <-]. eapply Hm, Hrun.
  - apply Hk.
Qed.

Ltac yielding :=
  repeat (cbv beta zeta;
          lazymatch goal with
          | |- yields _ (ret _) => apply yields_ret
          | |- yields _ (raise _) => apply yields_raise
          | |- yields _ (try_except _ _) => apply yields_try; [|intros ?]
          | |- yields _ (bind _ _) => apply yields_bind; intros ?
          | |- yields _ (match ?x with _ => _ end) => destruct x
          end).

(** X15: the executions of [Backend] never raise.  Whatever the store
    and whatever statements fail, [execute_game_load] and
    [execute_withdrawal] return a result with a boolean [success], and with
    an [error] string when it is false; [execute_withdrawal] writes
    nothing. *)
Theorem X15_executions_report o u w :
  (exists res w',
     Backend.execute_game_load o u w = (Ret res, w') /\ reports res = true) /\
  (exists res w',
     Backend.execute_withdrawal o u w = (Ret res, w') /\
     reports res = true /\ db w' = db w).
Proof.
  split.
  - assert (Hr : returns (Backend.execute_game_load o u))
      by (apply returns_try; intros e; apply returns_ret).
    destruct (Hr w) as (res & w' & Hrun). exists res, w'.
    split; [exact Hrun|].
    revert Hrun. generalize w res w'.
    change (yields (fun res => reports res = true)
              (Backend.execute_game_load o u)).
    unfold Backend.execute_game_load. yielding; reflexivity.
  - assert (Hr : returns (Backend.execute_withdrawal o u))
      by (apply returns_try; intros e; apply returns_ret).
    destruct (Hr w) as (res & w' & Hrun). exists res, w'.
    split; [exact Hrun|]. split.
    + revert Hrun. generalize w res w'.
      change (yields (fun res => reports res = true)
                (Backend.execute_withdrawal o u)).
      unfold Backend.execute_withdrawal. yielding; reflexivity.
    + assert (Hk : keeps eq (Backend.execute_withdrawal o u))
        by (unfold Backend.execute_withdrawal; keeping).
      specialize (Hk w). rewrite Hrun in Hk. symmetry. exact Hk.
Qed.

(** X16: approving a game load.  [Backend] runs the load on the amount of
    the order as it was read, even when the approval adjusts it: with the
    game found and the balance covering that amount, the wallet is debited
    and a completed game-load record is appended; a game that is not found
    and a balance that is short both leave the order [APPROVED_FAILED] with
    no money moved.  [AI9] marks the order executed, pending execution
    elsewhere, and moves nothing. *)
Theorem X16_game_load_approval w o u a aid fa now :
  faults w = [] ->
  users (db w) !! user_id u = Some u ->
  orders (db w) !! order_id o = Some o ->
  order_type o = "game_load" ->
  let balance := num_or (real_balance u) 0 in
  (exists r w' o',
     Backend._process_approval o u a aid fa now w = (Ret r, w') /\
     orders (db w') !! order_id o = Some o' /\
     amount o' = effective_amount fa o /\
     (forall game,
        select_game (game_name o) (db w) = Some game ->
        amount o <= balance ->
        success r = true /\ status o' = "APPROVED_EXECUTED" /\
        balance_of (user_id u) w' = Some (balance - amount o) /\
        exists e g,
          wallet_ledger (db w') = wallet_ledger (db w) ++ [e] /\
          game_loads (db w') = game_loads (db w) ++ [g] /\
          l_amount e = amount o /\ gl_amount g = amount o /\
          gl_game_id g = game_id game /\ gl_status g = "completed" /\
          wallet_balance_before g = balance /\
          wallet_balance_after g = balance - amount o) /\
     (select_game (game_name o) (db w) = None ->
      success r = false /\ status o' = "APPROVED_FAILED" /\
      execution_error o' = Some ("Game not found: " +:+ game_name o) /\
      no_money_moved w w' /\ game_loads (db w') = game_loads (db w)) /\
     (is_Some (select_game (game_name o) (db w)) ->
      balance < amount o ->
      success r = false /\ status o' = "APPROVED_FAILED" /\
      execution_error o' = Some "Insufficient wallet balance" /\
      no_money_moved w w' /\ game_loads (db w') = game_loads (db w))) /\
  (exists r w' o',
     AI9._process_approval o u a aid fa now w = (Ret r, w') /\
     orders (db w') !! order_id o = Some o' /\
     success r = true /\ status o' = "APPROVED_EXECUTED" /\
     amount o' = effective_amount fa o /\
     execution_result o' =
       Some (JStr "Game load approved - pending execution via game_routes") /\
     no_money_moved w w' /\ game_loads (db w') = game_loads (db w)).
Proof.
  intros Hf Hu Ho Hkind balance. subst balance. calm w.
  apply String.eqb_eq in Hkind. split.
  - destruct (Backend._process_approval _ _ _ _ _ _ _) as [out w'] eqn:Hrun.
    backend_paths Hrun Hu.
    all: do 3 eexists; split; [reflexivity|]; unfold no_money_moved, balance_of;
         row_after Ho; rewrite ?lookup_alter_eq, ?Hu;
         cbn [fmap option_fmap option_map mbind option_bind];
         split; [reflexivity|].
    all: result_fields; user_fields.
    all: split; [reflexivity|].
    all: repeat match goal with
                | H : (_ <? 0) = true |- _ => apply Z.ltb_lt in H
                | H : (_ <? 0) = false |- _ => apply Z.ltb_ge in H
                end.
    all: split; [intros game [= <-] Hcover; try lia
                |split; [intros [=]|intros [g' [=]] Hshort; try lia]].
    all: try (split; [reflexivity|]; split; [reflexivity|];
              split; [reflexivity|]; do 2 eexists; repeat split).
    all: try (repeat split; reflexivity).
  - destruct (AI9._process_approval _ _ _ _ _ _ _) as [out w'] eqn:Hrun.
    ai9_paths Hrun.
    all: do 3 eexists; split; [reflexivity|]; unfold no_money_moved;
         row_after Ho; split; [reflexivity|].
    all: result_fields; settle.
Qed.

(** A game load of 50000 on a balance of 80000: [AI9] marks it executed
    and moves nothing. *)
Lemma X16_witness :
  exists r w' o',
    AI9._process_approval
      (mk_order "o1" "u1" "game_load" "pending" 50000)
      (mk_user "u1" "ana" 80000) ADMIN "adm" None 1000
      (mk_world (order_db "game_load" "pending" 50000 80000))
      = (Ret r, w') /\
    orders (db w') !! "o1" = Some o' /\
    status o' = "APPROVED_EXECUTED" /\
    no_money_moved (mk_world (order_db "game_load" "pending" 50000 80000))
      w'.
Proof.
  destruct (X16_game_load_approval
    (mk_world (order_db "game_load" "pending" 50000 80000))
    (mk_order "o1" "u1" "game_load" "pending" 50000)
    (mk_user "u1" "ana" 80000) ADMIN "adm" None 1000
    eq_refl eq_refl eq_refl eq_refl)
    as [_ (r & w' & o' & Hrun & Ho & _ & Hst & _ & _ & Hm & _)].
  exists r, w', o'.
  split; [exact Hrun|]. split; [exact Ho|]. split; [exact Hst|exact Hm].
Defined.

(** ** The two copies side by side *)

(** X17: where the two copies agree.  On the approval of a top-up, a
    deposit or a withdrawal, and on any rejection, [Backend] and [AI9]
    leave the same user rows, the same ledger and the same order status,
    and report the same success. *)
Theorem X17_copies_agree w o u a aid fa rr now :
  faults w = [] ->
  users (db w) !! user_id u = Some u ->
  orders (db w) !! order_id o = Some o ->
  (order_type o ∈ ledger_kinds ->
   same_outcome (order_id o)
     (Backend._process_approval o u a aid fa now w)
     (AI9._process_approval o u a aid fa now w)) /\
  same_outcome (order_id o)
    (Backend._process_rejection o u a aid rr now w)
    (AI9._process_rejection o u a aid rr now w).
Proof.
  intros Hf Hu Ho. calm w. split.
  - intros Hkind.
    assert (Hgl : String.eqb (order_type o) "game_load" = false).
    { apply String.eqb_neq. intros E. rewrite E in Hkind.
      unfold ledger_kinds in Hkind. rewrite !elem_of_cons, elem_of_nil in Hkind.
      destruct Hkind as [H | [H | [H | []]]]; discriminate H. }
    assert (Hknown : order_type o ∈ known_kinds).
    { unfold ledger_kinds, known_kinds in *.
      rewrite !elem_of_cons, elem_of_nil in *. tauto. }
    destruct (Backend._process_approval _ _ _ _ _ _ _) as [out1 w1] eqn:Hb.
    destruct (AI9._process_approval _ _ _ _ _ _ _) as [out2 w2] eqn:Ha.
    unfold Backend._process_approval, Backend.execute_withdrawal,
      Backend.execute_game_load, select_user in Hb.
    unfold AI9._process_approval in Ha.
    fold (effective_amount fa o) (is_adjusted fa o) in Hb, Ha.
    destruct (is_adjusted fa o) eqn:Hadj.
    all: kinds o.
    all: try (exfalso; kind_facts;
              unfold known_kinds in Hknown;
              rewrite !elem_of_cons, elem_of_nil in Hknown;
              intuition congruence).
    all: run_in Hb; run_in Ha.
    all: try (assert (Hsame :
                 (num_or (real_balance u) 0 <? effective_amount fa o)
                 = (num_or (real_balance u) 0 - effective_amount fa o <? 0))
               by (destruct (_ <? effective_amount fa o) eqn:E1;
                   destruct (_ - _ <? 0) eqn:E2; try reflexivity;
                   rewrite ?Z.ltb_lt, ?Z.ltb_ge in *; lia);
              rewrite Hsame in Ha;
              split_in Hb
                (num_or (real_balance u) 0 - effective_amount fa o <? 0);
              run_in Hb; run_in Ha).
    all: cbn [users with_users with_orders insert_ledger insert_game_load]
           in Hb.
    all: rewrite ?lookup_alter_eq, ?Hu in Hb.
    all: cbn [fmap option_fmap option_map] in Hb; run_in Hb.
    all: injection Hb as <- <-; injection Ha as <- <-.
    all: unfold same_outcome, order_status, returned;
         cbn [fst snd]; row_after Ho; order_fields; repeat split.
  - unfold Backend._process_rejection, AI9._process_rejection. run.
    unfold same_outcome, order_status, returned;
      cbn [fst snd]; row_after Ho; order_fields; repeat split.
Qed.

(** The two copies agree on the top-up of the sample store. *)
Lemma X17_witness :
  same_outcome "o1"
    (Backend._process_approval
       (mk_order "o1" "u1" "wallet_topup" "pending" 50000)
       (mk_user "u1" "ana" 0) ADMIN "adm" None 1000
       (mk_world (order_db "wallet_topup" "pending" 50000 0)))
    (AI9._process_approval
       (mk_order "o1" "u1" "wallet_topup" "pending" 50000)
       (mk_user "u1" "ana" 0) ADMIN "adm" None 1000
       (mk_world (order_db "wallet_topup" "pending" 50000 0))).
Proof.
  destruct (X17_copies_agree
    (mk_world (order_db "wallet_topup" "pending" 50000 0))
    (mk_order "o1" "u1" "wallet_topup" "pending" 50000)
    (mk_user "u1" "ana" 0) ADMIN "adm" None None 1000
    eq_refl eq_refl eq_refl) as [H _].
  apply H. apply (bool_decide_unpack _). vm_compute. exact I.
Defined.

(** X18: the reason of a rejection.  A rejection stores the reason it was
    given, or "Rejected by reviewer" when none or an empty one was given;
    the same reason is in the result and in the one event emitted, which
    also names the reviewer.  The amount of the order is kept. *)
Theorem X18_rejection_reason w o u a aid rr now :
  faults w = [] ->
  orders (db w) !! order_id o = Some o ->
  let reason := str_or rr "Rejected by reviewer" in
  let outcome (run : Outcome ApprovalResult * World) :=
    exists r w' o' e,
      run = (Ret r, w') /\ orders (db w') !! order_id o = Some o' /\
      events w' = events w ++ [e] /\
      rejection_reason o' = Some reason /\
      dict_get (data r) "reason" = Some (JStr reason) /\
      dict_get (extra_data e) "reason" = Some (JStr reason) /\
      dict_get (extra_data e) "rejected_by" = Some (JStr aid) /\
      amount o' = amount o /\ e_amount e = Some (amount o) in
  outcome (Backend._process_rejection o u a aid rr now w) /\
  outcome (AI9._process_rejection o u a aid rr now w) /\
  (rr = None \/ rr = Some "" -> reason = "Rejected by reviewer") /\
  (forall s, rr = Some s -> s <> "" -> reason = s).
Proof.
  intros Hf Ho reason outcome. subst reason outcome. calm w.
  split; [|split; [|split]].
  - unfold Backend._process_rejection. run.
    do 4 eexists. split; [reflexivity|]. row_after Ho.
    repeat split.
  - unfold AI9._process_rejection. run.
    do 4 eexists. split; [reflexivity|]. row_after Ho.
    repeat split.
  - intros [-> | ->]; reflexivity.
  - intros s -> Hs. unfold str_or.
    apply String.eqb_neq in Hs. now rewrite Hs.
Qed.

(** A rejection with no reason stores the default one. *)
Lemma X18_witness :
  exists r w' o',
    Backend._process_rejection
      (mk_order "o1" "u1" "wallet_topup" "pending" 50000)
      (mk_user "u1" "ana" 0) ADMIN "adm" None 1000
      (mk_world (order_db "wallet_topup" "pending" 50000 0)) = (Ret r, w') /\
    orders (db w') !! "o1" = Some o' /\
    rejection_reason o' = Some "Rejected by reviewer".
Proof.
  pose proof (X18_rejection_reason
    (mk_world (order_db "wallet_topup" "pending" 50000 0))
    (mk_order "o1" "u1" "wallet_topup" "pending" 50000)
    (mk_user "u1" "ana" 0) ADMIN "adm" None 1000 eq_refl eq_refl) as H.
  cbv zeta in H.
  destruct H as [(r & w' & o' & e & Hrun & Ho & _ & Hr & _) _].
  exists r, w', o'. repeat split; assumption.
Defined.

(** ** One movement of money *)

Ltac moved_leaf Ho Hu :=
  unfold moved, executed_as, credited, debited, others_kept;
  row_after Ho; rewrite ?lookup_alter_eq, ?Hu;
  cbn [fmap option_fmap option_map];
  split;
  [ split; [reflexivity|]; eexists; split; [reflexivity|];
    order_fields; repeat split; reflexivity
  | split; [reflexivity|]; split; [reflexivity|];
    split; [intros ?k ?Hk; now rewrite !lookup_alter_ne by congruence|];
    split; [intros ?k ?Hk; now rewrite ?lookup_alter_ne by congruence|];
    split;
    [ eexists; split; [reflexivity|]; user_fields; repeat split; reflexivity
    | eexists; split; [reflexivity|]; repeat split; reflexivity ] ].

Lemma Backend_credit w o u a aid fa now :
  faults w = [] ->
  users (db w) !! user_id u = Some u ->
  orders (db w) !! order_id o = Some o ->
  order_type o ∈ ["wallet_topup"; "deposit"] ->
  let amt := effective_amount fa o in
  let bonus := num_or (bonus_amount o) 0 in
  exists r w',
    Backend._process_approval o u a aid fa now w = (Ret r, w') /\
    executed_as amt (amt + bonus) o r w' /\
    moved credit amt o u (credited amt bonus (num_or (real_balance u) 0)) w w'.
Proof.
  intros Hf Hu Ho Hkind amt bonus. subst amt bonus. calm w.
  apply listed_true in Hkind.
  destruct (Backend._process_approval _ _ _ _ _ _ _) as [out w'] eqn:Hrun.
  backend_paths Hrun Hu.
  all: do 2 eexists; split; [reflexivity|]; moved_leaf Ho Hu.
Qed.

Lemma AI9_credit w o u a aid fa now :
  faults w = [] ->
  users (db w) !! user_id u = Some u ->
  orders (db w) !! order_id o = Some o ->
  order_type o ∈ ["wallet_topup"; "deposit"] ->
  let amt := effective_amount fa o in
  let bonus := num_or (bonus_amount o) 0 in
  exists r w',
    AI9._process_approval o u a aid fa now w = (Ret r, w') /\
    executed_as amt (amt + bonus) o r w' /\
    moved credit amt o u (credited amt bonus (num_or (real_balance u) 0)) w w'.
Proof.
  intros Hf Hu Ho Hkind amt bonus. subst amt bonus. calm w.
  apply listed_true in Hkind.
  destruct (AI9._process_approval _ _ _ _ _ _ _) as [out w'] eqn:Hrun.
  ai9_paths Hrun.
  all: do 2 eexists; split; [reflexivity|]; moved_leaf Ho Hu.
Qed.

Lemma Backend_debit w o u a aid fa now :
  faults w = [] ->
  users (db w) !! user_id u = Some u ->
  orders (db w) !! order_id o = Some o ->
  order_type o = "withdrawal" ->
  let amt := effective_amount fa o in
  let bonus := num_or (bonus_amount o) 0 in
  amt <= num_or (real_balance u) 0 ->
  exists r w',
    Backend._process_approval o u a aid fa now w = (Ret r, w') /\
    executed_as amt (amt + bonus) o r w' /\
    moved debit amt o u (debited amt (num_or (real_balance u) 0)) w w'.
Proof.
  intros Hf Hu Ho Hkind amt bonus Hcover. subst amt bonus. calm w.
  apply String.eqb_eq in Hkind.
  destruct (Backend._process_approval _ _ _ _ _ _ _) as [out w'] eqn:Hrun.
  backend_paths Hrun Hu.
  all: try match goal with
           | H : (_ <? _) = true |- _ => apply Z.ltb_lt in H; lia
           end.
  all: do 2 eexists; split; [reflexivity|]; moved_leaf Ho Hu.
Qed.

Lemma AI9_debit w o u a aid fa now :
  faults w = [] ->
  users (db w) !! user_id u = Some u ->
  orders (db w) !! order_id o = Some o ->
  order_type o = "withdrawal" ->
  let amt := effective_amount fa o in
  let bonus := num_or (bonus_amount o) 0 in
  amt <= num_or (real_balance u) 0 ->
  exists r w',
    AI9._process_approval o u a aid fa now w = (Ret r, w') /\
    executed_as amt (amt + bonus) o r w' /\
    moved debit amt o u (debited amt (num_or (real_balance u) 0)) w w'.
Proof.
  intros Hf Hu Ho Hkind amt bonus Hcover. subst amt bonus. calm w.
  apply String.eqb_eq in Hkind.
  destruct (AI9._process_approval _ _ _ _ _ _ _) as [out w'] eqn:Hrun.
  ai9_paths Hrun.
  all: try match goal with
           | H : (_ <? _) = true |- _ => apply Z.ltb_lt in H; lia
           end.
  all: do 2 eexists; split; [reflexivity|]; moved_leaf Ho Hu.
Qed.

(** ** A top-up, then a withdrawal *)

Lemma backend_states_in_ai9 (s : string) :
  s ∈ Backend.order_pending_states -> s ∈ AI9.order_pending_states.
Proof.
  unfold Backend.order_pending_states, AI9.order_pending_states.
  rewrite !elem_of_cons, !elem_of_nil. tauto.
Qed.

Lemma Backend_order_approves w oid a aid fa rr bid o u :
  faults w = [] ->
  authorized can_approve_payments a bid (db w) = true ->
  orders (db w) !! oid = Some o ->
  status o ∈ Backend.order_pending_states ->
  users (db w) !! o_user_id o = Some u ->
  Backend.approve_or_reject_order oid "approve" a aid fa rr bid w =
  Backend._process_approval o u a aid fa (clock w) (tick w).
Proof.
  intros Hf Ha Ho Hs Hu. rewrite Backend_order_entry by assumption.
  now rewrite (authorized_denial _ _ _ _ _ Ha), Ho, (listed_true _ _ Hs), Hu.
Qed.

Lemma AI9_order_approves w oid a aid fa rr bid o u :
  faults w = [] ->
  authorized can_approve_payments a bid (db w) = true ->
  orders (db w) !! oid = Some o ->
  status o ∈ Backend.order_pending_states ->
  users (db w) !! o_user_id o = Some u ->
  AI9.approve_or_reject_order oid "approve" a aid fa rr bid w =
  AI9._process_approval o u a aid fa (clock w) (tick w).
Proof.
  intros Hf Ha Ho Hs Hu. apply backend_states_in_ai9 in Hs.
  rewrite AI9_order_entry by assumption.
  now rewrite (authorized_denial _ _ _ _ _ Ha), Ho, (listed_true _ _ Hs), Hu.
Qed.

Section RoundTrip.
Variable entry : EntryPoint.
Variable approve :
  Order -> User -> ActorType -> string -> option Z -> Time ->
  M ApprovalResult.

Hypothesis dispatch : forall w oid a aid fa rr bid o u,
  faults w = [] ->
  authorized can_approve_payments a bid (db w) = true ->
  orders (db w) !! oid = Some o ->
  status o ∈ Backend.order_pending_states ->
  users (db w) !! o_user_id o = Some u ->
  entry oid "approve" a aid fa rr bid w =
  approve o u a aid fa (clock w) (tick w).

Hypothesis credits : forall w o u a aid fa now,
  faults w = [] ->
  users (db w) !! user_id u = Some u ->
  orders (db w) !! order_id o = Some o ->
  order_type o ∈ ["wallet_topup"; "deposit"] ->
  let amt := effective_amount fa o in
  let bonus := num_or (bonus_amount o) 0 in
  exists r w',
    approve o u a aid fa now w = (Ret r, w') /\
    executed_as amt (amt + bonus) o r w' /\
    moved credit amt o u (credited amt bonus (num_or (real_balance u) 0)) w w'.

Hypothesis debits : forall w o u a aid fa now,
  faults w = [] ->
  users (db w) !! user_id u = Some u ->
  orders (db w) !! order_id o = Some o ->
  order_type o = "withdrawal" ->
  let amt := effective_amount fa o in
  let bonus := num_or (bonus_amount o) 0 in
  amt <= num_or (real_balance u) 0 ->
  exists r w',
    approve o u a aid fa now w = (Ret r, w') /\
    executed_as amt (amt + bonus) o r w' /\
    moved debit amt o u (debited amt (num_or (real_balance u) 0)) w w'.

Lemma round_trip_of w a aid bid top wd u x :
  faults w = [] ->
  authorized can_approve_payments a bid (db w) = true ->
  orders (db w) !! order_id top = Some top ->
  orders (db w) !! order_id wd = Some wd ->
  order_id top <> order_id wd ->
  users (db w) !! user_id u = Some u ->
  o_user_id top = user_id u -> o_user_id wd = user_id u ->
  order_type top ∈ ["wallet_topup"; "deposit"] ->
  order_type wd = "withdrawal" ->
  status top ∈ Backend.order_pending_states ->
  status wd ∈ Backend.order_pending_states ->
  amount top = x -> amount wd = x ->
  0 <= num_or (real_balance u) 0 ->
  round_trip top wd u x (num_or (real_balance u) 0) w
    (approve_both entry a aid bid top wd w).
Proof.
  intros Hf Ha Htop Hwd Hne Hu Hto Hwo Hkt Hkw Hst Hsw Hxt Hxw Hb.
  unfold approve_both.
  (* the top-up *)
  rewrite (dispatch w (order_id top) a aid None None bid top u)
    by (try assumption; now rewrite Hto).
  destruct (credits (tick w) top u a aid None (clock w))
    as (r1 & w1 & -> & [_ (top' & Htop' & Hstop & _)] & Hm1);
    try assumption.
  cbn [snd effective_amount] in *. rewrite Hxt in Hm1.
  destruct Hm1 as (Hf1 & Hbots1 & Hord1 & _ & (u1 & Hu1 & Hid1 & Hcr)
                   & e1 & Hl1 & Hd1 & Ha1 & _ & _ & Hb1 & Hn1).
  destruct Hcr as (Hbal1 & _).
  (* the withdrawal *)
  assert (Hwd1 : orders (db w1) !! order_id wd = Some wd).
  { rewrite Hord1 by congruence. exact Hwd. }
  rewrite <- Hid1 in Hu1.
  rewrite (dispatch w1 (order_id wd) a aid None None bid wd u1);
    try assumption;
    [|now rewrite (authorized_ext _ _ _ _ _ Hbots1)|congruence].
  destruct (debits (tick w1) wd u1 a aid None (clock w1))
    as (r2 & w2 & -> & [_ (wd' & Hwd' & Hswd & _)] & Hm2);
    try assumption.
  { cbn [effective_amount]. rewrite Hbal1, num_or_zero. lia. }
  cbn [snd effective_amount] in *. rewrite Hxw in Hm2.
  destruct Hm2 as (_ & _ & Hord2 & _ & (u2 & Hu2 & _ & Hdb)
                   & e2 & Hl2 & Hd2 & Ha2 & _ & _ & Hb2 & Hn2).
  destruct Hdb as (Hbal2 & _).
  rewrite Hbal1, num_or_zero in Hbal2, Hb2, Hn2.
  (* what is left *)
  unfold round_trip, balance_of, order_status.
  rewrite Hid1 in Hu2. rewrite Hu2, Hwd'.
  rewrite (Hord2 (order_id top)) by congruence.
  cbn [tick db]. rewrite Htop'.
  cbn [fmap option_fmap option_map mbind option_bind].
  split; [rewrite Hbal2; f_equal; lia|].
  split; [now rewrite Hstop|]. split; [now rewrite Hswd|].
  exists e1, e2. rewrite Hl2. cbn [tick db]. rewrite Hl1, <- app_assoc.
  repeat split; try assumption; try reflexivity; lia.
Qed.
End RoundTrip.



(** ** Wallet loads and short withdrawals *)

(** X20: approving a wallet load.  In both copies the approval of a
    pending request credits the effective amount: the request holds it with
    the reviewer and the time of the review, the balance of the user grows
    by it while the counters of the user row stay, one credit entry of type
    "wallet_load" is appended, and the result carries the amount, the new
    balance and whether the amount was adjusted. *)
Theorem X20_wallet_load_credit w rid a aid fa rr bid q u :
  faults w = [] ->
  authorized can_approve_wallet_loads a bid (db w) = true ->
  wallet_load_requests (db w) !! rid = Some q ->
  users (db w) !! lr_user_id q = Some u ->
  lr_status q = "pending" ->
  let amt := load_amount fa q in
  let b := num_or (real_balance u) 0 in
  let outcome (run : Outcome ApprovalResult * World) :=
    exists r w' q' u' e,
      run = (Ret r, w') /\ success r = true /\
      wallet_load_requests (db w') !! rid = Some q' /\
      lr_amount q' = amt /\
      reviewed_by q' = Some aid /\ reviewed_at q' = Some (clock w) /\
      users (db w') !! lr_user_id q = Some u' /\ loaded amt b u u' /\
      wallet_ledger (db w') = wallet_ledger (db w) ++ [e] /\
      transaction_type e = credit /\ l_amount e = amt /\
      l_user_id e = lr_user_id q /\
      reference_type e = "wallet_load" /\ reference_id e = rid /\
      dict_get (data r) "amount" = Some (JNum amt) /\
      dict_get (data r) "new_balance" = Some (JNum (b + amt)) /\
      dict_get (data r) "amount_adjusted"
        = Some (JBool (negb (amt =? lr_amount q))) in
  outcome (Backend.approve_or_reject_wallet_load rid "approve" a aid fa rr bid
             w) /\
  outcome (AI9.approve_or_reject_wallet_load rid "approve" a aid fa rr bid w).
Proof.
  intros Hf Ha Hq Hu Hs amt b outcome. subst amt b outcome. calm w.
  pose proof (authorized_denial _
    "Bot does not have wallet load approval permissions" _ _ _ Ha) as Hd.
  pose proof (select_load_request_joined _ _ _ _ Hq Hu) as Hrow.
  assert (Hs' :
    bool_decide (lr_status q ∈ AI9.request_pending_states) = true).
  { apply listed_true. rewrite Hs. unfold AI9.request_pending_states.
    apply list_elem_of_further, list_elem_of_further, list_elem_of_here. }
  assert (Hp : String.eqb (lr_status q) "pending" = true)
    by now apply String.eqb_eq.
  clear Hs.
  unfold Backend.approve_or_reject_wallet_load,
    AI9.approve_or_reject_wallet_load.
  fold (load_amount fa q).
  split; revert Hd.
  all: wallet_entry can_approve_wallet_loads; intros H; try discriminate H;
       rewrite Hrow; run; wallet_fields; rewrite ?Hp, ?Hs'; run.
  all: fold (load_amount fa q).
  all: do 5 eexists; split; [reflexivity|]; split; [reflexivity|].
  all: cbn [faults db events with_users with_requests insert_ledger
            telegram_bots wallet_load_requests users wallet_ledger];
       rewrite ?lookup_alter_eq, ?Hq, ?Hu;
       cbn [fmap option_fmap option_map].
  all: split; [reflexivity|]; wallet_fields.
  all: do 3 (split; [reflexivity|]).
  all: split; [reflexivity|]; unfold loaded; user_fields.
  all: split; [repeat split; reflexivity|].
  all: split; [reflexivity|].
  all: cbn [success data message dict_get String.eqb Ascii.eqb Bool.eqb];
       wallet_fields.
  all: repeat split; try reflexivity.
  all: destruct fa as [f|]; cbn [load_amount]; try reflexivity;
       now rewrite Z.eqb_refl.
Qed.

(** Approving the pending request of the sample store credits its
    amount. *)
Lemma X20_witness :
  exists r w' u',
    Backend.approve_or_reject_wallet_load "r1" "approve" ADMIN "adm" None
      None None (mk_world (request_db "pending" 50000 0)) = (Ret r, w') /\
    success r = true /\
    users (db w') !! "u1" = Some u' /\ real_balance u' = Some 50000.
Proof.
  pose proof (X20_wallet_load_credit
    (mk_world (request_db "pending" 50000 0)) "r1" ADMIN "adm" None None
    None (mk_request "r1" "u1" "pending" 50000) (mk_user "u1" "ana" 0)
    eq_refl eq_refl eq_refl eq_refl eq_refl) as H.
  cbv zeta in H.
  destruct H as [(r & w' & q' & u' & e & Hrun & Hs & _ & _ & _ & _ & Hu
                  & (Hb & _) & _) _].
  exists r, w', u'. repeat split; assumption.
Defined.

(** X21: a withdrawal the balance does not cover.  Both copies leave the
    order [APPROVED_FAILED], move no money and emit nothing.  [Backend]
    has then already written the adjusted amount and stamps [executed_at];
    [AI9] keeps the amount and the stamps and writes the shortfall, with
    both figures, in [execution_result]. *)
Theorem X21_failed_withdrawal w o u a aid fa now :
  faults w = [] ->
  users (db w) !! user_id u = Some u ->
  orders (db w) !! order_id o = Some o ->
  order_type o = "withdrawal" ->
  let amt := effective_amount fa o in
  let b := num_or (real_balance u) 0 in
  b < amt ->
  let failed (run : Outcome ApprovalResult * World) (o' : Order) :=
    exists r w',
      run = (Ret r, w') /\ success r = false /\
      orders (db w') !! order_id o = Some o' /\
      status o' = "APPROVED_FAILED" /\
      no_money_moved w w' /\ events w' = events w in
  (exists o',
     failed (Backend._process_approval o u a aid fa now w) o' /\
     execution_error o' =
       Some "Withdrawal failed: Insufficient balance for withdrawal" /\
     amount o' = amt /\ amount_adjusted o' = is_adjusted fa o /\
     executed_at o' = Some now) /\
  (exists o',
     failed (AI9._process_approval o u a aid fa now w) o' /\
     execution_result o' =
       Some (JStr ("Execution failed: Insufficient balance: has " +:+ peso b
                   +:+ ", needs " +:+ peso amt)) /\
     amount o' = amount o /\ amount_adjusted o' = amount_adjusted o /\
     executed_at o' = executed_at o).
Proof.
  intros Hf Hu Ho Hkind amt b Hshort failed. subst amt b failed. calm w.
  apply String.eqb_eq in Hkind. split.
  - destruct (Backend._process_approval _ _ _ _ _ _ _) as [out w'] eqn:Hrun.
    backend_paths Hrun Hu.
    all: try match goal with
             | H : (_ <? _) = false |- _ => apply Z.ltb_ge in H; lia
             end.
    all: eexists; split;
         [do 2 eexists; split; [reflexivity|]; split; [reflexivity|];
          unfold no_money_moved; row_after Ho; split; [reflexivity|];
          order_fields; repeat split; reflexivity|].
    all: order_fields; repeat split; reflexivity.
  - destruct (AI9._process_approval _ _ _ _ _ _ _) as [out w'] eqn:Hrun.
    ai9_paths Hrun.
    all: try match goal with
             | H : (_ <? _) = false |- _ => apply Z.ltb_ge in H; lia
             end.
    all: eexists; split;
         [do 2 eexists; split; [reflexivity|]; split; [reflexivity|];
          unfold no_money_moved; row_after Ho; split; [reflexivity|];
          order_fields; repeat split; reflexivity|].
    all: order_fields; repeat split; reflexivity.
Qed.

(** A withdrawal of 50000 on a balance of 100 fails in [Backend] with
    the error of the execution. *)
Lemma X21_witness :
  exists r w' o',
    Backend._process_approval
      (mk_order "o1" "u1" "withdrawal" "pending" 50000)
      (mk_user "u1" "ana" 100) ADMIN "adm" None 1000
      (mk_world (order_db "withdrawal" "pending" 50000 100)) = (Ret r, w') /\
    orders (db w') !! "o1" = Some o' /\
    status o' = "APPROVED_FAILED" /\
    execution_error o' =
      Some "Withdrawal failed: Insufficient balance for withdrawal".
Proof.
  pose proof (X21_failed_withdrawal
    (mk_world (order_db "withdrawal" "pending" 50000 100))
    (mk_order "o1" "u1" "withdrawal" "pending" 50000)
    (mk_user "u1" "ana" 100) ADMIN "adm" None 1000
    eq_refl eq_refl eq_refl eq_refl) as H.
  cbv zeta in H.
  destruct (H eq_refl)
    as [(o' & (r & w' & Hrun & _ & Ho & Hst & _) & He & _) _].
  exists r, w', o'. repeat split; assumption.
Defined.
